(** * The FastAPI project scaffolder ([init_project.py]) over a model of
      pathlib and of a POSIX directory tree.

    [create_project] is embedded as a program of a small state and exception
    monad whose state is the process: the directory tree, the working
    directory and what was printed.  The primitives follow CPython's
    [pathlib], [os] and [shutil] on Linux.  What the model leaves out:
    symbolic links, permissions and quotas, other processes, and names the
    kernel refuses (a NUL byte, an over-long name). *)

From Stdlib Require Import ZArith String Ascii List Lia.
From stdpp Require Import base tactics option list gmap strings.

Local Open Scope string_scope.
Local Open Scope list_scope.

(** ** Strings *)

Definition LF : string := String "010"%char EmptyString.
Definition SEP : ascii := "/"%char.

(** [s.split(sep)] for a one-character separator. *)
Fixpoint split_on (sep : ascii) (s : string) : list string :=
  match s with
  | EmptyString => [EmptyString]
  | String c s' =>
      if Ascii.eqb c sep then EmptyString :: split_on sep s'
      else match split_on sep s' with
           | [] => [String c EmptyString]
           | x :: xs => String c x :: xs
           end
  end.

Fixpoint join_with (sep : string) (l : list string) : string :=
  match l with
  | [] => EmptyString
  | [x] => x
  | x :: xs => x +:+ sep +:+ join_with sep xs
  end.

(** [c in s] for a character. *)
Fixpoint has_char (c : ascii) (s : string) : bool :=
  match s with
  | EmptyString => false
  | String d s' => Ascii.eqb d c || has_char c s'
  end.

(** [needle in hay]. *)
Fixpoint contains (needle hay : string) : bool :=
  String.prefix needle hay ||
  match hay with
  | EmptyString => false
  | String _ hay' => contains needle hay'
  end.

(** The lines of a text, cut at line feeds. *)
Definition lines (s : string) : list string := split_on "010"%char s.

Definition first_line (s : string) : string :=
  match lines s with
  | [] => EmptyString
  | l :: _ => l
  end.

(** ** pathlib.PurePosixPath *)

(** A path is its root ([""], ["/"] or ["//"]) and its parts, as
    [PurePosixPath._parse_path] leaves them: no empty part, no ["."] part;
    [".."] parts are kept. *)
Record Path := mkPath { root : string; parts : list string }.

#[global] Instance Path_eq_dec : EqDecision Path.
Proof. solve_decision. Defined.

(** [posixpath.splitroot]: exactly two leading slashes are a root of their
    own, one or three and more are ["/"]. *)
Definition splitroot (p : string) : string * string :=
  match p with
  | String "/" (String "/" (String "/" r)) => ("/", String "/" (String "/" r))
  | String "/" (String "/" r) => ("//", r)
  | String "/" r => ("/", r)
  | _ => ("", p)
  end.

Definition keep_part (x : string) : bool :=
  negb (String.eqb x "") && negb (String.eqb x ".").

(** [Path(s)]. *)
Definition Path_of (s : string) : Path :=
  let '(rt, rel) := splitroot s in
  mkPath rt (List.filter keep_part (split_on SEP rel)).

(** [self / key]: a rooted [key] replaces [self], otherwise its parts are
    appended. *)
Definition joinpath (self : Path) (key : string) : Path :=
  let k := Path_of key in
  if String.eqb (root k) "" then mkPath (root self) (parts self ++ parts k)
  else k.

Infix "</>" := joinpath (at level 40, left associativity).

(** [self.parent]: lexical, the path itself when there is no part left. *)
Definition parent (self : Path) : Path :=
  mkPath (root self) (removelast (parts self)).

(** [self.name]. *)
Definition name (self : Path) : string := List.last (parts self) "".

(** [str(self)]. *)
Definition Path_str (self : Path) : string :=
  match root self, parts self with
  | "", [] => "."
  | rt, ps => rt +:+ join_with "/" ps
  end.

(** ** The directory tree *)

(** A node is a directory or a regular file with its content.  The tree is
    a finite map from absolute locations (the names from the root down, [[]]
    for the root itself) to nodes. *)
Inductive node := Dir | File (content : string).

#[global] Instance node_eq_dec : EqDecision node.
Proof. solve_decision. Defined.

Abbreviation loc := (list string).
Abbreviation tree := (gmap (list string) node).

(** The exception classes of [OSError] that the tree can raise, with the
    [filename] the exception carries. *)
Inductive errkind :=
  | FileNotFoundError | FileExistsError | NotADirectoryError
  | IsADirectoryError | SameFileError.

#[global] Instance errkind_eq_dec : EqDecision errkind.
Proof. solve_decision. Defined.

Inductive res (A : Type) := Ok (a : A) | Err (e : errkind).
Arguments Ok {A} a.
Arguments Err {A} e.

(** Kernel path walk: every component is looked up in a directory that must
    exist; [".."] steps to the parent (the root is its own parent). *)
Definition step (cur : loc) (c : string) : loc :=
  if String.eqb c ".." then removelast cur else cur ++ [c].

Fixpoint walk (t : tree) (cur : loc) (comps : list string) : res loc :=
  match comps with
  | [] => Ok cur
  | c :: rest =>
      match t !! cur with
      | None => Err FileNotFoundError
      | Some (File _) => Err NotADirectoryError
      | Some Dir => walk t (step cur c) rest
      end
  end.

(** Where a walk starts: the root for a rooted path, else the working
    directory. *)
Definition start (cwd : loc) (p : Path) : loc :=
  if String.eqb (root p) "" then cwd else [].

(** The location a path names, whether or not something is there. *)
Definition locate (t : tree) (cwd : loc) (p : Path) : res loc :=
  walk t (start cwd p) (parts p).

(** [stat(2)]. *)
Definition sys_stat (t : tree) (cwd : loc) (p : Path) : res node :=
  match locate t cwd p with
  | Err e => Err e
  | Ok k => match t !! k with
            | None => Err FileNotFoundError
            | Some n => Ok n
            end
  end.

(** The directory that holds the last component, and that component. *)
Definition locate_parent (t : tree) (cwd : loc) (p : Path) : res (loc * string) :=
  match walk t (start cwd p) (removelast (parts p)) with
  | Err e => Err e
  | Ok d => match t !! d with
            | None => Err FileNotFoundError
            | Some (File _) => Err NotADirectoryError
            | Some Dir => Ok (d, List.last (parts p) "")
            end
  end.

(** [mkdir(2)]: the root, the working directory and a path ending in
    [".."] exist already. *)
Definition sys_mkdir (t : tree) (cwd : loc) (p : Path) : res tree :=
  match parts p with
  | [] => match t !! start cwd p with
          | None => Err FileNotFoundError
          | Some _ => Err FileExistsError
          end
  | _ =>
      match locate_parent t cwd p with
      | Err e => Err e
      | Ok (d, c) =>
          if String.eqb c ".." then Err FileExistsError
          else match t !! (d ++ [c]) with
               | Some _ => Err FileExistsError
               | None => Ok (<[d ++ [c] := Dir]> t)
               end
      end
  end.

(** [open(2)] with [O_CREAT|O_WRONLY] and, when [trunc], [O_TRUNC]: the
    tree after the call and the location of the file that is open. *)
Definition sys_open_w (trunc : bool) (t : tree) (cwd : loc) (p : Path)
  : res (tree * loc) :=
  match parts p with
  | [] => match t !! start cwd p with
          | None => Err FileNotFoundError
          | Some (File _) => Err NotADirectoryError
          | Some Dir => Err IsADirectoryError
          end
  | _ =>
      match locate_parent t cwd p with
      | Err e => Err e
      | Ok (d, c) =>
          if String.eqb c ".." then Err IsADirectoryError
          else match t !! (d ++ [c]) with
               | Some Dir => Err IsADirectoryError
               | Some (File s) =>
                   Ok (if trunc then <[d ++ [c] := File ""]> t else t, d ++ [c])
               | None => Ok (<[d ++ [c] := File ""]> t, d ++ [c])
               end
      end
  end.

(** [open(p, 'rb').read()]: Python refuses to open a directory. *)
Definition sys_read (t : tree) (cwd : loc) (p : Path) : res string :=
  match sys_stat t cwd p with
  | Err e => Err e
  | Ok Dir => Err IsADirectoryError
  | Ok (File s) => Ok s
  end.

(** ** The process and its monad *)

(** The process: the tree it sees, its working directory, what it has
    printed, and [__file__], the path the script was loaded from. *)
Record world := World {
  fs : tree;
  cwd : loc;
  stdout : list string;
  script_file : string
}.

Definition set_fs (t : tree) (w : world) : world :=
  World t (cwd w) (stdout w) (script_file w).

Record OSError := mkOSError { kind : errkind; filename : Path }.

Inductive outcome (A : Type) := Returned (a : A) | Raised (e : OSError).
Arguments Returned {A} a.
Arguments Raised {A} e.

Definition M (A : Type) : Type := world -> world * outcome A.

Definition ret {A} (a : A) : M A := fun w => (w, Returned a).
Definition raise {A} (e : OSError) : M A := fun w => (w, Raised e).
Definition bind {A B} (m : M A) (k : A -> M B) : M B :=
  fun w => match m w with
           | (w', Returned a) => k a w'
           | (w', Raised e) => (w', Raised e)
           end.

Notation "x <- c1 ;; c2" := (bind c1 (fun x => c2))
  (at level 100, c1 at next level, right associativity).
Notation "c1 ;; c2" := (bind c1 (fun _ => c2))
  (at level 100, right associativity).

(** [try: m  except OSError as e: h e]. *)
Definition try_except {A} (m : M A) (h : OSError -> M A) : M A :=
  fun w => match m w with
           | (w', Returned a) => (w', Returned a)
           | (w', Raised e) => h e w'
           end.

(** [for x in l: body x]. *)
Fixpoint for_each {A} (l : list A) (body : A -> M unit) : M unit :=
  match l with
  | [] => ret tt
  | x :: rest => body x ;; for_each rest body
  end.

(** [print(s)]: one entry per call. *)
Definition print (s : string) : M unit :=
  fun w => (World (fs w) (cwd w) (stdout w ++ [s]) (script_file w), Returned tt).

(** [__file__]. *)
Definition get_file : M string := fun w => (w, Returned (script_file w)).

(** Lift a system call that reads the tree. *)
Definition sys_get {A} (f : tree -> loc -> Path -> res A) (p : Path) : M A :=
  fun w => match f (fs w) (cwd w) p with
           | Ok a => (w, Returned a)
           | Err e => (w, Raised (mkOSError e p))
           end.

(** Lift a system call that changes the tree. *)
Definition sys_put (f : tree -> loc -> Path -> res tree) (p : Path) : M unit :=
  fun w => match f (fs w) (cwd w) p with
           | Ok t => (set_fs t w, Returned tt)
           | Err e => (w, Raised (mkOSError e p))
           end.

Definition os_stat : Path -> M node := sys_get sys_stat.
Definition os_mkdir : Path -> M unit := sys_put sys_mkdir.

(** [pathlib._ignore_error]: the errors that mean "not there". *)
Definition ignore_error (e : OSError) : bool :=
  match kind e with
  | FileNotFoundError | NotADirectoryError => true
  | _ => false
  end.

(** [Path.exists()]. *)
Definition Path_exists (self : Path) : M bool :=
  try_except (os_stat self ;; ret true)
             (fun e => if ignore_error e then ret false else raise e).

(** [Path.is_dir()], also [os.path.isdir]. *)
Definition Path_is_dir (self : Path) : M bool :=
  try_except (n <- os_stat self ;;
              ret (match n with Dir => true | File _ => false end))
             (fun e => if ignore_error e then ret false else raise e).

(** [Path.mkdir(parents, exist_ok)].  The recursion is on the parent, which
    has one part less; [fuel] bounds it and [length (parts self)] is
    enough (see [Path_mkdir_rec_fuel]). *)
Fixpoint Path_mkdir_rec (fuel : nat) (self : Path) (parents exist_ok : bool)
  : M unit :=
  try_except (os_mkdir self)
    (fun e =>
       match kind e with
       | FileNotFoundError =>
           if negb parents || bool_decide (parent self = self) then raise e
           else match fuel with
                | O => raise e
                | S n =>
                    Path_mkdir_rec n (parent self) true true ;;
                    Path_mkdir_rec n self false exist_ok
                end
       | _ =>
           if negb exist_ok then raise e
           else d <- Path_is_dir self ;;
                if negb d then raise e else ret tt
       end).

Definition Path_mkdir (self : Path) (parents exist_ok : bool) : M unit :=
  Path_mkdir_rec (length (parts self)) self parents exist_ok.

(** [os.open(p, O_CREAT|O_WRONLY[|O_TRUNC])]; the descriptor is the
    location of the open file. *)
Definition os_open_w (trunc : bool) (p : Path) : M loc :=
  fun w => match sys_open_w trunc (fs w) (cwd w) p with
           | Ok (t, k) => (set_fs t w, Returned k)
           | Err e => (w, Raised (mkOSError e p))
           end.

(** Write [data] to a file just opened with [O_TRUNC], and close it. *)
Definition fd_write (k : loc) (data : string) : M unit :=
  fun w => (set_fs (<[k := File data]> (fs w)) w, Returned tt).

(** [Path.touch()] with its default [exist_ok=True]: [os.utime] succeeds on
    whatever is there and only changes times; otherwise the file is
    created by [os.open] without truncation. *)
Definition Path_touch (self : Path) : M unit :=
  try_except (os_stat self ;; ret tt)
             (fun _ => os_open_w false self ;; ret tt).

(** [open(p, 'w')] then [write(data)]; the number of characters written. *)
Definition write_file (p : Path) (data : string) : M nat :=
  k <- os_open_w true p ;;
  fd_write k data ;;
  ret (String.length data).

(** [Path.write_text(data)]. *)
Definition Path_write_text (self : Path) (data : string) : M nat :=
  write_file self data.

(** [shutil._samefile]: both paths name the same existing node; any error
    while looking means no. *)
Definition samefile (src dst : Path) : M bool :=
  fun w => (w, Returned
    match sys_stat (fs w) (cwd w) src, sys_stat (fs w) (cwd w) dst with
    | Ok _, Ok _ =>
        match locate (fs w) (cwd w) src, locate (fs w) (cwd w) dst with
        | Ok a, Ok b => bool_decide (a = b)
        | _, _ => false
        end
    | _, _ => false
    end).

(** [shutil.copyfile(src, dst)]: the source is opened for reading first,
    then the destination is created or truncated and the bytes copied. *)
Definition copyfile (src dst : Path) : M Path :=
  same <- samefile src dst ;;
  if (same : bool) then raise (mkOSError SameFileError src)
  else
    data <- sys_get sys_read src ;;
    try_except (write_file dst data ;; ret dst)
      (fun e =>
         match kind e with
         | IsADirectoryError =>
             ex <- Path_exists dst ;;
             if (ex : bool) then raise e
             else raise (mkOSError FileNotFoundError dst)
         | _ => raise e
         end).

(** [shutil.copy(src, dst)]: into [dst] when it is a directory.  The
    permission bits that [copymode] carries over are not part of the
    tree. *)
Definition shutil_copy (src dst : Path) : M Path :=
  d <- Path_is_dir dst ;;
  let dst := if (d : bool) then dst </> name src else dst in
  copyfile src dst.

(** ** init_project.py *)

(** The two manifests, in the order of the dict literals. *)
Definition TEMPLATES : list (string * string) :=
  [ ("app/__init__.py", "");
    ("app/main.py", "main.py");
    ("app/core/__init__.py", "");
    ("app/core/config.py", "config.py");
    ("app/core/dependencies.py", "dependencies.py");
    ("app/routers/__init__.py", "routers_init.py");
    ("app/routers/health.py", "router_health.py");
    ("app/services/__init__.py", "");
    ("app/services/health_service.py", "service_health.py");
    ("app/schemas/__init__.py", "");
    ("app/schemas/health.py", "schemas_health.py");
    ("tests/__init__.py", "");
    ("tests/conftest.py", "conftest.py") ].

Definition ROOT_FILES : list (string * string) :=
  [ ("Dockerfile", "Dockerfile");
    ("docker-compose.yml", "docker-compose.yml");
    ("docker-compose.override.yml", "docker-compose.override.yml");
    ("docker-compose.prod.yml", "docker-compose.prod.yml");
    ("requirements.txt", "requirements.txt");
    ("pyproject.toml", "pyproject.toml") ].

Definition ENV_EXAMPLE : string :=
  "PROJECT_NAME=fastapi-app" +:+ LF +:+ "VERSION=0.1.0" +:+ LF
  +:+ "DEBUG=false" +:+ LF.

Definition README (project_name : string) : string :=
  "# " +:+ project_name +:+ LF +:+ LF
  +:+ "FastAPI Clean Architecture Application" +:+ LF.

(** Python's truth value of a string. *)
Definition truthy (s : string) : bool := negb (String.eqb s "").

(** The body of the first loop. *)
Definition copy_template (assets_dir project_dir : Path)
  (entry : string * string) : M unit :=
  let '(target_path, source_file) := entry in
  let target := project_dir </> target_path in
  Path_mkdir (parent target) true true ;;
  if truthy source_file then
    let source := assets_dir </> source_file in
    found <- Path_exists source ;;
    if (found : bool) then shutil_copy source target ;; ret tt
    else Path_touch target
  else Path_touch target.

(** The body of the second loop. *)
Definition copy_root_file (assets_dir project_dir : Path)
  (entry : string * string) : M unit :=
  let '(target_file, source_file) := entry in
  let target := project_dir </> target_file in
  let source := assets_dir </> source_file in
  found <- Path_exists source ;;
  if (found : bool) then shutil_copy source target ;; ret tt
  else ret tt.

(** [create_project], over the manifests it iterates. *)
Definition create_project_with (templates root_files : list (string * string))
  (project_name : string) (output_dir : Path) : M Z :=
  file <- get_file ;;
  let assets_dir := parent (Path_of file) in
  let project_dir := output_dir </> project_name in
  found <- Path_exists project_dir ;;
  if (found : bool) then
    print ("Error: Directory '" +:+ Path_str project_dir +:+ "' already exists") ;;
    ret 1%Z
  else
    Path_mkdir project_dir true false ;;
    for_each templates (copy_template assets_dir project_dir) ;;
    for_each root_files (copy_root_file assets_dir project_dir) ;;
    let env_example := project_dir </> ".env.example" in
    Path_write_text env_example ENV_EXAMPLE ;;
    let readme := project_dir </> "README.md" in
    Path_write_text readme (README project_name) ;;
    print ("Project '" +:+ project_name +:+ "' created at " +:+ Path_str project_dir) ;;
    print (LF +:+ "Next steps:") ;;
    print ("  cd " +:+ project_name) ;;
    print "  cp .env.example .env" ;;
    print "  docker compose up -d" ;;
    ret 0%Z.

Definition create_project : string -> Path -> M Z :=
  create_project_with TEMPLATES ROOT_FILES.

(** ** The assets that ship beside the script

    The content of the seven template files of the assets directory, line
    by line.  [conftest.py] and the six files named by [ROOT_FILES] are not
    among them. *)

Definition DQ : string := String "034"%char EmptyString.

(** A text from its lines, each ended by a line feed. *)
Fixpoint text_of (ls : list string) : string :=
  match ls with
  | [] => EmptyString
  | l :: rest => l +:+ LF +:+ text_of rest
  end.

Definition asset_main : string :=
  text_of [
    "from contextlib import asynccontextmanager";
    "from fastapi import FastAPI";
    "from app.routers import api_router";
    "from app.core.config import settings";
    "";
    "";
    "@asynccontextmanager";
    "async def lifespan(app: FastAPI):";
    "    # Startup: create tables, init resources";
    "    yield";
    "    # Shutdown: cleanup resources";
    "";
    "";
    "app = FastAPI(";
    "    title=settings.PROJECT_NAME,";
    "    version=settings.VERSION,";
    "    docs_url=" +:+ DQ +:+ "/docs" +:+ DQ +:+ ",";
    "    redoc_url=" +:+ DQ +:+ "/redoc" +:+ DQ +:+ ",";
    "    openapi_url=" +:+ DQ +:+ "/openapi.json" +:+ DQ +:+ ",";
    "    lifespan=lifespan,";
    ")";
    "";
    "app.include_router(api_router)";
    "" ].

Definition asset_config : string :=
  text_of [
    "from pydantic_settings import BaseSettings";
    "from functools import lru_cache";
    "";
    "";
    "class Settings(BaseSettings):";
    "    PROJECT_NAME: str = " +:+ DQ +:+ "fastapi-app" +:+ DQ +:+ "";
    "    VERSION: str = " +:+ DQ +:+ "0.1.0" +:+ DQ +:+ "";
    "    DEBUG: bool = False";
    "    LOG_LEVEL: str = " +:+ DQ +:+ "info" +:+ DQ +:+ "";
    "";
    "    # Database (example)";
    "    DATABASE_URL: str = " +:+ DQ +:+ "sqlite:///./app.db" +:+ DQ +:+ "";
    "";
    "    # CORS";
    "    CORS_ORIGINS: list[str] = [" +:+ DQ +:+ "*" +:+ DQ +:+ "]";
    "";
    "    model_config = {";
    "        " +:+ DQ +:+ "env_file" +:+ DQ +:+ ": " +:+ DQ +:+ ".env" +:+ DQ +:+ ",";
    "        " +:+ DQ +:+ "env_file_encoding" +:+ DQ +:+ ": " +:+ DQ +:+ "utf-8" +:+ DQ +:+ ",";
    "        " +:+ DQ +:+ "case_sensitive" +:+ DQ +:+ ": True,";
    "    }";
    "";
    "";
    "@lru_cache";
    "def get_settings() -> Settings:";
    "    return Settings()";
    "";
    "";
    "settings = get_settings()";
    "" ].

Definition asset_dependencies : string :=
  text_of [
    "from typing import Annotated";
    "from fastapi import Depends";
    "from sqlalchemy import create_engine";
    "from sqlalchemy.orm import Session, sessionmaker";
    "";
    "from app.core.config import settings";
    "";
    "engine = create_engine(";
    "    settings.DATABASE_URL,";
    "    connect_args={" +:+ DQ +:+ "check_same_thread" +:+ DQ +:+ ": False}";
    "    if " +:+ DQ +:+ "sqlite" +:+ DQ +:+ " in settings.DATABASE_URL";
    "    else {},";
    ")";
    "";
    "SessionLocal = sessionmaker(autocommit=False, autoflush=False, bind=engine)";
    "";
    "";
    "def get_db() -> Session:";
    "    db = SessionLocal()";
    "    try:";
    "        yield db";
    "    finally:";
    "        db.close()";
    "";
    "";
    "DBSession = Annotated[Session, Depends(get_db)]";
    "" ].

Definition asset_routers_init : string :=
  text_of [
    "from fastapi import APIRouter";
    "from app.routers.health import router as health_router";
    "";
    "api_router = APIRouter()";
    "";
    "api_router.include_router(health_router)";
    "# Add more routers here:";
    "# from app.routers.users import router as users_router";
    "# api_router.include_router(users_router, prefix=" +:+ DQ +:+ "/api/v1" +:+ DQ +:+ ")";
    "" ].

Definition asset_router_health : string :=
  text_of [
    "from fastapi import APIRouter, HTTPException";
    "from app.services.health_service import HealthService";
    "from app.schemas.health import HealthStatus";
    "";
    "router = APIRouter(tags=[" +:+ DQ +:+ "health" +:+ DQ +:+ "])";
    "";
    "";
    "@router.get(" +:+ DQ +:+ "/health" +:+ DQ +:+ ", response_model=HealthStatus)";
    "def health_check() -> HealthStatus:";
    "    return HealthService.get_health()";
    "";
    "";
    "@router.get(" +:+ DQ +:+ "/ready" +:+ DQ +:+ ")";
    "def readiness_check():";
    "    if not HealthService.get_ready():";
    "        raise HTTPException(status_code=503, detail=" +:+ DQ +:+ "Service not ready" +:+ DQ +:+ ")";
    "    return {" +:+ DQ +:+ "status" +:+ DQ +:+ ": " +:+ DQ +:+ "ready" +:+ DQ +:+ "}";
    "" ].

Definition asset_service_health : string :=
  text_of [
    "from datetime import datetime";
    "from app.core.config import settings";
    "from app.schemas.health import HealthStatus";
    "";
    "";
    "class HealthService:";
    "    @staticmethod";
    "    def get_health() -> HealthStatus:";
    "        return HealthStatus(";
    "            status=" +:+ DQ +:+ "healthy" +:+ DQ +:+ ",";
    "            timestamp=datetime.utcnow().isoformat(),";
    "            version=settings.VERSION,";
    "        )";
    "";
    "    @staticmethod";
    "    def get_ready() -> bool:";
    "        # Add checks for dependencies (db, redis, etc.)" ]
  +:+ "        return True".

Definition asset_schemas_health : string :=
  text_of [
    "from pydantic import BaseModel";
    "";
    "";
    "class HealthStatus(BaseModel):";
    "    status: str";
    "    timestamp: str";
    "    version: str";
    "" ].

(** A small machine: [/tmp/out] is an empty directory, the script lives in
    [/opt/skill/assets] with its seven templates (its own text, which no
    manifest names, is cut to its first line), and the process runs in
    [/home]. *)
Definition assets_loc : loc := ["opt"; "skill"; "assets"].

Definition demo_tree : tree :=
  list_to_map
    [ ([], Dir);
      (["tmp"], Dir);
      (["tmp"; "out"], Dir);
      (["home"], Dir);
      (["opt"], Dir);
      (["opt"; "skill"], Dir);
      (assets_loc, Dir);
      (assets_loc ++ ["init_project.py"], File "#!/usr/bin/env python3");
      (assets_loc ++ ["main.py"], File asset_main);
      (assets_loc ++ ["config.py"], File asset_config);
      (assets_loc ++ ["dependencies.py"], File asset_dependencies);
      (assets_loc ++ ["routers_init.py"], File asset_routers_init);
      (assets_loc ++ ["router_health.py"], File asset_router_health);
      (assets_loc ++ ["service_health.py"], File asset_service_health);
      (assets_loc ++ ["schemas_health.py"], File asset_schemas_health) ].

Definition demo_world : world :=
  World demo_tree ["home"] [] "/opt/skill/assets/init_project.py".

(** The world [create("demo", "/tmp/out")] leaves on that machine. *)
Abbreviation demo_done :=
  (fst (create_project "demo" (Path_of "/tmp/out") demo_world)).

(** A project name of two lines, and the world [create] of it leaves. *)
Definition two_lines : string := "a" +:+ LF +:+ "b".

Abbreviation two_lines_done :=
  (fst (create_project two_lines (Path_of "/tmp/out") demo_world)).

(** Other calls on that machine: a second project name, an output
    directory two levels short of existing, the project [conftest.py] made
    inside the assets directory, and an empty project name. *)
Abbreviation other_done :=
  (fst (create_project "other" (Path_of "/tmp/out") demo_world)).

Abbreviation deep_done :=
  (fst (create_project "demo" (Path_of "/tmp/new/deep") demo_world)).

Abbreviation conftest_done :=
  (fst (create_project "conftest.py" (Path_of "/opt/skill/assets") demo_world)).

Abbreviation unnamed_done :=
  (fst (create_project "" (Path_of "/tmp/new") demo_world)).

(** What is at a path, for reading results back. *)
Definition node_at (w : world) (p : Path) : option node :=
  match sys_stat (fs w) (cwd w) p with
  | Ok n => Some n
  | Err _ => None
  end.

(** The content of the regular file at a path. *)
Definition file_at (w : world) (p : Path) : option string :=
  match sys_stat (fs w) (cwd w) p with
  | Ok (File s) => Some s
  | _ => None
  end.

(** The asset store: the content of the template [key] beside the script,
    when it is there. *)
Definition asset (w : world) (key : string) : option string :=
  file_at w (parent (Path_of (script_file w)) </> key).

(** The locations a run added. *)
Definition created (w w' : world) : gset (list string) :=
  dom (fs w') ∖ dom (fs w).

(** What the rejected call prints. *)
Definition already_exists (project_dir : Path) : string :=
  "Error: Directory '" +:+ Path_str project_dir +:+ "' already exists".

(** The world after a [print]. *)
Definition printed (w : world) (l : list string) : world :=
  World (fs w) (cwd w) (stdout w ++ l) (script_file w).

(** ** Predicates of the statements *)

(** A single path segment: no separator, and not one of the names pathlib
    or the kernel read specially. *)
Definition plain (s : string) : bool :=
  negb (has_char SEP s) && keep_part s && negb (String.eqb s "..").

(** The tree is closed under parents and rooted at a directory. *)
Definition well_formed (t : tree) : bool :=
  bool_decide (t !! [] = Some Dir) &&
  forallb (fun k => match k with
                    | [] => true
                    | _ => bool_decide (t !! removelast k = Some Dir)
                    end)
          (map fst (map_to_list t)).

Definition wf (t : tree) : Prop :=
  t !! [] = Some Dir ∧
  ∀ k c, is_Some (t !! (k ++ [c])) → t !! k = Some Dir.

(** Directories stay directories. *)
Definition dirs_le (t t' : tree) : Prop :=
  ∀ k, t !! k = Some Dir → t' !! k = Some Dir.

(** What a computation leaves alone: the working directory and the
    script path always, and a property of the tree. *)
Definition keeps {A : Type} (cw : loc) (I : tree → Prop) (m : M A) : Prop :=
  ∀ w w' r, m w = (w', r) →
    cwd w' = cwd w ∧ script_file w' = script_file w ∧
    (cwd w = cw → I (fs w) → I (fs w')).

(** *** What a run may add to the tree

    [t0] is the tree before the call, [cw] the working directory and [pd]
    the project directory as the script writes it. *)

(** [k] is what one of the leading parts of [pd] names. *)
Definition chain_at (cw : loc) (pd : Path) (t : tree) (k : loc) : Prop :=
  ∃ n, walk t (start cw pd) (take n (parts pd)) = Ok k.

(** A location that was not in [t0] is a directory on the way to the
    project directory, that directory included, or lies below a project
    directory that is itself new. *)
Definition created_ok (t0 : tree) (cw : loc) (pd : Path) (t : tree) (k : loc)
  : Prop :=
  (t !! k = Some Dir ∧ chain_at cw pd t k) ∨
  (∃ P, locate t cw pd = Ok P ∧ t0 !! P = None ∧ P ≠ k ∧ P `prefix_of` k).

Definition Inv (t0 : tree) (cw : loc) (pd : Path) (t : tree) : Prop :=
  wf t0 ∧ wf t ∧ t0 ⊆ t ∧
  ∀ k, t0 !! k = None → is_Some (t !! k) → created_ok t0 cw pd t k.

(** The project directory has been made by this run. *)
Definition Made (t0 : tree) (cw : loc) (pd : Path) (t : tree) : Prop :=
  ∃ P, locate t cw pd = Ok P ∧ t0 !! P = None ∧ t !! P = Some Dir.

Definition Inv2 (t0 : tree) (cw : loc) (pd : Path) (t : tree) : Prop :=
  Inv t0 cw pd t ∧ Made t0 cw pd t.

(** Paths written as the leading parts of [pd], as [pd] followed by names,
    and as the leading parts of such a path. *)
Definition on_chain (pd q : Path) : Prop :=
  root q = root pd ∧ ∃ n, parts q = take n (parts pd).

Definition below (pd q : Path) : Prop :=
  root q = root pd ∧ ∃ r, (".." ∉ r) ∧ parts q = parts pd ++ r.

Definition around (pd q : Path) : Prop :=
  root q = root pd ∧ ∃ r n, (".." ∉ r) ∧ parts q = take n (parts pd ++ r).

(** Manifest entries whose targets stay below the project directory and
    whose template keys are single names. *)
Definition safe_target (s : string) : bool :=
  String.eqb (root (Path_of s)) "" &&
  forallb (fun c => negb (String.eqb c "..")) (parts (Path_of s)).

Definition safe_template (e : string * string) : bool :=
  safe_target (fst e) && (negb (truthy (snd e)) || plain (snd e)).

Definition safe_root_file (e : string * string) : bool :=
  safe_target (fst e) && plain (snd e).

(** [pd] followed by the names [r]. *)
Definition sub (pd : Path) (r : list string) : Path :=
  mkPath (root pd) (parts pd ++ r).

(** [t'] is [t] with the directories from [P] down to [P ++ r] added where
    they were missing. *)
Definition grown (P : loc) (r : list string) (t t' : tree) : Prop :=
  t ⊆ t' ∧
  (∀ x, x `prefix_of` r → t' !! (P ++ x) = Some Dir) ∧
  (∀ k, t !! k = None → is_Some (t' !! k) → ∃ x, x `prefix_of` r ∧ k = P ++ x).

(** *** The tree a complete run leaves

    Below the project directory a relative location holds what the last
    writer put there: the two synthesized files, then the root files whose
    asset is there, then the templates and the directories above them. *)

(** The parts of a manifest target. *)
Definition tparts (target : string) : list string := parts (Path_of target).

Definition strict_prefix_b (x y : list string) : bool :=
  bool_decide (x `prefix_of` y) && negb (bool_decide (x = y)).

(** The content of the asset [key] in the assets directory at [A], when
    it is a regular file. *)
Definition asset_at (t : tree) (A : loc) (key : string) : option string :=
  match t !! (A ++ [key]) with
  | Some (File c) => Some c
  | _ => None
  end.

(** What the first loop leaves at a target with template key [key]. *)
Definition template_content (t : tree) (A : loc) (key : string) : string :=
  if truthy key then
    match asset_at t A key with Some c => c | None => "" end
  else "".

Definition find_target (x : list string) (m : list (string * string))
  : option (string * string) :=
  List.find (fun e => bool_decide (tparts (fst e) = x)) m.

Definition has_below (x : list string) (m : list (string * string)) : bool :=
  existsb (fun e => strict_prefix_b x (tparts (fst e))) m.

Definition nested_at (t : tree) (A : loc) (templates : list (string * string))
  (x : list string) : option node :=
  match find_target x templates with
  | Some e => Some (File (template_content t A (snd e)))
  | None => if has_below x templates then Some Dir else None
  end.

Definition root_at (t : tree) (A : loc) (root_files : list (string * string))
  (x : list string) : option node :=
  match find_target x root_files with
  | Some e => match asset_at t A (snd e) with
              | Some c => Some (File c)
              | None => None
              end
  | None => None
  end.

Definition loops_at (t : tree) (A : loc)
  (templates root_files : list (string * string)) (x : list string)
  : option node :=
  match root_at t A root_files x with
  | Some n => Some n
  | None => nested_at t A templates x
  end.

Definition scaffold_at (t : tree) (A : loc)
  (templates root_files : list (string * string)) (project_name : string)
  (x : list string) : option node :=
  if bool_decide (x = ["README.md"]) then Some (File (README project_name))
  else if bool_decide (x = [".env.example"]) then Some (File ENV_EXAMPLE)
  else loops_at t A templates root_files x.

(** [strip P k] is [Some x] when [k = P ++ x]. *)
Fixpoint strip (P k : list string) : option (list string) :=
  match P, k with
  | [], _ => Some k
  | a :: P', b :: k' => if bool_decide (a = b) then strip P' k' else None
  | _ :: _, [] => None
  end.

(** The tree [t0] with a directory at [P] and, below it, what [F] says. *)
Definition Shape (t0 : tree) (P : loc) (F : list string → option node)
  (t : tree) : Prop :=
  ∀ k, t !! k = match strip P k with
                | Some [] => Some Dir
                | Some x => F x
                | None => t0 !! k
                end.

Definition Live (t0 : tree) (P : loc) (F : list string → option node)
  (t : tree) : Prop :=
  wf t ∧ Shape t0 P F t.

Definition expected (t0 : tree) (P A : loc)
  (templates root_files : list (string * string)) (project_name : string)
  (k : loc) : option node :=
  match strip P k with
  | Some [] => Some Dir
  | Some x => scaffold_at t0 A templates root_files project_name x
  | None => t0 !! k
  end.

(** *** Manifests a complete run can be told for *)

Definition nested_ok (e : string * string) : bool :=
  safe_target (fst e) && negb (bool_decide (tparts (fst e) = [])) &&
  (negb (truthy (snd e)) || plain (snd e)).

(** No target is another target or a directory above one. *)
Definition prefix_free (m : list (string * string)) : bool :=
  forallb (fun e1 =>
    forallb (fun e2 =>
      negb (bool_decide (tparts (fst e1) `prefix_of` tparts (fst e2)))
      || bool_decide (e1 = e2)) m) m.

(** A root target is one name, and not where the templates go. *)
Definition root_ok (templates : list (string * string)) (e : string * string)
  : bool :=
  String.eqb (root (Path_of (fst e))) "" &&
  match tparts (fst e) with
  | [x] => negb (String.eqb x "..") &&
           forallb (fun e' =>
             negb (bool_decide ([x] `prefix_of` tparts (fst e')))) templates
  | _ => false
  end && plain (snd e).

Definition manifests_ok (templates root_files : list (string * string)) : bool :=
  forallb nested_ok templates && prefix_free templates &&
  bool_decide (NoDup templates) &&
  forallb (root_ok templates) root_files && prefix_free root_files &&
  bool_decide (NoDup root_files) &&
  forallb (fun e =>
    negb (strict_prefix_b [".env.example"] (tparts (fst e))) &&
    negb (strict_prefix_b ["README.md"] (tparts (fst e)))) templates.

(** The same, as a property of the entries. *)
Definition free (m : list (string * string)) : Prop :=
  ∀ e1 e2, e1 ∈ m → e2 ∈ m →
    tparts (fst e1) `prefix_of` tparts (fst e2) → e1 = e2.

(** The assets a manifest names are regular files or missing, and the
    project directory at [P] is not the path of one. *)
Definition assets_clear (t0 : tree) (P A : loc) (m : list (string * string))
  : Prop :=
  ∀ e, e ∈ m → truthy (snd e) = true →
    A ++ [snd e] ≠ P ∧ t0 !! (A ++ [snd e]) ≠ Some Dir.

(** *** Where a complete run starts from *)

(** [Path(__file__).parent]. *)
Definition assets_dir_of (w : world) : Path := parent (Path_of (script_file w)).

(** The template keys the loops look up. *)
Definition keys_of (templates root_files : list (string * string))
  : list string :=
  List.filter truthy (map snd templates) ++ map snd root_files.

(** The directory that is to hold the project directory exists and the
    project directory does not; the assets directory exists, no template
    key names a directory in it, and the project directory is not the path
    of a missing asset. *)
Definition ready (keys : list string) (w : world) (pd : Path) : bool :=
  well_formed (fs w) &&
  match locate_parent (fs w) (cwd w) pd,
        locate (fs w) (cwd w) (assets_dir_of w) with
  | Ok (d, c), Ok A =>
      negb (bool_decide (parts pd = [])) && negb (String.eqb c "..") &&
      bool_decide (fs w !! (d ++ [c]) = None) &&
      bool_decide (fs w !! A = Some Dir) &&
      forallb (fun key =>
        negb (bool_decide (fs w !! (A ++ [key]) = Some Dir)) &&
        negb (bool_decide (A ++ [key] = d ++ [c]))) keys
  | _, _ => false
  end.

(** Where the project directory and the assets directory are. *)
Definition project_at (w : world) (pd : Path) : loc :=
  match locate_parent (fs w) (cwd w) pd with
  | Ok (d, c) => d ++ [c]
  | Err _ => []
  end.

Definition assets_at (w : world) : loc :=
  match locate (fs w) (cwd w) (assets_dir_of w) with
  | Ok A => A
  | Err _ => []
  end.

(** What a complete run prints. *)
Definition banner (project_name : string) (project_dir : Path) : list string :=
  [ "Project '" +:+ project_name +:+ "' created at " +:+ Path_str project_dir;
    LF +:+ "Next steps:";
    "  cd " +:+ project_name;
    "  cp .env.example .env";
    "  docker compose up -d" ].

(** Whether [stat] finds something, and whether it is a directory. *)
Definition exists_b (t : tree) (cw : loc) (p : Path) : bool :=
  match sys_stat t cw p with Ok _ => true | Err _ => false end.

Definition is_dir_b (t : tree) (cw : loc) (p : Path) : bool :=
  match sys_stat t cw p with Ok Dir => true | _ => false end.

(** ** init_project.py, the entry point *)

(** What [parser.parse_args()] hands to [main]: the positional
    [project_name] and the value of [-o/--output].  The command line itself
    is read by argparse, which may also leave the process on its own (usage
    error, [--help]); that part is not in the model. *)
Record Namespace := mkNamespace {
  ns_project_name : string;
  ns_output : string
}.

(** The [default=] of [--output]. *)
Definition default_output : string := ".".

(** The namespace for a name and, when it was given, an output option. *)
Definition parsed (project_name : string) (output : option string) : Namespace :=
  mkNamespace project_name
    (match output with Some o => o | None => default_output end).

(** [main], after [parse_args]. *)
Definition main (args : Namespace) : M Z :=
  create_project (ns_project_name args) (Path_of (ns_output args)).

(** [exit(main())] from the point where [parse_args] has returned [args]:
    the world the process leaves and its exit status.  An exception nobody
    catches ends the interpreter with status 1.  The exits argparse takes
    on its own come before that point and are not covered: status 2 on a
    usage error, status 0 after [--help], in both cases without a call of
    [create_project]. *)
Definition exit_main (args : Namespace) (w : world) : world * Z :=
  match main args w with
  | (w', Returned z) => (w', z)
  | (w', Raised _) => (w', 1%Z)
  end.

(** ** More predicates of the statements *)

(** A computation that prints nothing. *)
Definition quiet {A : Type} (m : M A) : Prop :=
  ∀ w w' r, m w = (w', r) → stdout w' = stdout w.

(** The leading parts of [r], the shortest one name long. *)
Definition prefixes_of (r : list string) : list (list string) :=
  map (fun i => take i r) (seq 1 (length r)).

(** Every target of a manifest and every directory above one, relative to
    the project directory. *)
Definition layout (m : list (string * string)) : list (list string) :=
  flat_map (fun e => prefixes_of (tparts (fst e))) m.

(** The machine of [demo_world] with a [Dockerfile] among the assets. *)
Definition docker_world : world :=
  World (<[assets_loc ++ ["Dockerfile"] := File "FROM python:3.12-slim"]> demo_tree)
        ["home"] [] "/opt/skill/assets/init_project.py".

(** The world the process leaves when [main] is run for the project
    [conftest.py] in the assets directory. *)
Abbreviation conftest_exit :=
  (fst (exit_main (parsed "conftest.py" (Some "/opt/skill/assets")) demo_world)).

(** The world [create] leaves for the project [Dockerfile] in the assets
    directory. *)
Abbreviation dockerfile_done :=
  (fst (create_project "Dockerfile" (Path_of "/opt/skill/assets") demo_world)).

(** Every error a computation raises carries a path of the family [Fam]. *)
Definition raises_on {A : Type} (Fam : Path → Prop) (m : M A) : Prop :=
  ∀ w w' e, m w = (w', Raised e) → Fam (filename e).

(** The paths a call builds: the leading parts of a path at or below the
    project directory [pd], and a template [key] looked up in the assets
    directory [ad]. *)
Definition own_path (pd ad : Path) (keys : list string) (q : Path) : Prop :=
  around pd q ∨ ∃ key, key ∈ keys ∧ q = ad </> key.

(** A loop stops at an entry: the entries before it have run, its body
    raises [e], and [w'] is the world the body leaves at that moment. *)
Definition loop_stops {X : Type} (l : list X) (body : X → M unit)
  (w w' : world) (e : OSError) : Prop :=
  ∃ l1 x l2 wm, l = l1 ++ x :: l2 ∧
    for_each l1 body w = (wm, Returned tt) ∧
    body x wm = (w', Raised e).

(** The same process in another working directory. *)
Definition with_cwd (c : loc) (w : world) : world :=
  World (fs w) c (stdout w) (script_file w).

(** A computation that does the same in every working directory. *)
Definition cwd_free {A : Type} (m : M A) : Prop :=
  ∀ w w' r c, m w = (w', r) → m (with_cwd c w) = (with_cwd c w', r).

(** A path with a root: an absolute one. *)
Definition rooted (p : Path) : Prop := root p ≠ "".

(** A path as [Path(s)] makes them: one of the three roots, and parts that
    are non-empty, not [.] and free of separators. *)
Definition part_ok (x : string) : bool :=
  negb (has_char SEP x) && keep_part x.

Definition normal (p : Path) : Prop :=
  (root p = "" ∨ root p = "/" ∨ root p = "//") ∧
  forallb part_ok (parts p) = true.

(** * Properties *)

(** ** pathlib *)

Example Path_of_abs : Path_of "/tmp/out" = mkPath "/" ["tmp"; "out"].
Proof. reflexivity. Qed.
Example Path_of_messy : Path_of "a//b/./c/../" = mkPath "" ["a"; "b"; "c"; ".."].
Proof. reflexivity. Qed.
Example Path_of_dot : Path_of "." = mkPath "" [].
Proof. reflexivity. Qed.
Example joinpath_rel : Path_of "/tmp/out" </> "app/core/config.py"
  = mkPath "/" ["tmp"; "out"; "app"; "core"; "config.py"].
Proof. reflexivity. Qed.
Example joinpath_abs : Path_of "/tmp/out" </> "/etc" = mkPath "/" ["etc"].
Proof. reflexivity. Qed.
Example joinpath_empty : Path_of "/tmp/out" </> "" = Path_of "/tmp/out".
Proof. reflexivity. Qed.
Example Path_str_ex : Path_str (Path_of "/tmp/out" </> "demo") = "/tmp/out/demo".
Proof. reflexivity. Qed.

Lemma split_on_none sep s : has_char sep s = false → split_on sep s = [s].
Proof.
  induction s as [|c s IH]; simpl; [done|].
  intros H. apply orb_false_elim in H as [H1 H2].
  rewrite H1, IH by done. done.
Qed.

Lemma splitroot_none s : has_char SEP s = false → splitroot s = ("", s).
Proof.
  destruct s as [|c s]; [done|]. simpl.
  intros H. apply orb_false_elim in H as [H1 _].
  destruct c as [[] [] [] [] [] [] [] []]; try done.
Qed.

Lemma Path_of_segment s :
  has_char SEP s = false → Path_of s = mkPath "" (List.filter keep_part [s]).
Proof.
  intros H. unfold Path_of. rewrite splitroot_none by done.
  by rewrite split_on_none.
Qed.

Lemma plain_inv s :
  plain s = true →
  has_char SEP s = false ∧ keep_part s = true ∧ s ≠ "..".
Proof.
  unfold plain. intros H.
  apply andb_prop in H as [H H3]. apply andb_prop in H as [H1 H2].
  apply negb_true_iff in H1. apply negb_true_iff in H3.
  apply String.eqb_neq in H3. done.
Qed.

Lemma Path_of_plain s : plain s = true → Path_of s = mkPath "" [s].
Proof.
  intros (H1 & H2 & _)%plain_inv. rewrite Path_of_segment by done.
  simpl. by rewrite H2.
Qed.

Lemma joinpath_plain p s :
  plain s = true → p </> s = mkPath (root p) (parts p ++ [s]).
Proof. intros H. unfold joinpath. by rewrite Path_of_plain. Qed.

(** A name without separator adds at most itself to the parts. *)
Lemma joinpath_segment p s :
  has_char SEP s = false →
  p </> s = mkPath (root p) (parts p ++ List.filter keep_part [s]).
Proof. intros H. unfold joinpath. by rewrite Path_of_segment. Qed.

Lemma joinpath_empty_name p : p </> "" = p.
Proof. destruct p. unfold joinpath. simpl. by rewrite app_nil_r. Qed.

Lemma parent_fixed p : parent p = p ↔ parts p = [].
Proof.
  destruct p as [r ps]. unfold parent. simpl. split.
  - intros [= H]. destruct ps as [|x ps] using rev_ind; [done|].
    rewrite removelast_last in H.
    apply (f_equal length) in H. rewrite length_app in H. simpl in H. lia.
  - by intros ->.
Qed.

(** ** The tree *)

Lemma well_formed_wf t : well_formed t = true → wf t.
Proof.
  unfold well_formed. intros [H1 H2]%andb_prop. split.
  - by apply bool_decide_eq_true_1 in H1.
  - intros k c [v Hv]. rewrite forallb_forall in H2.
    specialize (H2 (k ++ [c])).
    rewrite removelast_last in H2.
    destruct (k ++ [c]) as [|a l] eqn:E; [by destruct k|].
    assert (In (a :: l) (map fst (map_to_list t))) as Hin.
    { apply in_map_iff. exists (a :: l, v). split; [done|].
      apply list_elem_of_In, elem_of_map_to_list. done. }
    apply H2 in Hin. by apply bool_decide_eq_true_1 in Hin.
Qed.

Lemma wf_root t : wf t → t !! [] = Some Dir.
Proof. by intros [? _]. Qed.

Lemma wf_parent t k c : wf t → is_Some (t !! (k ++ [c])) → t !! k = Some Dir.
Proof. intros [_ H]. apply H. Qed.

(** Whatever lies below a location that holds something lies below a
    directory. *)
Lemma wf_above t k x :
  wf t → x ≠ [] → is_Some (t !! (k ++ x)) → t !! k = Some Dir.
Proof.
  intros Hwf. induction x as [|c x IH] using rev_ind; [done|].
  intros _ Hs. rewrite app_assoc in Hs.
  apply wf_parent in Hs; [|done].
  destruct x as [|a x]; [by rewrite app_nil_r in Hs|].
  apply IH; [done|]. by rewrite Hs.
Qed.

Lemma wf_below_absent t k x : wf t → t !! k = None → t !! (k ++ x) = None.
Proof.
  intros Hwf Hk. destruct x as [|a x]; [by rewrite app_nil_r|].
  destruct (t !! (k ++ a :: x)) eqn:E; [|done].
  assert (t !! k = Some Dir) by (eapply wf_above; [done| |by rewrite E]; done).
  congruence.
Qed.

Lemma wf_below_file t k s x : wf t → t !! k = Some (File s) → x ≠ [] →
  t !! (k ++ x) = None.
Proof.
  intros Hwf Hk Hx. destruct (t !! (k ++ x)) eqn:E; [|done].
  assert (t !! k = Some Dir) by (eapply wf_above; [done..|by rewrite E]).
  congruence.
Qed.

(** A new entry in a directory keeps the tree well formed; so does
    replacing what is not a directory. *)
Lemma wf_insert t d c v :
  wf t → t !! d = Some Dir →
  v = Dir ∨ t !! (d ++ [c]) ≠ Some Dir →
  wf (<[d ++ [c] := v]> t).
Proof.
  intros Hwf Hd Hv. split.
  - rewrite lookup_insert_ne; [by apply wf_root|]. by destruct d.
  - intros k c' Hs.
    destruct (decide (d ++ [c] = k ++ [c'])) as [E|NE].
    + apply app_inj_tail in E as [-> ->].
      rewrite lookup_insert_ne; [done|].
      intros E. apply (f_equal length) in E. rewrite length_app in E.
      simpl in E. lia.
    + rewrite lookup_insert_ne in Hs by done.
      apply wf_parent in Hs; [|done].
      destruct (decide (d ++ [c] = k)) as [<-|NE'].
      * rewrite lookup_insert_eq. destruct Hv as [->|Hv]; [done|]. done.
      * by rewrite lookup_insert_ne.
Qed.

Lemma dirs_le_refl t : dirs_le t t.
Proof. by intros k. Qed.

Lemma dirs_le_trans t1 t2 t3 : dirs_le t1 t2 → dirs_le t2 t3 → dirs_le t1 t3.
Proof. intros H1 H2 k Hk. by apply H2, H1. Qed.

Lemma dirs_le_insert t k v :
  v = Dir ∨ t !! k ≠ Some Dir → dirs_le t (<[k := v]> t).
Proof.
  intros Hv j Hj. destruct (decide (k = j)) as [->|NE].
  - rewrite lookup_insert_eq. destruct Hv as [->|Hv]; [done|]. done.
  - by rewrite lookup_insert_ne.
Qed.

(** ** The walk *)

Lemma step_name cur c : c ≠ ".." → step cur c = cur ++ [c].
Proof. intros H. unfold step. by apply String.eqb_neq in H as ->. Qed.

Lemma walk_app t cur a b :
  walk t cur (a ++ b) =
  match walk t cur a with Ok k => walk t k b | Err e => Err e end.
Proof.
  revert cur. induction a as [|c a IH]; intros cur; simpl; [done|].
  destruct (t !! cur) as [[|s]|]; try done.
Qed.

Lemma walk_mono t t' cur r k :
  dirs_le t t' → walk t cur r = Ok k → walk t' cur r = Ok k.
Proof.
  intros Hle. revert cur. induction r as [|c r IH]; intros cur; simpl; [done|].
  destruct (t !! cur) as [[|s]|] eqn:E; try done.
  apply Hle in E. rewrite E. apply IH.
Qed.

(** A walk over names only goes down. *)
Lemma walk_names t cur r k :
  ".." ∉ r → walk t cur r = Ok k → k = cur ++ r.
Proof.
  revert cur. induction r as [|c r IH]; intros cur Hr; simpl.
  - intros [= <-]. by rewrite app_nil_r.
  - destruct (t !! cur) as [[|s]|]; try done.
    apply not_elem_of_cons in Hr as [Hc Hr].
    rewrite step_name by done. intros H%IH; [|done].
    by rewrite <- app_assoc in H.
Qed.

(** Down to anything that exists, the walk succeeds. *)
Lemma walk_exists t cur r :
  wf t → ".." ∉ r → is_Some (t !! (cur ++ r)) → walk t cur r = Ok (cur ++ r).
Proof.
  intros Hwf. induction r as [|c r IH] using rev_ind; intros Hr Hs.
  - by rewrite app_nil_r.
  - apply not_elem_of_app in Hr as [Hr Hc].
    apply not_elem_of_cons in Hc as [Hc _].
    rewrite app_assoc in Hs. apply wf_parent in Hs; [|done].
    rewrite walk_app, IH by (by rewrite ?Hs). simpl. rewrite Hs.
    rewrite step_name by done. by rewrite app_assoc.
Qed.

(** Where no file is in the way, a walk over names arrives or finds a
    directory missing. *)
Lemma walk_no_file t cur r :
  ".." ∉ r →
  (∀ x, x `prefix_of` r → ∀ s, t !! (cur ++ x) ≠ Some (File s)) →
  walk t cur r = Ok (cur ++ r) ∨ walk t cur r = Err FileNotFoundError.
Proof.
  revert cur. induction r as [|c r IH]; intros cur Hr Hf; simpl.
  - left. by rewrite app_nil_r.
  - apply not_elem_of_cons in Hr as [Hc Hr].
    destruct (t !! cur) as [[|s]|] eqn:E.
    + rewrite step_name by done.
      replace (cur ++ c :: r) with ((cur ++ [c]) ++ r) by by rewrite <- app_assoc.
      apply IH; [done|]. intros x Hx s. rewrite <- app_assoc. simpl.
      apply Hf. by apply prefix_cons.
    + exfalso. apply (Hf [] (prefix_nil _) s). by rewrite app_nil_r.
    + by right.
Qed.

Lemma walk_snoc_inv t cur r c k :
  walk t cur (r ++ [c]) = Ok k →
  ∃ d, walk t cur r = Ok d ∧ t !! d = Some Dir ∧ k = step d c.
Proof.
  rewrite walk_app. destruct (walk t cur r) as [d|e]; [|done]. simpl.
  destruct (t !! d) as [[|s]|] eqn:E; try done.
  intros [= <-]. eauto.
Qed.

(** ** System calls, inverted *)

Lemma locate_parent_ok t cw q d c :
  locate_parent t cw q = Ok (d, c) →
  walk t (start cw q) (removelast (parts q)) = Ok d ∧ t !! d = Some Dir ∧
  c = List.last (parts q) "".
Proof.
  unfold locate_parent.
  destruct (walk _ _ _) as [d'|]; [|done].
  destruct (t !! d') as [[|s]|] eqn:E; try done. by intros [= <- <-].
Qed.

Lemma parts_snoc (q : Path) :
  parts q ≠ [] → parts q = removelast (parts q) ++ [List.last (parts q) ""].
Proof. intros H. by apply app_removelast_last. Qed.

Lemma sys_mkdir_ok t cw q t' :
  sys_mkdir t cw q = Ok t' →
  ∃ d c, parts q = removelast (parts q) ++ [c] ∧
         walk t (start cw q) (removelast (parts q)) = Ok d ∧
         t !! d = Some Dir ∧ c ≠ ".." ∧ t !! (d ++ [c]) = None ∧
         t' = <[d ++ [c] := Dir]> t.
Proof.
  unfold sys_mkdir. destruct (parts q) as [|a l] eqn:Eq.
  { destruct (t !! start cw q); done. }
  destruct (locate_parent t cw q) as [[d c]|] eqn:E; [|done].
  apply locate_parent_ok in E as (Hw & Hd & Hc).
  destruct (String.eqb c "..") eqn:Ec; [done|].
  apply String.eqb_neq in Ec.
  destruct (t !! (d ++ [c])) eqn:Ek; [done|]. intros [= <-].
  exists d, c. rewrite Eq in *. split_and!; try done.
  rewrite Hc. by apply app_removelast_last.
Qed.

Lemma sys_open_w_ok trunc t cw q t' k :
  sys_open_w trunc t cw q = Ok (t', k) →
  ∃ d c, parts q = removelast (parts q) ++ [c] ∧
         walk t (start cw q) (removelast (parts q)) = Ok d ∧
         t !! d = Some Dir ∧ c ≠ ".." ∧ k = d ++ [c] ∧
         t !! k ≠ Some Dir ∧
         (t' = t ∧ is_Some (t !! k) ∨ t' = <[k := File ""]> t).
Proof.
  unfold sys_open_w. destruct (parts q) as [|a l] eqn:Eq.
  { destruct (t !! start cw q) as [[|?]|]; done. }
  destruct (locate_parent t cw q) as [[d c]|] eqn:E; [|done].
  apply locate_parent_ok in E as (Hw & Hd & Hc).
  destruct (String.eqb c "..") eqn:Ec; [done|].
  apply String.eqb_neq in Ec.
  assert (a :: l = removelast (a :: l) ++ [c]) as Hsn.
  { rewrite Hc, Eq. by apply app_removelast_last. }
  rewrite Eq in *.
  destruct (t !! (d ++ [c])) as [[|s]|] eqn:Ek; [done| |].
  - intros [= <- <-]. exists d, c. split_and!; try done.
    + by rewrite Ek.
    + destruct trunc; [by right|]. left. by rewrite Ek.
  - intros [= <- <-]. exists d, c. split_and!; try done.
    + by rewrite Ek.
    + by right.
Qed.

(** ** The monad *)

(** A run is its final world and its outcome. *)
Lemma run_eq {X : Type} (x : world * outcome X) r :
  snd x = r → x = (fst x, r).
Proof. destruct x. simpl. by intros ->. Qed.

Lemma bind_ok {A B} (m : M A) (k : A → M B) w w' b :
  bind m k w = (w', Returned b) →
  ∃ w1 a, m w = (w1, Returned a) ∧ k a w1 = (w', Returned b).
Proof.
  unfold bind. destruct (m w) as [w1 [a|e]]; [|done]. eauto.
Qed.

Lemma bind_run {A B} (m : M A) (k : A → M B) w w1 a :
  m w = (w1, Returned a) → bind m k w = k a w1.
Proof. unfold bind. by intros ->. Qed.

Lemma bind_raised {A B} (m : M A) (k : A → M B) w w1 e :
  m w = (w1, Raised e) → bind m k w = (w1, Raised e).
Proof. unfold bind. by intros ->. Qed.

Lemma for_each_app {A} (l1 l2 : list A) body w :
  for_each (l1 ++ l2) body w =
  match for_each l1 body w with
  | (w1, Returned _) => for_each l2 body w1
  | (w1, Raised e) => (w1, Raised e)
  end.
Proof.
  revert w. induction l1 as [|x l1 IH]; intros w; simpl; [done|].
  unfold bind. destruct (body x w) as [w1 [[]|e]]; [|done]. apply IH.
Qed.

Section Keeps.
Variable cw : loc.
Variable I : tree → Prop.

Lemma keeps_ret {X : Type} (a : X) : keeps cw I (ret a).
Proof. intros w w' r [= <- <-]. done. Qed.

Lemma keeps_raise {X : Type} e : keeps cw I (@raise X e).
Proof. intros w w' r [= <- <-]. done. Qed.

Lemma keeps_print s : keeps cw I (print s).
Proof. intros w w' r [= <- <-]. done. Qed.

Lemma keeps_get_file : keeps cw I get_file.
Proof. intros w w' r [= <- <-]. done. Qed.

Lemma keeps_sys_get {X : Type} (f : tree → loc → Path → res X) p :
  keeps cw I (sys_get f p).
Proof.
  intros w w' r. unfold sys_get.
  destruct (f _ _ _); intros [= <- <-]; done.
Qed.

Lemma keeps_samefile a b : keeps cw I (samefile a b).
Proof. intros w w' r [= <- <-]. done. Qed.

Lemma keeps_bind {X Y : Type} (m : M X) (k : X → M Y) :
  keeps cw I m → (∀ a, keeps cw I (k a)) → keeps cw I (bind m k).
Proof.
  intros Hm Hk w w' r. unfold bind.
  destruct (m w) as [w1 [a|e]] eqn:E; apply Hm in E as (E1 & E2 & E3).
  - intros (F1 & F2 & F3)%Hk. split_and!; [congruence..|].
    intros Hc Hi. apply F3; [congruence|]. by apply E3.
  - intros [= <- <-]. done.
Qed.

Lemma keeps_try {X : Type} (m : M X) (h : OSError → M X) :
  keeps cw I m → (∀ e, keeps cw I (h e)) → keeps cw I (try_except m h).
Proof.
  intros Hm Hh w w' r. unfold try_except.
  destruct (m w) as [w1 [a|e]] eqn:E; apply Hm in E as (E1 & E2 & E3).
  - intros [= <- <-]. done.
  - intros (F1 & F2 & F3)%Hh. split_and!; [congruence..|].
    intros Hc Hi. apply F3; [congruence|]. by apply E3.
Qed.

Lemma keeps_for_each {X : Type} (l : list X) (body : X → M unit) :
  (∀ x, x ∈ l → keeps cw I (body x)) → keeps cw I (for_each l body).
Proof.
  induction l as [|x l IH]; intros H; simpl; [apply keeps_ret|].
  apply keeps_bind; [apply H; by left|]. intros _. apply IH.
  intros y Hy. apply H. by right.
Qed.

Lemma keeps_exists p : keeps cw I (Path_exists p).
Proof.
  apply keeps_try.
  - apply keeps_bind; [apply keeps_sys_get|]. intros; apply keeps_ret.
  - intros e. destruct (ignore_error e); [apply keeps_ret|apply keeps_raise].
Qed.

Lemma keeps_is_dir p : keeps cw I (Path_is_dir p).
Proof.
  apply keeps_try.
  - apply keeps_bind; [apply keeps_sys_get|]. intros; apply keeps_ret.
  - intros e. destruct (ignore_error e); [apply keeps_ret|apply keeps_raise].
Qed.

(** [Path.mkdir] keeps what [os.mkdir] keeps on the path and on the
    paths above it. *)
Lemma keeps_mkdir_rec (Fam : Path → Prop) :
  (∀ q, Fam q → keeps cw I (os_mkdir q)) →
  (∀ q, Fam q → Fam (parent q)) →
  ∀ n q b1 b2, Fam q → keeps cw I (Path_mkdir_rec n q b1 b2).
Proof.
  intros Hos Hpar. induction n as [|n IH]; intros q b1 b2 Hq; simpl.
  all: apply keeps_try; [by apply Hos|].
  all: intros e; destruct (kind e).
  all: try (destruct (negb b2); [apply keeps_raise|];
            apply keeps_bind; [apply keeps_is_dir|];
            intros d; destruct (negb d); [apply keeps_raise|apply keeps_ret]).
  - destruct (_ || _); apply keeps_raise.
  - destruct (_ || _); [apply keeps_raise|].
    apply keeps_bind; [apply IH; by apply Hpar|].
    intros _. by apply IH.
Qed.
End Keeps.

(** ** What a run may add to the tree *)

Section Footprint.
Variable t0 : tree.
Variable cw : loc.
Variable pd : Path.

Lemma chain_at_mono t t' k :
  dirs_le t t' → chain_at cw pd t k → chain_at cw pd t' k.
Proof. intros Hle [n Hn]. exists n. by eapply walk_mono. Qed.

Lemma created_ok_mono t t' k :
  dirs_le t t' → t' !! k = t !! k →
  created_ok t0 cw pd t k → created_ok t0 cw pd t' k.
Proof.
  intros Hle Hk [[Hd Hc]|(P & HP & H0 & Hne & Hpre)].
  - left. split; [congruence|]. by eapply chain_at_mono.
  - right. exists P. split_and!; try done. by eapply walk_mono.
Qed.

Lemma Made_mono t t' :
  dirs_le t t' → Made t0 cw pd t → Made t0 cw pd t'.
Proof.
  intros Hle (P & HP & H0 & Hd). exists P. split_and!; [|done|by apply Hle].
  by eapply walk_mono.
Qed.

(** Adding one entry [k] inside a directory [d]. *)
Lemma Inv_insert t d c v :
  Inv t0 cw pd t → t !! d = Some Dir →
  t0 !! (d ++ [c]) = None →
  v = Dir ∨ t !! (d ++ [c]) ≠ Some Dir →
  created_ok t0 cw pd (<[d ++ [c] := v]> t) (d ++ [c]) →
  Inv t0 cw pd (<[d ++ [c] := v]> t).
Proof.
  intros (Hwf0 & Hwf & Hsub & Hnew) Hd H0 Hv Hk.
  split_and!; [done|by apply wf_insert|by apply insert_subseteq_r|].
  intros j Hj0 Hj. destruct (decide (d ++ [c] = j)) as [<-|NE]; [done|].
  rewrite lookup_insert_ne in Hj by done.
  apply created_ok_mono with t; [by apply dirs_le_insert| |by apply Hnew].
  by rewrite lookup_insert_ne.
Qed.

Lemma Inv_absent t k :
  Inv t0 cw pd t → t !! k = None → t0 !! k = None.
Proof. intros (_ & _ & Hsub & _) Hk. by eapply lookup_weaken_None. Qed.

(** [mkdir] of a leading part of [pd]. *)
Lemma Inv_mkdir_chain t q t' :
  on_chain pd q → Inv t0 cw pd t → sys_mkdir t cw q = Ok t' →
  Inv t0 cw pd t'.
Proof.
  intros [Hr [n Hn]] HI (d & c & Hq & Hw & Hd & Hc & Hk & ->)%sys_mkdir_ok.
  apply Inv_insert; try done; [by eapply Inv_absent|by left|].
  left. rewrite lookup_insert_eq. split; [done|]. exists n.
  rewrite <- Hn, Hq, walk_app.
  assert (start cw pd = start cw q) as -> by (unfold start; by rewrite Hr).
  erewrite walk_mono; [|by apply dirs_le_insert; left|done]. simpl.
  rewrite lookup_insert_ne.
  - rewrite Hd. by rewrite step_name.
  - intros E. apply (f_equal length) in E. rewrite length_app in E.
    simpl in E. lia.
Qed.

(** Where a path below [pd] leads once [pd] is there. *)
Lemma below_walk t q P r d :
  locate t cw pd = Ok P → root q = root pd → ".." ∉ r →
  walk t (start cw q) (parts pd ++ r) = Ok d → d = P ++ r.
Proof.
  intros HP Hr Hdd. rewrite walk_app.
  assert (start cw q = start cw pd) as -> by (unfold start; by rewrite Hr).
  unfold locate in HP. rewrite HP. by apply walk_names.
Qed.

Lemma strictly_below (P : loc) r : r ≠ [] → P ≠ P ++ r ∧ P `prefix_of` P ++ r.
Proof.
  intros Hr. split; [|by exists r].
  intros E. apply (f_equal length) in E. rewrite length_app in E.
  destruct r; [done|]. simpl in E. lia.
Qed.

(** A path below [pd] that is not [pd] names something strictly below the
    project directory, in the directory the walk of its parent reaches. *)
Lemma below_target t q d c :
  Made t0 cw pd t → below pd q →
  parts q = removelast (parts q) ++ [c] →
  walk t (start cw q) (removelast (parts q)) = Ok d → c ≠ ".." →
  t !! (d ++ [c]) ≠ Some Dir →
  ∃ P, locate t cw pd = Ok P ∧ t0 !! P = None ∧
       P ≠ d ++ [c] ∧ P `prefix_of` d ++ [c].
Proof.
  intros (P & HP & H0 & HPd) [Hr (r & Hdd & Hq)] Hsn Hw Hc Hk.
  exists P. split; [done|]. split; [done|].
  destruct r as [|c' r] using rev_ind.
  - exfalso. rewrite app_nil_r in Hq. apply Hk.
    assert (walk t (start cw q) (parts q) = Ok P) as HP'.
    { rewrite Hq. unfold locate in HP.
      unfold start in *. by rewrite Hr. }
    rewrite Hsn, walk_app, Hw in HP'. simpl in HP'.
    destruct (t !! d) as [[|?]|]; try done.
    rewrite step_name in HP' by done. by injection HP' as ->.
  - clear IHr. rewrite Hq, app_assoc in Hsn.
    rewrite removelast_last in Hsn.
    rewrite Hq, app_assoc, removelast_last in Hw.
    apply not_elem_of_app in Hdd as [Hdd _].
    eapply below_walk in Hw as ->; [|done..].
    apply app_inj_tail in Hsn as [_ <-].
    rewrite <- app_assoc. apply strictly_below. by destruct r.
Qed.

Lemma Inv_below_absent t P k :
  Inv t0 cw pd t → t0 !! P = None → P `prefix_of` k → t0 !! k = None.
Proof.
  intros (Hwf0 & _) H0 [x ->]. by apply wf_below_absent.
Qed.

Lemma Inv2_put t d c v :
  Inv2 t0 cw pd t → t !! d = Some Dir →
  v = Dir ∨ t !! (d ++ [c]) ≠ Some Dir →
  (∃ P, locate t cw pd = Ok P ∧ t0 !! P = None ∧
        P ≠ d ++ [c] ∧ P `prefix_of` d ++ [c]) →
  Inv2 t0 cw pd (<[d ++ [c] := v]> t).
Proof.
  intros [HI HM] Hd Hv (P & HP & H0 & Hne & Hpre).
  assert (dirs_le t (<[d ++ [c] := v]> t)) as Hle by by apply dirs_le_insert.
  split; [|by eapply Made_mono].
  apply Inv_insert; try done; [by eapply Inv_below_absent|].
  right. exists P. split_and!; try done. by eapply walk_mono.
Qed.

(** [mkdir] of a path below [pd]. *)
Lemma Inv2_mkdir_below t q t' :
  below pd q → Inv2 t0 cw pd t → sys_mkdir t cw q = Ok t' →
  Inv2 t0 cw pd t'.
Proof.
  intros Hq HI (d & c & Hsn & Hw & Hd & Hc & Hk & ->)%sys_mkdir_ok.
  apply Inv2_put; try done; [by left|].
  eapply below_target; try done; [by destruct HI|by rewrite Hk].
Qed.

Lemma Inv2_mkdir_chain t q t' :
  on_chain pd q → Inv2 t0 cw pd t → sys_mkdir t cw q = Ok t' →
  Inv2 t0 cw pd t'.
Proof.
  intros Hq [HI HM] Hmk. split; [by eapply Inv_mkdir_chain|].
  apply sys_mkdir_ok in Hmk as (d & c & Hsn & Hw & Hd & Hc & Hk & ->).
  eapply Made_mono; [|done]. apply dirs_le_insert. by left.
Qed.

Lemma around_cases q : around pd q → on_chain pd q ∨ below pd q.
Proof.
  intros [Hr (r & n & Hdd & Hq)].
  destruct (decide (n <= length (parts pd))%nat) as [Hn|Hn].
  - left. split; [done|]. exists n. by rewrite Hq, take_app_le.
  - right. split; [done|]. exists (take (n - length (parts pd)) r). split.
    + intros Hin. apply Hdd. by eapply subseteq_take.
    + rewrite Hq. apply take_app_ge. lia.
Qed.

Lemma removelast_take {X : Type} (l : list X) n :
  removelast (take n l) = take (pred (length (take n l))) l.
Proof.
  rewrite removelast_firstn_len, take_take. f_equal.
  rewrite length_take. lia.
Qed.

Lemma on_chain_parent q : on_chain pd q → on_chain pd (parent q).
Proof.
  intros [Hr [n Hq]]. split; [done|]. simpl. rewrite Hq.
  eexists. apply removelast_take.
Qed.

Lemma around_parent q : around pd q → around pd (parent q).
Proof.
  intros [Hr (r & n & Hdd & Hq)]. split; [done|]. simpl. rewrite Hq.
  exists r. eexists. split; [done|]. apply removelast_take.
Qed.

Lemma below_around q : below pd q → around pd q.
Proof.
  intros [Hr (r & Hdd & Hq)]. split; [done|].
  exists r, (length (parts pd ++ r)). split; [done|]. by rewrite take_ge.
Qed.

Lemma on_chain_self : on_chain pd pd.
Proof. split; [done|]. exists (length (parts pd)). by rewrite take_ge. Qed.

Lemma keeps_os_mkdir_chain q :
  on_chain pd q → keeps cw (Inv t0 cw pd) (os_mkdir q).
Proof.
  intros Hq w w' r. unfold os_mkdir, sys_put.
  destruct (sys_mkdir _ _ _) as [t|e] eqn:E; intros [= <- <-]; simpl; [|done].
  split_and!; try done. intros Hcw HI. rewrite Hcw in E. by eapply Inv_mkdir_chain.
Qed.

Lemma keeps_os_mkdir_around q :
  around pd q → keeps cw (Inv2 t0 cw pd) (os_mkdir q).
Proof.
  intros Hq w w' r. unfold os_mkdir, sys_put.
  destruct (sys_mkdir _ _ _) as [t|e] eqn:E; intros [= <- <-]; simpl; [|done].
  split_and!; try done. intros Hcw HI. rewrite Hcw in E.
  apply around_cases in Hq as [Hq|Hq].
  - by eapply Inv2_mkdir_chain.
  - by eapply Inv2_mkdir_below.
Qed.

Lemma keeps_mkdir_chain n q b1 b2 :
  on_chain pd q → keeps cw (Inv t0 cw pd) (Path_mkdir_rec n q b1 b2).
Proof.
  apply keeps_mkdir_rec with (Fam := on_chain pd).
  - apply keeps_os_mkdir_chain.
  - apply on_chain_parent.
Qed.

Lemma keeps_mkdir_around n q b1 b2 :
  around pd q → keeps cw (Inv2 t0 cw pd) (Path_mkdir_rec n q b1 b2).
Proof.
  apply keeps_mkdir_rec with (Fam := around pd).
  - apply keeps_os_mkdir_around.
  - apply around_parent.
Qed.

(** Opening a file below [pd] for writing, and writing it. *)
Lemma Inv2_open_w trunc t q t' k :
  below pd q → Inv2 t0 cw pd t → sys_open_w trunc t cw q = Ok (t', k) →
  Inv2 t0 cw pd t' ∧ ∀ s, Inv2 t0 cw pd (<[k := File s]> t').
Proof.
  intros Hq HI (d & c & Hsn & Hw & Hd & Hc & -> & Hk & Ht)%sys_open_w_ok.
  assert (∀ s, Inv2 t0 cw pd (<[d ++ [c] := File s]> t)) as Hput.
  { intros s. apply Inv2_put; try done; [by right|].
    eapply below_target; try done. by destruct HI. }
  destruct Ht as [[-> _]| ->]; [done|].
  split; [done|]. intros s. by rewrite insert_insert_eq.
Qed.

Lemma keeps_open_w trunc q :
  below pd q → keeps cw (Inv2 t0 cw pd) (os_open_w trunc q).
Proof.
  intros Hq w w' r. unfold os_open_w.
  destruct (sys_open_w _ _ _ _) as [[t k]|e] eqn:E; intros [= <- <-]; simpl; [|done].
  split_and!; try done. intros Hcw HI. rewrite Hcw in E. by eapply Inv2_open_w.
Qed.

Lemma keeps_write_file q data :
  below pd q → keeps cw (Inv2 t0 cw pd) (write_file q data).
Proof.
  intros Hq w w' r. unfold write_file, bind, os_open_w, fd_write, ret.
  destruct (sys_open_w _ _ _ _) as [[t k]|e] eqn:E; intros [= <- <-]; simpl; [|done].
  split_and!; try done. intros Hcw HI. rewrite Hcw in E. by eapply Inv2_open_w.
Qed.

Lemma keeps_touch q :
  below pd q → keeps cw (Inv2 t0 cw pd) (Path_touch q).
Proof.
  intros Hq. apply keeps_try.
  - apply keeps_bind; [apply keeps_sys_get|]. intros; apply keeps_ret.
  - intros _. apply keeps_bind; [by apply keeps_open_w|].
    intros; apply keeps_ret.
Qed.

Lemma keeps_copyfile src dst :
  below pd dst → keeps cw (Inv2 t0 cw pd) (copyfile src dst).
Proof.
  intros Hq. apply keeps_bind; [apply keeps_samefile|].
  intros [|]; [apply keeps_raise|].
  apply keeps_bind; [apply keeps_sys_get|]. intros data.
  apply keeps_try.
  - apply keeps_bind; [by apply keeps_write_file|]. intros; apply keeps_ret.
  - intros e. destruct (kind e); try apply keeps_raise.
    apply keeps_bind; [apply keeps_exists|].
    intros [|]; apply keeps_raise.
Qed.

Lemma keeps_shutil_copy src dst :
  below pd dst → below pd (dst </> name src) →
  keeps cw (Inv2 t0 cw pd) (shutil_copy src dst).
Proof.
  intros H1 H2. apply keeps_bind; [apply keeps_is_dir|].
  intros [|]; by apply keeps_copyfile.
Qed.
End Footprint.

(** ** Looking never fails *)

Lemma walk_err t cur r e :
  walk t cur r = Err e → e = FileNotFoundError ∨ e = NotADirectoryError.
Proof.
  revert cur. induction r as [|c r IH]; intros cur; simpl; [done|].
  destruct (t !! cur) as [[|s]|]; [apply IH|intros [= <-]..]; auto.
Qed.

Lemma sys_stat_err t cw p e :
  sys_stat t cw p = Err e → e = FileNotFoundError ∨ e = NotADirectoryError.
Proof.
  unfold sys_stat, locate. destruct (walk _ _ _) as [k|e'] eqn:E.
  - destruct (t !! k); [done|]. intros [= <-]. auto.
  - intros [= <-]. by eapply walk_err.
Qed.

Lemma Path_exists_run p w :
  Path_exists p w = (w, Returned (exists_b (fs w) (cwd w) p)).
Proof.
  unfold Path_exists, try_except, bind, os_stat, sys_get, exists_b.
  destruct (sys_stat _ _ _) as [n|e] eqn:E; [done|].
  unfold ignore_error. simpl.
  by destruct (sys_stat_err _ _ _ _ E) as [-> | ->].
Qed.

Lemma Path_is_dir_run p w :
  Path_is_dir p w = (w, Returned (is_dir_b (fs w) (cwd w) p)).
Proof.
  unfold Path_is_dir, try_except, bind, os_stat, sys_get, is_dir_b.
  destruct (sys_stat _ _ _) as [n|e] eqn:E; [by destruct n|].
  unfold ignore_error. simpl.
  by destruct (sys_stat_err _ _ _ _ E) as [-> | ->].
Qed.

Lemma os_mkdir_raised q w w' e :
  os_mkdir q w = (w', Raised e) → w' = w.
Proof.
  unfold os_mkdir, sys_put. destruct (sys_mkdir _ _ _); by intros [= <-].
Qed.

(** ** Entries of the manifests *)

Lemma safe_target_inv s :
  safe_target s = true → root (Path_of s) = "" ∧ ".." ∉ parts (Path_of s).
Proof.
  unfold safe_target. intros [H1 H2]%andb_prop.
  apply String.eqb_eq in H1. split; [done|].
  rewrite forallb_forall in H2. intros Hin%list_elem_of_In%H2.
  by apply negb_true_iff, String.eqb_neq in Hin.
Qed.

Lemma below_join pd s : safe_target s = true → below pd (pd </> s).
Proof.
  intros [H1 H2]%safe_target_inv. unfold joinpath. rewrite H1. simpl.
  split; [done|]. by exists (parts (Path_of s)).
Qed.

Lemma below_join_plain pd q key :
  below pd q → plain key = true → below pd (q </> key).
Proof.
  intros [Hr (r & Hdd & Hq)] Hk. rewrite joinpath_plain by done.
  split; [done|]. simpl. exists (r ++ [key]). split.
  - apply plain_inv in Hk as (_ & _ & Hk).
    apply not_elem_of_app. split; [done|].
    apply not_elem_of_cons. split; [done|]. apply not_elem_of_nil.
  - by rewrite Hq, <- app_assoc.
Qed.

Lemma name_join_plain p key : plain key = true → name (p </> key) = key.
Proof.
  intros Hk. rewrite joinpath_plain by done. unfold name. simpl.
  apply last_last.
Qed.

Section Footprint_run.
Variable t0 : tree.
Variable cw : loc.
Variable pd : Path.
Variable assets_dir : Path.

Lemma keeps_copy_template e :
  safe_template e = true →
  keeps cw (Inv2 t0 cw pd) (copy_template assets_dir pd e).
Proof.
  destruct e as [tp sf]. unfold safe_template. simpl.
  intros [Ht Hs]%andb_prop. unfold copy_template.
  pose proof (below_join pd tp Ht) as Hb.
  apply keeps_bind.
  { apply keeps_mkdir_around. by apply around_parent, below_around. }
  intros _. destruct (truthy sf); simpl in Hs; [|by apply keeps_touch].
  apply keeps_bind; [apply keeps_exists|].
  intros [|]; [|by apply keeps_touch].
  apply keeps_bind; [|intros; apply keeps_ret].
  apply keeps_shutil_copy; [done|].
  rewrite name_join_plain by done. by apply below_join_plain.
Qed.

Lemma keeps_copy_root_file e :
  safe_root_file e = true →
  keeps cw (Inv2 t0 cw pd) (copy_root_file assets_dir pd e).
Proof.
  destruct e as [tp sf]. unfold safe_root_file. simpl.
  intros [Ht Hs]%andb_prop. unfold copy_root_file.
  pose proof (below_join pd tp Ht) as Hb.
  apply keeps_bind; [apply keeps_exists|].
  intros [|]; [|apply keeps_ret].
  apply keeps_bind; [|intros; apply keeps_ret].
  apply keeps_shutil_copy; [done|].
  rewrite name_join_plain by done. by apply below_join_plain.
Qed.

(** When [mkdir] of the project directory returns, the directory is new. *)
Lemma mkdir_made n b w w' :
  cwd w = cw → Inv t0 cw pd (fs w) →
  Path_mkdir_rec n pd b false w = (w', Returned tt) →
  Made t0 cw pd (fs w').
Proof.
  revert b w. induction n as [|n IH]; intros b w Hcw HI; simpl.
  all: unfold try_except; destruct (os_mkdir pd w) as [w1 [[]|e]] eqn:E.
  all: try (intros [= <-]; revert E; unfold os_mkdir, sys_put;
            destruct (sys_mkdir _ _ _) as [t|?] eqn:Emk; intros [= <-];
            rewrite Hcw in Emk;
            apply sys_mkdir_ok in Emk as (d & c & Hsn & Hw & Hd & Hc & Hk & ->);
            exists (d ++ [c]); simpl; split_and!;
            [|by eapply Inv_absent|by rewrite lookup_insert_eq];
            unfold locate; rewrite Hsn, walk_app;
            erewrite walk_mono; [|by apply dirs_le_insert; left|done];
            simpl; rewrite lookup_insert_ne;
            [by rewrite Hd, step_name|];
            intros E'; apply (f_equal length) in E';
            rewrite length_app in E'; simpl in E'; lia).
  all: apply os_mkdir_raised in E as ->.
  all: destruct (kind e); try (intros [= ]; fail).
  - destruct (_ || _); intros [= ].
  - destruct (_ || _); [intros [= ]|].
    intros (w2 & [] & H1 & H2)%bind_ok.
    apply (keeps_mkdir_chain t0 cw pd) in H1 as (C1 & _ & C3);
      [|apply on_chain_parent, on_chain_self].
    eapply IH; [| |done]; [congruence|by apply C3].
Qed.
End Footprint_run.

Lemma Inv_start t0 cw pd : wf t0 → Inv t0 cw pd t0.
Proof.
  intros Hwf. split_and!; try done.
  intros k Hk [v Hv]. congruence.
Qed.

(** Whatever it returns or raises, a run only adds to the tree: directories
    on the way to the project directory and, once that directory is made,
    entries below it. *)
Lemma create_project_with_footprint templates root_files project_name output_dir w w' r :
  forallb safe_template templates = true →
  forallb safe_root_file root_files = true →
  wf (fs w) →
  create_project_with templates root_files project_name output_dir w = (w', r) →
  cwd w' = cwd w ∧ script_file w' = script_file w ∧
  Inv (fs w) (cwd w) (output_dir </> project_name) (fs w').
Proof.
  intros HT HR Hwf. unfold create_project_with.
  set (pd := output_dir </> project_name).
  set (ad := parent (Path_of (script_file w))).
  unfold bind at 1. unfold get_file at 1.
  fold ad. unfold bind at 1. rewrite Path_exists_run.
  destruct (exists_b _ _ _).
  { intros [= <- <-]. simpl. split_and!; try done. by apply Inv_start. }
  unfold bind at 1. unfold Path_mkdir.
  destruct (Path_mkdir_rec _ pd true false w) as [w1 [[]|e]] eqn:E.
  2:{ intros [= <- <-].
      apply (keeps_mkdir_chain (fs w) (cwd w) pd) in E as (C1 & C2 & C3);
        [|apply on_chain_self].
      split_and!; try done. apply C3; [done|]. by apply Inv_start. }
  pose proof E as E'.
  apply (keeps_mkdir_chain (fs w) (cwd w) pd) in E' as (C1 & C2 & C3);
    [|apply on_chain_self].
  specialize (C3 eq_refl (Inv_start _ _ _ Hwf)).
  apply mkdir_made with (t0 := fs w) (cw := cwd w) in E; [|done|by apply Inv_start].
  intros Hrest.
  assert (keeps (cwd w) (Inv2 (fs w) (cwd w) pd)
    (for_each templates (copy_template ad pd) ;;
     for_each root_files (copy_root_file ad pd) ;;
     Path_write_text (pd </> ".env.example") ENV_EXAMPLE ;;
     Path_write_text (pd </> "README.md") (README project_name) ;;
     print ("Project '" +:+ project_name +:+ "' created at " +:+ Path_str pd) ;;
     print (LF +:+ "Next steps:") ;;
     print ("  cd " +:+ project_name) ;;
     print "  cp .env.example .env" ;;
     print "  docker compose up -d" ;;
     ret 0%Z)) as Hk.
  { apply keeps_bind.
    { apply keeps_for_each. intros x Hx. apply keeps_copy_template.
      rewrite forallb_forall in HT. by apply HT, list_elem_of_In. }
    intros _. apply keeps_bind.
    { apply keeps_for_each. intros x Hx. apply keeps_copy_root_file.
      rewrite forallb_forall in HR. by apply HR, list_elem_of_In. }
    intros _. apply keeps_bind.
    { apply keeps_write_file. by apply below_join. }
    intros _. apply keeps_bind.
    { apply keeps_write_file. by apply below_join. }
    intros _. repeat (apply keeps_bind; [apply keeps_print|intros _]).
    apply keeps_ret. }
  apply Hk in Hrest as (D1 & D2 & D3).
  split_and!; [congruence..|].
  apply D3; [done|]. by split.
Qed.

(** ** What the calls do below a directory that exists *)

Lemma sys_mkdir_snoc t cw q l c :
  parts q = l ++ [c] →
  sys_mkdir t cw q =
  match locate_parent t cw q with
  | Err e => Err e
  | Ok (d, c) =>
      if String.eqb c ".." then Err FileExistsError
      else match t !! (d ++ [c]) with
           | Some _ => Err FileExistsError
           | None => Ok (<[d ++ [c] := Dir]> t)
           end
  end.
Proof.
  intros Hq. unfold sys_mkdir. destruct (parts q); [by destruct l|done].
Qed.

Lemma sys_open_w_snoc trunc t cw q l c :
  parts q = l ++ [c] →
  sys_open_w trunc t cw q =
  match locate_parent t cw q with
  | Err e => Err e
  | Ok (d, c) =>
      if String.eqb c ".." then Err IsADirectoryError
      else match t !! (d ++ [c]) with
           | Some Dir => Err IsADirectoryError
           | Some (File s) =>
               Ok (if trunc then <[d ++ [c] := File ""]> t else t, d ++ [c])
           | None => Ok (<[d ++ [c] := File ""]> t, d ++ [c])
           end
  end.
Proof.
  intros Hq. unfold sys_open_w. destruct (parts q); [by destruct l|done].
Qed.

Lemma start_sub cw pd r : start cw (sub pd r) = start cw pd.
Proof. done. Qed.

Lemma sub_nil pd : sub pd [] = pd.
Proof. destruct pd. unfold sub. simpl. by rewrite app_nil_r. Qed.

Lemma parent_sub pd r c : parent (sub pd (r ++ [c])) = sub pd r.
Proof.
  unfold parent, sub. simpl. by rewrite app_assoc, removelast_last.
Qed.

Lemma joinpath_sub pd s :
  root (Path_of s) = "" → pd </> s = sub pd (parts (Path_of s)).
Proof. intros H. unfold joinpath. by rewrite H. Qed.

Section Below.
Variable cw : loc.
Variable so : list string.
Variable sf : string.
Variable pd : Path.
Variable P : loc.

Lemma locate_sub t r :
  wf t → locate t cw pd = Ok P → ".." ∉ r → is_Some (t !! (P ++ r)) →
  locate t cw (sub pd r) = Ok (P ++ r).
Proof.
  intros Hwf HP Hr Hs. unfold locate in *. simpl.
  rewrite start_sub, walk_app, HP. by apply walk_exists.
Qed.

Lemma stat_sub t r n :
  wf t → locate t cw pd = Ok P → ".." ∉ r → t !! (P ++ r) = Some n →
  sys_stat t cw (sub pd r) = Ok n.
Proof.
  intros Hwf HP Hr Hs. unfold sys_stat.
  rewrite locate_sub by (by rewrite ?Hs). by rewrite Hs.
Qed.

(** Below a directory, a missing entry is reported missing. *)
Lemma stat_sub_missing t r c :
  wf t → locate t cw pd = Ok P → ".." ∉ r → c ≠ ".." →
  t !! (P ++ r) = Some Dir → t !! (P ++ r ++ [c]) = None →
  sys_stat t cw (sub pd (r ++ [c])) = Err FileNotFoundError.
Proof.
  intros Hwf HP Hr Hc Hd Hn. unfold sys_stat, locate. simpl.
  rewrite start_sub, walk_app. unfold locate in HP. rewrite HP.
  rewrite walk_app, walk_exists by (by rewrite ?Hd). simpl.
  rewrite Hd, step_name by done. by rewrite <- app_assoc, Hn.
Qed.

Lemma locate_parent_sub t r c :
  wf t → locate t cw pd = Ok P → ".." ∉ r → t !! (P ++ r) = Some Dir →
  locate_parent t cw (sub pd (r ++ [c])) = Ok (P ++ r, c).
Proof.
  intros Hwf HP Hr Hd. unfold locate_parent. simpl.
  rewrite start_sub, app_assoc, removelast_last, last_last.
  unfold locate in HP. rewrite walk_app, HP.
  rewrite walk_exists by (by rewrite ?Hd). by rewrite Hd.
Qed.

Lemma os_mkdir_sub_new t r c :
  wf t → locate t cw pd = Ok P → ".." ∉ r → c ≠ ".." →
  t !! (P ++ r) = Some Dir → t !! (P ++ r ++ [c]) = None →
  os_mkdir (sub pd (r ++ [c])) (World t cw so sf) =
  (World (<[P ++ r ++ [c] := Dir]> t) cw so sf, Returned tt).
Proof.
  intros Hwf HP Hr Hc Hd Hn. unfold os_mkdir, sys_put. simpl.
  erewrite sys_mkdir_snoc by (simpl; by rewrite app_assoc).
  rewrite locate_parent_sub by done.
  apply String.eqb_neq in Hc as ->.
  by rewrite <- app_assoc, Hn.
Qed.

Lemma os_mkdir_sub_exists t r c n :
  wf t → locate t cw pd = Ok P → ".." ∉ r →
  t !! (P ++ r) = Some Dir → t !! (P ++ r ++ [c]) = Some n →
  os_mkdir (sub pd (r ++ [c])) (World t cw so sf) =
  (World t cw so sf,
   Raised (mkOSError FileExistsError (sub pd (r ++ [c])))).
Proof.
  intros Hwf HP Hr Hd Hn. unfold os_mkdir, sys_put. simpl.
  erewrite sys_mkdir_snoc by (simpl; by rewrite app_assoc).
  rewrite locate_parent_sub by done.
  destruct (String.eqb c ".."); [done|].
  by rewrite <- app_assoc, Hn.
Qed.

(** Below a missing directory, [mkdir] reports it missing. *)
Lemma os_mkdir_sub_orphan t r c :
  locate t cw pd = Ok P → ".." ∉ r →
  (∀ x, x `prefix_of` r → ∀ s, t !! (P ++ x) ≠ Some (File s)) →
  t !! (P ++ r) = None →
  os_mkdir (sub pd (r ++ [c])) (World t cw so sf) =
  (World t cw so sf,
   Raised (mkOSError FileNotFoundError (sub pd (r ++ [c])))).
Proof.
  intros HP Hr Hf Hn. unfold os_mkdir, sys_put. simpl.
  erewrite sys_mkdir_snoc by (simpl; by rewrite app_assoc).
  unfold locate_parent. simpl.
  rewrite start_sub, app_assoc, removelast_last.
  unfold locate in HP. rewrite walk_app, HP.
  destruct (walk_no_file t P r Hr Hf) as [-> | ->]; [|done].
  by rewrite Hn.
Qed.

(** [mkdir] of the directory itself finds it there. *)
Lemma os_mkdir_self t n :
  locate t cw pd = Ok P → t !! P = Some n →
  os_mkdir pd (World t cw so sf) =
  (World t cw so sf, Raised (mkOSError FileExistsError pd)).
Proof.
  intros HP Hn. unfold os_mkdir, sys_put. simpl.
  unfold locate in HP.
  destruct (parts pd) as [|a l] eqn:Eq using rev_ind.
  - unfold sys_mkdir. rewrite Eq. simpl in HP. injection HP as ->.
    by rewrite Hn.
  - clear IHl. erewrite sys_mkdir_snoc by done.
    apply walk_snoc_inv in HP as (d & Hw & Hd & ->).
    unfold locate_parent. rewrite Eq, removelast_last, last_last, Hw, Hd.
    unfold step in Hn. destruct (String.eqb a ".."); [done|].
    by rewrite Hn.
Qed.

Lemma is_dir_sub t r :
  wf t → locate t cw pd = Ok P → ".." ∉ r → t !! (P ++ r) = Some Dir →
  is_dir_b t cw (sub pd r) = true.
Proof.
  intros Hwf HP Hr Hd. unfold is_dir_b. by rewrite (stat_sub t r Dir).
Qed.

Lemma mkdir_rec_direct n q b1 b2 w w' :
  os_mkdir q w = (w', Returned tt) →
  Path_mkdir_rec n q b1 b2 w = (w', Returned tt).
Proof. intros H. destruct n; simpl; unfold try_except; by rewrite H. Qed.

Lemma prefix_snoc_cases {X : Type} (x r : list X) c :
  x `prefix_of` r ++ [c] → x = r ++ [c] ∨ x `prefix_of` r.
Proof.
  intros [y Hy]. destruct y as [|b y] using rev_ind.
  - left. by rewrite app_nil_r in Hy.
  - right. rewrite app_assoc in Hy. apply app_inj_tail in Hy as [-> _].
    by exists y.
Qed.

Lemma subseteq_dirs_le (t t' : tree) : t ⊆ t' → dirs_le t t'.
Proof. intros H k Hk. by eapply lookup_weaken. Qed.

Lemma app_ne_shorter {X : Type} (base x y : list X) :
  (length x ≠ length y)%nat → base ++ x ≠ base ++ y.
Proof. intros H E. by apply app_inv_head in E as ->. Qed.

(** [Path.mkdir(parents=True, exist_ok=True)] below the directory [P]: the
    missing directories down to [P ++ r] are made, nothing else changes. *)
Lemma mkdir_p_run t r n :
  wf t → locate t cw pd = Ok P → t !! P = Some Dir → ".." ∉ r →
  (∀ x, x `prefix_of` r → ∀ s, t !! (P ++ x) ≠ Some (File s)) →
  (length r <= n)%nat →
  ∃ t', Path_mkdir_rec n (sub pd r) true true (World t cw so sf) =
          (World t' cw so sf, Returned tt) ∧
        wf t' ∧ grown P r t t'.
Proof.
  intros Hwf HP HPd. revert n. unfold grown.
  induction r as [|c r IH] using rev_ind; intros n Hr Hf Hn.
  - exists t. rewrite sub_nil. split_and!; try done.
    + destruct n; simpl; unfold try_except;
        rewrite (os_mkdir_self t Dir) by done; simpl;
        unfold bind; rewrite Path_is_dir_run; simpl;
        unfold is_dir_b, sys_stat; rewrite HP, HPd; done.
    + intros x ->%prefix_nil_inv. by rewrite app_nil_r.
    + intros k Hk [v Hv]. congruence.
  - apply not_elem_of_app in Hr as [Hr Hc].
    apply not_elem_of_cons in Hc as [Hc _].
    assert (∀ x, x `prefix_of` r → ∀ s, t !! (P ++ x) ≠ Some (File s)) as Hf'.
    { intros x Hx. apply Hf. by apply prefix_app_r. }
    destruct (t !! (P ++ r)) as [[|s]|] eqn:Er.
    + destruct (t !! (P ++ r ++ [c])) as [[|s]|] eqn:Ek.
      * exists t. split_and!; try done.
        -- destruct n; simpl; unfold try_except;
             rewrite (os_mkdir_sub_exists t r c Dir) by done; simpl;
             unfold bind; rewrite Path_is_dir_run; simpl;
             rewrite is_dir_sub; try done;
             apply not_elem_of_app; split; try done;
             apply not_elem_of_cons; split; try done; apply not_elem_of_nil.
        -- intros x [y Hy]. destruct y as [|b y].
           ++ rewrite app_nil_r in Hy. by rewrite <- Hy.
           ++ apply (wf_above t (P ++ x) (b :: y)); [done..|].
              by rewrite <- app_assoc, <- Hy, Ek.
        -- intros k Hk [v Hv]. congruence.
      * exfalso. by apply (Hf (r ++ [c]) (reflexivity _) s).
      * exists (<[P ++ r ++ [c] := Dir]> t). split_and!.
        -- apply mkdir_rec_direct. by apply os_mkdir_sub_new.
        -- rewrite app_assoc. apply wf_insert; [done..|by left].
        -- by apply insert_subseteq.
        -- intros x [->|Hx]%prefix_snoc_cases; [by rewrite lookup_insert_eq|].
           rewrite lookup_insert_ne.
           ++ destruct Hx as [y Hy]. destruct y as [|b y].
              ** rewrite app_nil_r in Hy. by rewrite <- Hy.
              ** apply (wf_above t (P ++ x) (b :: y)); [done..|].
                 by rewrite <- app_assoc, <- Hy, Er.
           ++ apply app_ne_shorter. apply prefix_length in Hx.
              rewrite length_app. simpl. lia.
        -- intros k Hk [v Hv]. exists (r ++ [c]). split; [done|].
           destruct (decide (P ++ r ++ [c] = k)) as [<-|NE]; [done|].
           rewrite lookup_insert_ne in Hv by done. congruence.
    + exfalso. by apply (Hf' r (reflexivity _) s).
    + destruct n as [|n]; [rewrite length_app in Hn; simpl in Hn; lia|].
      destruct (IH n Hr Hf') as (t1 & Hrun & Hwf1 & Hsub & Hdirs & Hnew).
      { rewrite length_app in Hn. simpl in Hn. lia. }
      assert (t !! (P ++ r ++ [c]) = None) as Ek.
      { rewrite app_assoc. by apply wf_below_absent. }
      assert (t1 !! (P ++ r ++ [c]) = None) as Ek1.
      { destruct (t1 !! (P ++ r ++ [c])) eqn:E1; [|done].
        destruct (Hnew (P ++ r ++ [c]) Ek) as (x & Hx & Ex); [by rewrite E1|].
        apply app_inv_head in Ex. subst x. apply prefix_length in Hx.
        rewrite length_app in Hx. simpl in Hx. lia. }
      exists (<[P ++ r ++ [c] := Dir]> t1). split_and!.
      * simpl. unfold try_except.
        rewrite os_mkdir_sub_orphan by done. simpl.
        rewrite bool_decide_eq_false_2.
        2:{ rewrite parent_fixed. simpl. by destruct (parts pd), r. }
        simpl. rewrite parent_sub. unfold bind. rewrite Hrun.
        apply mkdir_rec_direct. apply os_mkdir_sub_new; try done.
        -- eapply walk_mono; [by apply subseteq_dirs_le|done].
        -- apply Hdirs. done.
      * rewrite app_assoc. apply wf_insert; [done| |by left].
        apply Hdirs. done.
      * etrans; [done|]. by apply insert_subseteq.
      * intros x [->|Hx]%prefix_snoc_cases; [by rewrite lookup_insert_eq|].
        rewrite lookup_insert_ne; [by apply Hdirs|].
        apply app_ne_shorter. apply prefix_length in Hx.
        rewrite length_app. simpl. lia.
      * intros k Hk [v Hv].
        destruct (decide (P ++ r ++ [c] = k)) as [<-|NE].
        { exists (r ++ [c]). done. }
        rewrite lookup_insert_ne in Hv by done.
        destruct (Hnew k Hk) as (x & Hx & ->); [by rewrite Hv|].
        exists x. split; [|done]. by apply prefix_app_r.
Qed.
End Below.

Section Below_files.
Variable cw : loc.
Variable so : list string.
Variable sf : string.
Variable pd : Path.
Variable P : loc.

Lemma os_open_w_sub trunc t r c :
  wf t → locate t cw pd = Ok P → ".." ∉ r → c ≠ ".." →
  t !! (P ++ r) = Some Dir → t !! (P ++ r ++ [c]) = None →
  os_open_w trunc (sub pd (r ++ [c])) (World t cw so sf) =
  (World (<[P ++ r ++ [c] := File ""]> t) cw so sf, Returned (P ++ r ++ [c])).
Proof.
  intros Hwf HP Hr Hc Hd Hn. unfold os_open_w. simpl.
  erewrite sys_open_w_snoc by (simpl; by rewrite app_assoc).
  rewrite (locate_parent_sub cw pd P) by done.
  apply String.eqb_neq in Hc as ->.
  by rewrite <- app_assoc, Hn.
Qed.

(** [touch] of a missing name in a directory makes an empty file. *)
Lemma touch_new t r c :
  wf t → locate t cw pd = Ok P → ".." ∉ r → c ≠ ".." →
  t !! (P ++ r) = Some Dir → t !! (P ++ r ++ [c]) = None →
  Path_touch (sub pd (r ++ [c])) (World t cw so sf) =
  (World (<[P ++ r ++ [c] := File ""]> t) cw so sf, Returned tt).
Proof.
  intros Hwf HP Hr Hc Hd Hn.
  unfold Path_touch, try_except, bind at 1, os_stat, sys_get. simpl.
  rewrite (stat_sub_missing cw pd P) by done.
  unfold bind. by rewrite os_open_w_sub.
Qed.

(** Writing a name that is not a directory, in a directory. *)
Lemma write_file_sub t r c data :
  wf t → locate t cw pd = Ok P → ".." ∉ r → c ≠ ".." →
  t !! (P ++ r) = Some Dir → t !! (P ++ r ++ [c]) ≠ Some Dir →
  write_file (sub pd (r ++ [c])) data (World t cw so sf) =
  (World (<[P ++ r ++ [c] := File data]> t) cw so sf,
   Returned (String.length data)).
Proof.
  intros Hwf HP Hr Hc Hd Hn.
  unfold write_file, bind, os_open_w. simpl.
  erewrite sys_open_w_snoc by (simpl; by rewrite app_assoc).
  rewrite (locate_parent_sub cw pd P) by done.
  apply String.eqb_neq in Hc as ->.
  rewrite <- app_assoc.
  destruct (t !! (P ++ r ++ [c])) as [[|s]|]; [done|..];
    unfold fd_write, set_fs, ret; simpl; by rewrite insert_insert_eq.
Qed.

(** [shutil.copy] of a regular file onto a missing name in a directory. *)
Lemma shutil_copy_new t src r c data :
  wf t → locate t cw pd = Ok P → ".." ∉ r → c ≠ ".." →
  t !! (P ++ r) = Some Dir → t !! (P ++ r ++ [c]) = None →
  sys_stat t cw src = Ok (File data) →
  shutil_copy src (sub pd (r ++ [c])) (World t cw so sf) =
  (World (<[P ++ r ++ [c] := File data]> t) cw so sf,
   Returned (sub pd (r ++ [c]))).
Proof.
  intros Hwf HP Hr Hc Hd Hn Hsrc.
  pose proof (stat_sub_missing cw pd P t r c Hwf HP Hr Hc Hd Hn) as Hmiss.
  unfold shutil_copy, bind at 1. rewrite Path_is_dir_run. simpl.
  unfold is_dir_b. rewrite Hmiss.
  unfold copyfile, bind at 1, samefile. simpl. rewrite Hsrc, Hmiss.
  unfold bind at 1, sys_get, sys_read. simpl. rewrite Hsrc.
  unfold try_except, bind at 1.
  rewrite write_file_sub by (by rewrite ?Hn). done.
Qed.
End Below_files.

(** ** Manifest lookups *)

Lemma strip_app (P x : list string) : strip P (P ++ x) = Some x.
Proof.
  induction P as [|a P IH]; simpl; [done|].
  by rewrite bool_decide_eq_true_2.
Qed.

Lemma strip_Some (P k x : list string) : strip P k = Some x → k = P ++ x.
Proof.
  revert k. induction P as [|a P IH]; intros k; simpl; [by intros [= ->]|].
  destruct k as [|b k]; [done|]. case_bool_decide; [|done].
  intros ->%IH. by subst.
Qed.

Lemma strip_None (P k : list string) : strip P k = None → ¬ P `prefix_of` k.
Proof. intros H [x ->]. by rewrite strip_app in H. Qed.

Lemma strip_not_prefix (P k : list string) : ¬ P `prefix_of` k → strip P k = None.
Proof.
  intros H. destruct (strip P k) as [x|] eqn:E; [|done].
  apply strip_Some in E as ->. destruct H. by exists x.
Qed.

Lemma strict_prefix_b_true (x y : list string) :
  strict_prefix_b x y = true ↔ x `prefix_of` y ∧ x ≠ y.
Proof.
  unfold strict_prefix_b. rewrite andb_true_iff, negb_true_iff.
  by rewrite bool_decide_eq_true, bool_decide_eq_false.
Qed.

Lemma find_target_Some x m e :
  find_target x m = Some e → e ∈ m ∧ tparts (fst e) = x.
Proof.
  unfold find_target. intros [H1 H2]%find_some.
  apply list_elem_of_In in H1. by apply bool_decide_eq_true_1 in H2.
Qed.

Lemma find_target_None x m :
  find_target x m = None ↔ ∀ e, e ∈ m → tparts (fst e) ≠ x.
Proof.
  unfold find_target. split.
  - intros H e He Hx. apply list_elem_of_In in He.
    eapply find_none in H; [|done]. simpl in H.
    by apply bool_decide_eq_false_1 in H.
  - intros H. destruct (List.find _ m) as [e|] eqn:E; [|done].
    apply find_some in E as [H1 H2]. apply list_elem_of_In in H1.
    apply bool_decide_eq_true_1 in H2. by destruct (H e H1).
Qed.

Lemma find_target_snoc x m e :
  find_target x (m ++ [e]) =
  match find_target x m with
  | Some e' => Some e'
  | None => if bool_decide (tparts (fst e) = x) then Some e else None
  end.
Proof.
  unfold find_target. induction m as [|a m IH]; simpl; [done|].
  by destruct (bool_decide (tparts (fst a) = x)).
Qed.

Lemma has_below_snoc x m e :
  has_below x (m ++ [e]) = has_below x m || strict_prefix_b x (tparts (fst e)).
Proof.
  unfold has_below. rewrite existsb_app. simpl. by rewrite orb_false_r.
Qed.

Lemma has_below_true x m :
  has_below x m = true ↔
  ∃ e, e ∈ m ∧ x `prefix_of` tparts (fst e) ∧ x ≠ tparts (fst e).
Proof.
  unfold has_below. rewrite existsb_exists. split.
  - intros (e & He & Hx). exists e. split; [by apply list_elem_of_In|].
    by apply strict_prefix_b_true.
  - intros (e & He & Hx). exists e. split; [by apply list_elem_of_In|].
    by apply strict_prefix_b_true.
Qed.

(** ** The loops, from a project directory just made *)

Section Loops.
Variable cw : loc.
Variable so : list string.
Variable sf : string.
Variable pd : Path.
Variable P : loc.
Variable ad : Path.
Variable A : loc.
Variable t0 : tree.
Hypothesis Hwf0 : wf t0.
Hypothesis HP0 : t0 !! P = None.
Hypothesis HlocP : locate (<[P := Dir]> t0) cw pd = Ok P.
Hypothesis HlocA : locate t0 cw ad = Ok A.
Hypothesis HA : t0 !! A = Some Dir.

Lemma Shape_at_P F t : Shape t0 P F t → t !! P = Some Dir.
Proof.
  intros H. pose proof (strip_app P []) as E. rewrite app_nil_r in E.
  by rewrite (H P), E.
Qed.

Lemma Shape_below F t x : Shape t0 P F t → x ≠ [] → t !! (P ++ x) = F x.
Proof. intros H Hx. rewrite (H (P ++ x)), strip_app. by destruct x. Qed.

Lemma Shape_outside F t k : Shape t0 P F t → ¬ P `prefix_of` k → t !! k = t0 !! k.
Proof. intros H Hk. by rewrite (H k), strip_not_prefix. Qed.

Lemma Shape_dirs_le F t : Shape t0 P F t → dirs_le (<[P := Dir]> t0) t.
Proof.
  intros H k Hk. destruct (decide (P = k)) as [<-|NE].
  - by eapply Shape_at_P.
  - rewrite lookup_insert_ne in Hk by done.
    erewrite Shape_outside; [done..|].
    intros [x ->]. rewrite wf_below_absent in Hk; done.
Qed.

Lemma Shape_dirs_le0 F t : Shape t0 P F t → dirs_le t0 t.
Proof.
  intros H. eapply dirs_le_trans; [|by eapply Shape_dirs_le].
  apply dirs_le_insert. by left.
Qed.

Lemma Shape_locate F t : Shape t0 P F t → locate t cw pd = Ok P.
Proof. intros H. eapply walk_mono; [by eapply Shape_dirs_le|done]. Qed.

Lemma Shape_locate_A F t : Shape t0 P F t → locate t cw ad = Ok A.
Proof. intros H. eapply walk_mono; [by eapply Shape_dirs_le0|done]. Qed.

Lemma Shape_ext F G t :
  (∀ x, x ≠ [] → F x = G x) → Shape t0 P F t → Shape t0 P G t.
Proof.
  intros HFG H k. rewrite (H k).
  destruct (strip P k) as [[|a x]|]; try done. by apply HFG.
Qed.

Lemma Shape_put F t r v :
  Shape t0 P F t → r ≠ [] →
  Shape t0 P (fun x => if bool_decide (x = r) then Some v else F x)
        (<[P ++ r := v]> t).
Proof.
  intros H Hr k. destruct (decide (P ++ r = k)) as [<-|NE].
  - rewrite lookup_insert_eq, strip_app.
    destruct r; [done|]. by rewrite bool_decide_eq_true_2.
  - rewrite lookup_insert_ne, (H k) by done.
    destruct (strip P k) as [[|a x]|] eqn:E; try done.
    rewrite bool_decide_eq_false_2; [done|].
    intros <-. by apply strip_Some in E.
Qed.

Lemma Shape_grown F t t' r :
  Shape t0 P F t → grown P r t t' →
  Shape t0 P (fun x => if bool_decide (x `prefix_of` r) then Some Dir else F x) t'.
Proof.
  intros H (Hsub & Hdirs & Hnew) k.
  destruct (strip P k) as [x|] eqn:E.
  - apply strip_Some in E as ->.
    destruct (decide (x `prefix_of` r)) as [Hx|Hx].
    + rewrite Hdirs by done. destruct x; [done|].
      by rewrite bool_decide_eq_true_2.
    + assert (t' !! (P ++ x) = t !! (P ++ x)) as ->.
      { destruct (t !! (P ++ x)) as [v|] eqn:Et.
        - by eapply lookup_weaken.
        - destruct (t' !! (P ++ x)) as [v|] eqn:Et'; [|done].
          destruct (Hnew (P ++ x) Et) as (y & Hy & Ey); [by rewrite Et'|].
          apply app_inv_head in Ey. by subst. }
      rewrite (H (P ++ x)), strip_app.
      destruct x; [done|]. by rewrite bool_decide_eq_false_2.
  - assert (t' !! k = t !! k) as ->.
    { destruct (t !! k) as [v|] eqn:Et.
      - by eapply lookup_weaken.
      - destruct (t' !! k) as [v|] eqn:Et'; [|done].
        destruct (Hnew k Et) as (y & Hy & ->); [by rewrite Et'|].
        by rewrite strip_app in E. }
    by rewrite (H k), E.
Qed.

(** The assets are out of the project directory's way. *)
Lemma asset_outside key : A ++ [key] ≠ P → ¬ P `prefix_of` A ++ [key].
Proof.
  intros Hne [y Hy]. destruct y as [|b y] using rev_ind.
  - by rewrite app_nil_r in Hy.
  - rewrite app_assoc in Hy. apply app_inj_tail in Hy as [-> _].
    rewrite wf_below_absent in HA; done.
Qed.

Lemma Shape_asset F t key :
  Shape t0 P F t → A ++ [key] ≠ P → t !! (A ++ [key]) = t0 !! (A ++ [key]).
Proof. intros H Hne. eapply Shape_outside; [done|]. by apply asset_outside. Qed.

Lemma Shape_A F t : Shape t0 P F t → t !! A = Some Dir.
Proof. intros H. by eapply Shape_dirs_le0. Qed.

(** Whether a template is there: what [stat] says of [assets_dir / key]. *)
Lemma source_stat F t key :
  Live t0 P F t → plain key = true →
  A ++ [key] ≠ P → t0 !! (A ++ [key]) ≠ Some Dir →
  sys_stat t cw (ad </> key) =
  match asset_at t0 A key with
  | Some c => Ok (File c)
  | None => Err FileNotFoundError
  end.
Proof.
  intros [Hwf H] Hk Hne Hnd.
  pose proof (plain_inv _ Hk) as (_ & _ & Hdd).
  assert (".." ∉ [key]) as Hdd'.
  { apply not_elem_of_cons. split; [done|apply not_elem_of_nil]. }
  rewrite joinpath_plain by done. fold (sub ad [key]).
  pose proof (Shape_asset F t key H Hne) as Ek.
  unfold asset_at. destruct (t0 !! (A ++ [key])) as [[|c]|] eqn:E0; [done|..].
  - apply (stat_sub cw ad A); try done. by eapply Shape_locate_A.
  - pose proof (stat_sub_missing cw ad A t [] key Hwf) as Hm.
    rewrite app_nil_r in Hm. apply Hm; try done.
    + by eapply Shape_locate_A.
    + apply not_elem_of_nil.
    + by eapply Shape_A.
Qed.

Lemma nested_at_snoc L e r' c x :
  tparts (fst e) = r' ++ [c] →
  (∀ e', e' ∈ L → ¬ tparts (fst e') `prefix_of` r' ++ [c] ∧
                  ¬ (r' ++ [c]) `prefix_of` tparts (fst e')) →
  nested_at t0 A (L ++ [e]) x =
  if bool_decide (x = r' ++ [c])
  then Some (File (template_content t0 A (snd e)))
  else if bool_decide (x `prefix_of` r') then Some Dir
       else nested_at t0 A L x.
Proof.
  intros Hr Hfree. unfold nested_at.
  rewrite find_target_snoc, has_below_snoc, Hr.
  destruct (decide (x = r' ++ [c])) as [->|Hx].
  - rewrite (proj2 (find_target_None _ L)).
    + by rewrite !bool_decide_eq_true_2.
    + intros e' He' E. destruct (Hfree e' He') as [H1 _]. apply H1.
      by rewrite E.
  - rewrite (bool_decide_eq_false_2 (x = r' ++ [c])) by done.
    rewrite (bool_decide_eq_false_2 (r' ++ [c] = x)) by done.
    destruct (decide (x `prefix_of` r')) as [Hx'|Hx'].
    + rewrite bool_decide_eq_true_2 by done.
      rewrite (proj2 (find_target_None _ L)).
      * assert (strict_prefix_b x (r' ++ [c]) = true) as ->.
        { apply strict_prefix_b_true. split; [by apply prefix_app_r|done]. }
        by rewrite orb_true_r.
      * intros e' He' E. destruct (Hfree e' He') as [H1 _]. apply H1.
        rewrite E. by apply prefix_app_r.
    + rewrite bool_decide_eq_false_2 by done.
      destruct (find_target x L); [done|].
      assert (strict_prefix_b x (r' ++ [c]) = false) as ->.
      { apply not_true_iff_false. rewrite strict_prefix_b_true.
        intros [[?|?]%prefix_snoc_cases ?]; done. }
      by rewrite orb_false_r.
Qed.

(** A target no earlier entry is in the way of is still free. *)
Lemma nested_at_free L r :
  (∀ e', e' ∈ L → ¬ tparts (fst e') `prefix_of` r ∧
                  ¬ r `prefix_of` tparts (fst e')) →
  nested_at t0 A L r = None.
Proof.
  intros Hfree. unfold nested_at.
  rewrite (proj2 (find_target_None _ L)).
  - destruct (has_below r L) eqn:E; [|done].
    apply has_below_true in E as (e' & He' & Hp & _).
    by destruct (Hfree e' He') as [_ []].
  - intros e' He' E. destruct (Hfree e' He') as [[] _]. by rewrite E.
Qed.

Lemma nested_at_no_file L r x s :
  (∀ e', e' ∈ L → ¬ tparts (fst e') `prefix_of` r ∧
                  ¬ r `prefix_of` tparts (fst e')) →
  x `prefix_of` r → nested_at t0 A L x ≠ Some (File s).
Proof.
  intros Hfree Hx. unfold nested_at.
  destruct (find_target x L) as [e'|] eqn:E.
  - apply find_target_Some in E as [He' E].
    destruct (Hfree e' He') as [[] _]. by rewrite E.
  - by destruct (has_below x L).
Qed.

(** One turn of the first loop. *)
Lemma copy_template_run L e t :
  Live t0 P (nested_at t0 A L) t →
  nested_ok e = true →
  (∀ e', e' ∈ L → ¬ tparts (fst e') `prefix_of` tparts (fst e) ∧
                  ¬ tparts (fst e) `prefix_of` tparts (fst e')) →
  (truthy (snd e) = true →
   A ++ [snd e] ≠ P ∧ t0 !! (A ++ [snd e]) ≠ Some Dir) →
  ∃ t', copy_template ad pd e (World t cw so sf) =
          (World t' cw so sf, Returned tt) ∧
        Live t0 P (nested_at t0 A (L ++ [e])) t'.
Proof.
  intros [Hwf HS] Hok Hfree Hasset. destruct e as [tp key]. simpl in *.
  unfold nested_ok in Hok. simpl in Hok.
  apply andb_prop in Hok as [Hok Hkey]. apply andb_prop in Hok as [Hsafe Hne].
  apply safe_target_inv in Hsafe as [Hroot Hdd]. fold (tparts tp) in Hdd.
  apply negb_true_iff, bool_decide_eq_false_1 in Hne.
  destruct (tparts tp) as [|c r _] eqn:Er using rev_ind; [done|]. clear Hne.
  apply not_elem_of_app in Hdd as [Hr Hc].
  apply not_elem_of_cons in Hc as [Hc%not_eq_sym _].
  assert (locate t cw pd = Ok P) as HP by by eapply Shape_locate.
  assert (t !! P = Some Dir) as HPd by by eapply Shape_at_P.
  destruct (mkdir_p_run cw so sf pd P t r (length (parts (sub pd r))))
    as (ta & Hrun & Hwfa & Hg); try done.
  { intros x Hx s. destruct x as [|a x]; [by rewrite app_nil_r, HPd|].
    rewrite (Shape_below _ t (a :: x) HS) by done.
    apply (nested_at_no_file L (r ++ [c])); [done|]. by apply prefix_app_r. }
  { simpl. rewrite length_app. lia. }
  pose proof (Shape_grown _ _ _ _ HS Hg) as HSa.
  assert (locate ta cw pd = Ok P) as HPa by by eapply Shape_locate.
  assert (ta !! (P ++ r) = Some Dir) as Hda.
  { destruct Hg as (_ & Hdirs & _). by apply Hdirs. }
  assert (ta !! (P ++ r ++ [c]) = None) as Hna.
  { rewrite (Shape_below _ ta (r ++ [c]) HSa) by by destruct r.
    rewrite bool_decide_eq_false_2 by apply prefix_snoc_not.
    by apply nested_at_free. }
  assert (∀ data, template_content t0 A key = data →
    Live t0 P (nested_at t0 A (L ++ [(tp, key)]))
         (<[P ++ r ++ [c] := File data]> ta)) as Hlive.
  { intros data Hdata. split.
    - rewrite app_assoc. apply wf_insert; [done..|].
      right. by rewrite <- app_assoc, Hna.
    - eapply Shape_ext; [|apply Shape_put; [done|by destruct r]].
      intros x Hx. simpl.
      rewrite (nested_at_snoc L (tp, key) r c) by done. simpl.
      by rewrite Hdata. }
  unfold copy_template.
  rewrite joinpath_sub by done. fold (tparts tp). rewrite Er, parent_sub.
  unfold Path_mkdir, bind at 1. rewrite Hrun.
  unfold template_content in Hlive.
  destruct (truthy key) eqn:Etr; simpl in Hkey.
  2:{ eexists. split; [by apply touch_new|]. by apply Hlive. }
  destruct (Hasset eq_refl) as [HneP Hnd].
  pose proof (source_stat _ ta key (conj Hwfa HSa) Hkey HneP Hnd) as Hsrc.
  unfold bind at 1. rewrite Path_exists_run. simpl. unfold exists_b.
  rewrite Hsrc.
  destruct (asset_at t0 A key) as [data|] eqn:Eas.
  - eexists. split; [|by apply Hlive].
    unfold bind. by erewrite shutil_copy_new.
  - eexists. split; [by apply touch_new|]. by apply Hlive.
Qed.

(** The first loop. *)
Lemma templates_run T :
  ∀ L t,
  Live t0 P (nested_at t0 A L) t →
  forallb nested_ok T = true →
  free (L ++ T) → NoDup (L ++ T) → assets_clear t0 P A T →
  ∃ t', for_each T (copy_template ad pd) (World t cw so sf) =
          (World t' cw so sf, Returned tt) ∧
        Live t0 P (nested_at t0 A (L ++ T)) t'.
Proof.
  induction T as [|e T IH]; intros L t Hlive Hok Hfree Hnd Hclear.
  - exists t. by rewrite app_nil_r.
  - simpl in Hok. apply andb_prop in Hok as [Hoke Hok].
    destruct (copy_template_run L e t) as (t1 & Hrun1 & Hlive1); try done.
    + intros e' He'.
      assert (e' ≠ e) as Hne.
      { intros ->. apply NoDup_app in Hnd as (_ & Hnd & _).
        apply (Hnd e He'). by left. }
      split; intros Hp; apply Hne.
      * apply Hfree; [apply elem_of_app; by left| |done].
        apply elem_of_app; right; by left.
      * symmetry. apply Hfree; [|apply elem_of_app; by left|done].
        apply elem_of_app; right; by left.
    + apply Hclear. by left.
    + destruct (IH (L ++ [e]) t1) as (t2 & Hrun2 & Hlive2); try done.
      * by rewrite <- app_assoc.
      * by rewrite <- app_assoc.
      * intros e' He'. apply Hclear. by right.
      * exists t2. split.
        -- simpl. unfold bind. by rewrite Hrun1.
        -- by rewrite <- app_assoc in Hlive2.
Qed.

Lemma loops_at_snoc T L e x0 x :
  tparts (fst e) = [x0] →
  (∀ e', e' ∈ L → tparts (fst e') ≠ [x0]) →
  loops_at t0 A T (L ++ [e]) x =
  if bool_decide (x = [x0])
  then match asset_at t0 A (snd e) with
       | Some c => Some (File c)
       | None => nested_at t0 A T [x0]
       end
  else loops_at t0 A T L x.
Proof.
  intros He Hfree. unfold loops_at, root_at.
  rewrite find_target_snoc, He.
  destruct (decide (x = [x0])) as [->|Hx].
  - rewrite (proj2 (find_target_None _ L)) by done.
    rewrite !bool_decide_eq_true_2 by done.
    by destruct (asset_at t0 A (snd e)).
  - rewrite (bool_decide_eq_false_2 (x = [x0])) by done.
    rewrite (bool_decide_eq_false_2 ([x0] = x)) by done.
    by destruct (find_target x L).
Qed.

Lemma loops_at_free T L x0 :
  (∀ e', e' ∈ L → tparts (fst e') ≠ [x0]) →
  (∀ e', e' ∈ T → ¬ [x0] `prefix_of` tparts (fst e')) →
  loops_at t0 A T L [x0] = None.
Proof.
  intros HL HT. unfold loops_at, root_at.
  rewrite (proj2 (find_target_None _ L)) by done.
  unfold nested_at. rewrite (proj2 (find_target_None _ T)).
  - destruct (has_below [x0] T) eqn:E; [|done].
    apply has_below_true in E as (e' & He' & Hp & _).
    by destruct (HT e' He').
  - intros e' He' E. apply (HT e' He'). by rewrite E.
Qed.

(** One turn of the second loop. *)
Lemma copy_root_file_run T L e t :
  Live t0 P (loops_at t0 A T L) t →
  root_ok T e = true →
  (∀ e', e' ∈ L → tparts (fst e') ≠ tparts (fst e)) →
  A ++ [snd e] ≠ P → t0 !! (A ++ [snd e]) ≠ Some Dir →
  ∃ t', copy_root_file ad pd e (World t cw so sf) =
          (World t' cw so sf, Returned tt) ∧
        Live t0 P (loops_at t0 A T (L ++ [e])) t'.
Proof.
  intros [Hwf HS] Hok Hfree HneP Hnd. destruct e as [tp key]. simpl in *.
  unfold root_ok in Hok. simpl in Hok.
  apply andb_prop in Hok as [Hok Hkey]. apply andb_prop in Hok as [Hroot Hok].
  apply String.eqb_eq in Hroot.
  destruct (tparts tp) as [|x0 [|? ?]] eqn:Er; try done.
  apply andb_prop in Hok as [Hc HT].
  apply negb_true_iff, String.eqb_neq in Hc.
  assert (∀ e', e' ∈ T → ¬ [x0] `prefix_of` tparts (fst e')) as HT'.
  { intros e' He'. rewrite forallb_forall in HT.
    apply list_elem_of_In, HT in He'.
    by apply negb_true_iff, bool_decide_eq_false_1 in He'. }
  assert (locate t cw pd = Ok P) as HP by by eapply Shape_locate.
  assert (t !! (P ++ []) = Some Dir) as HPd.
  { rewrite app_nil_r. by eapply Shape_at_P. }
  assert (t !! (P ++ [] ++ [x0]) = None) as Hn.
  { simpl. rewrite (Shape_below _ t [x0] HS) by done. by apply loops_at_free. }
  pose proof (source_stat _ t key (conj Hwf HS) Hkey HneP Hnd) as Hsrc.
  unfold copy_root_file.
  rewrite (joinpath_sub pd tp) by done. fold (tparts tp). rewrite Er.
  unfold bind at 1. rewrite Path_exists_run. simpl. unfold exists_b.
  rewrite Hsrc.
  destruct (asset_at t0 A key) as [data|] eqn:Eas.
  - eexists. split.
    + unfold bind.
      by erewrite (shutil_copy_new cw so sf pd P t _ [] x0 data);
        try done; try apply not_elem_of_nil.
    + simpl. split.
      * replace (P ++ [x0]) with ((P ++ []) ++ [x0]) by by rewrite app_nil_r.
        apply wf_insert; [done..|]. right. simpl in Hn.
        by rewrite app_nil_r, Hn.
      * eapply Shape_ext; [|by apply Shape_put].
        intros x Hx. simpl.
        rewrite (loops_at_snoc T L (tp, key) x0) by done. simpl.
        by rewrite Eas.
  - exists t. split; [done|]. split; [done|].
    eapply Shape_ext; [|done].
    intros x Hx. simpl.
    rewrite (loops_at_snoc T L (tp, key) x0) by done. simpl.
    rewrite Eas.
    case_bool_decide as Ex; [|done]. subst x.
    unfold loops_at, root_at.
    by rewrite (proj2 (find_target_None _ L)).
Qed.

(** The second loop. *)
Lemma root_files_run T R :
  ∀ L t,
  Live t0 P (loops_at t0 A T L) t →
  forallb (root_ok T) R = true →
  free (L ++ R) → NoDup (L ++ R) → assets_clear t0 P A R →
  ∃ t', for_each R (copy_root_file ad pd) (World t cw so sf) =
          (World t' cw so sf, Returned tt) ∧
        Live t0 P (loops_at t0 A T (L ++ R)) t'.
Proof.
  induction R as [|e R IH]; intros L t Hlive Hok Hfree Hnd Hclear.
  - exists t. by rewrite app_nil_r.
  - simpl in Hok. apply andb_prop in Hok as [Hoke Hok].
    assert (truthy (snd e) = true) as Htr.
    { unfold root_ok in Hoke. apply andb_prop in Hoke as [_ Hpl].
      apply plain_inv in Hpl as (_ & Hk & _). unfold truthy.
      unfold keep_part in Hk. by apply andb_prop in Hk as [-> _]. }
    destruct (Hclear e) as [HneP Hndir]; [by left|done|].
    destruct (copy_root_file_run T L e t) as (t1 & Hrun1 & Hlive1); try done.
    + intros e' He' E.
      assert (e' ≠ e) as Hne.
      { intros ->. apply NoDup_app in Hnd as (_ & Hnd & _).
        apply (Hnd e He'). by left. }
      apply Hne. apply Hfree; [apply elem_of_app; by left| |by rewrite E].
      apply elem_of_app; right; by left.
    + destruct (IH (L ++ [e]) t1) as (t2 & Hrun2 & Hlive2); try done.
      * by rewrite <- app_assoc.
      * by rewrite <- app_assoc.
      * intros e' He'. apply Hclear. by right.
      * exists t2. split.
        -- simpl. unfold bind. by rewrite Hrun1.
        -- by rewrite <- app_assoc in Hlive2.
Qed.

Lemma loops_at_not_dir T R x0 :
  (∀ e, e ∈ T → strict_prefix_b [x0] (tparts (fst e)) = false) →
  loops_at t0 A T R [x0] ≠ Some Dir.
Proof.
  intros HT. unfold loops_at, root_at, nested_at.
  destruct (find_target [x0] R) as [e|].
  { destruct (asset_at t0 A (snd e)); [done|].
    destruct (find_target [x0] T); [done|].
    destruct (has_below [x0] T) eqn:E; [|done].
    apply has_below_true in E as (e' & He' & Hp).
    apply strict_prefix_b_true in Hp. by rewrite HT in Hp. }
  destruct (find_target [x0] T); [done|].
  destruct (has_below [x0] T) eqn:E; [|done].
  apply has_below_true in E as (e' & He' & Hp).
  apply strict_prefix_b_true in Hp. by rewrite HT in Hp.
Qed.

Lemma write_file_top t c data :
  wf t → locate t cw pd = Ok P → c ≠ ".." →
  t !! P = Some Dir → t !! (P ++ [c]) ≠ Some Dir →
  write_file (sub pd [c]) data (World t cw so sf) =
  (World (<[P ++ [c] := File data]> t) cw so sf,
   Returned (String.length data)).
Proof.
  intros Hwf HP Hc Hd Hn.
  pose proof (write_file_sub cw so sf pd P t [] c data Hwf HP) as H.
  rewrite app_nil_r in H. apply H; try done. apply not_elem_of_nil.
Qed.

Lemma wf_insert_top t c v :
  wf t → t !! P = Some Dir → t !! (P ++ [c]) ≠ Some Dir →
  wf (<[P ++ [c] := v]> t).
Proof. intros. apply wf_insert; auto. Qed.

(** The two synthesized files and the report. *)
Lemma synthesize_run T R project_name t :
  Live t0 P (loops_at t0 A T R) t →
  (∀ e, e ∈ T → strict_prefix_b [".env.example"] (tparts (fst e)) = false) →
  (∀ e, e ∈ T → strict_prefix_b ["README.md"] (tparts (fst e)) = false) →
  ∃ t',
    (Path_write_text (pd </> ".env.example") ENV_EXAMPLE ;;
     Path_write_text (pd </> "README.md") (README project_name) ;;
     print ("Project '" +:+ project_name +:+ "' created at " +:+ Path_str pd) ;;
     print (LF +:+ "Next steps:") ;;
     print ("  cd " +:+ project_name) ;;
     print "  cp .env.example .env" ;;
     print "  docker compose up -d" ;;
     ret 0%Z) (World t cw so sf) =
    (World t' cw (so ++ banner project_name pd) sf, Returned 0%Z) ∧
    Live t0 P (scaffold_at t0 A T R project_name) t'.
Proof.
  intros [Hwf HS] Henv Hreadme.
  assert (locate t cw pd = Ok P) as HP by by eapply Shape_locate.
  assert (t !! P = Some Dir) as HPd by by eapply Shape_at_P.
  assert (t !! (P ++ [".env.example"]) ≠ Some Dir) as Hn1.
  { rewrite (Shape_below _ t [".env.example"] HS) by done.
    by apply loops_at_not_dir. }
  set (t1 := <[P ++ [".env.example"] := File ENV_EXAMPLE]> t).
  assert (wf t1) as Hwf1 by by apply wf_insert_top.
  assert (Shape t0 P (fun x => if bool_decide (x = [".env.example"])
                               then Some (File ENV_EXAMPLE)
                               else loops_at t0 A T R x) t1) as HS1.
  { by apply Shape_put. }
  assert (locate t1 cw pd = Ok P) as HP1 by by eapply Shape_locate.
  assert (t1 !! P = Some Dir) as HPd1 by by eapply Shape_at_P.
  assert (t1 !! (P ++ ["README.md"]) ≠ Some Dir) as Hn2.
  { rewrite (Shape_below _ t1 ["README.md"] HS1) by done.
    rewrite bool_decide_eq_false_2 by done. by apply loops_at_not_dir. }
  exists (<[P ++ ["README.md"] := File (README project_name)]> t1). split.
  - unfold Path_write_text.
    rewrite (joinpath_sub pd ".env.example") by done.
    rewrite (joinpath_sub pd "README.md") by done.
    replace (parts (Path_of ".env.example")) with [".env.example"] by done.
    replace (parts (Path_of "README.md")) with ["README.md"] by done.
    unfold bind at 1. rewrite write_file_top by done.
    unfold bind at 1. rewrite write_file_top by done.
    unfold bind, print, ret, banner. simpl.
    by rewrite <- !app_assoc.
  - split; [by apply wf_insert_top|].
    eapply Shape_ext; [|by apply Shape_put].
    intros x Hx. done.
Qed.
End Loops.

(** ** A complete run *)

Lemma prefix_free_free m : prefix_free m = true → free m.
Proof.
  unfold prefix_free. rewrite forallb_forall. intros H e1 e2 H1 H2 Hp.
  apply list_elem_of_In, H in H1. rewrite forallb_forall in H1.
  apply list_elem_of_In, H1 in H2.
  apply orb_prop in H2 as [H2|H2].
  - apply negb_true_iff, bool_decide_eq_false_1 in H2. done.
  - by apply bool_decide_eq_true_1 in H2.
Qed.

Lemma manifests_ok_inv T R :
  manifests_ok T R = true →
  forallb nested_ok T = true ∧ free T ∧ NoDup T ∧
  forallb (root_ok T) R = true ∧ free R ∧ NoDup R ∧
  (∀ e, e ∈ T → strict_prefix_b [".env.example"] (tparts (fst e)) = false) ∧
  (∀ e, e ∈ T → strict_prefix_b ["README.md"] (tparts (fst e)) = false).
Proof.
  unfold manifests_ok. rewrite !andb_true_iff.
  intros ((((((H1 & H2) & H3) & H4) & H5) & H6) & H7).
  apply bool_decide_eq_true_1 in H3, H6.
  split_and!; try done; try by apply prefix_free_free.
  all: intros e He; rewrite forallb_forall in H7;
    apply list_elem_of_In, H7 in He;
    apply andb_prop in He as [Ha Hb];
    by apply negb_true_iff in Ha, Hb.
Qed.

Lemma ready_inv keys w pd :
  ready keys w pd = true →
  ∃ d c A,
    wf (fs w) ∧ locate_parent (fs w) (cwd w) pd = Ok (d, c) ∧
    parts pd ≠ [] ∧ c ≠ ".." ∧ fs w !! (d ++ [c]) = None ∧
    locate (fs w) (cwd w) (assets_dir_of w) = Ok A ∧
    fs w !! A = Some Dir ∧
    (∀ key, key ∈ keys →
       fs w !! (A ++ [key]) ≠ Some Dir ∧ A ++ [key] ≠ d ++ [c]) ∧
    project_at w pd = d ++ [c] ∧ assets_at w = A.
Proof.
  unfold ready, project_at, assets_at.
  intros [Hwf H]%andb_prop. apply well_formed_wf in Hwf.
  destruct (locate_parent _ _ _) as [[d c]|]; [|done].
  destruct (locate _ _ (assets_dir_of w)) as [A|]; [|done].
  rewrite !andb_true_iff in H.
  destruct H as ((((H1 & H2) & H3) & H4) & H5).
  apply negb_true_iff, bool_decide_eq_false_1 in H1.
  apply negb_true_iff, String.eqb_neq in H2.
  apply bool_decide_eq_true_1 in H3, H4.
  exists d, c, A. split_and!; try done.
  intros key Hk. rewrite forallb_forall in H5.
  apply list_elem_of_In, H5 in Hk. apply andb_prop in Hk as [Ha Hb].
  by apply negb_true_iff, bool_decide_eq_false_1 in Ha, Hb.
Qed.

Lemma keys_of_template T R e :
  e ∈ T → truthy (snd e) = true → snd e ∈ keys_of T R.
Proof.
  intros He Htr. unfold keys_of. apply elem_of_app. left.
  apply list_elem_of_In, filter_In. split; [|done].
  apply in_map. by apply list_elem_of_In.
Qed.

Lemma keys_of_root_file T R e : e ∈ R → snd e ∈ keys_of T R.
Proof.
  intros He. unfold keys_of. apply elem_of_app. right.
  apply list_elem_of_In, in_map. by apply list_elem_of_In.
Qed.

(** From a world that is [ready], a run over manifests that are
    [manifests_ok] completes: it returns 0, prints the report, and leaves
    the tree that [expected] describes. *)
Lemma create_project_with_complete templates root_files project_name output_dir w :
  manifests_ok templates root_files = true →
  ready (keys_of templates root_files) w (output_dir </> project_name) = true →
  ∃ t',
    create_project_with templates root_files project_name output_dir w =
      (World t' (cwd w)
         (stdout w ++ banner project_name (output_dir </> project_name))
         (script_file w),
       Returned 0%Z) ∧
    wf t' ∧
    locate t' (cwd w) (output_dir </> project_name)
      = Ok (project_at w (output_dir </> project_name)) ∧
    ∀ k, t' !! k =
         expected (fs w) (project_at w (output_dir </> project_name))
                  (assets_at w) templates root_files project_name k.
Proof.
  intros (HT1 & HT2 & HT3 & HR1 & HR2 & HR3 & Henv & Hreadme)%manifests_ok_inv.
  set (pd := output_dir </> project_name).
  intros (d & c & A & Hwf & Hlp & Hne & Hc & Hk & HlA & HA & Hkeys & -> & ->)%ready_inv.
  destruct w as [t0 cw so sf]. simpl in *.
  set (ad := assets_dir_of (World t0 cw so sf)) in *.
  set (P := d ++ [c]) in *.
  pose proof (locate_parent_ok _ _ _ _ _ Hlp) as (Hw & Hd & Hlast).
  pose proof (parts_snoc pd Hne) as Hsn. rewrite <- Hlast in Hsn.
  assert (locate (<[P := Dir]> t0) cw pd = Ok P) as HlocP.
  { unfold locate. rewrite Hsn, walk_app.
    erewrite walk_mono; [|by apply dirs_le_insert; left|done]. simpl.
    rewrite lookup_insert_ne.
    - by rewrite Hd, step_name.
    - intros E. apply (f_equal length) in E. unfold P in E.
      rewrite length_app in E. simpl in E. lia. }
  assert (os_mkdir pd (World t0 cw so sf) =
          (World (<[P := Dir]> t0) cw so sf, Returned tt)) as Hmk.
  { unfold os_mkdir, sys_put. simpl. erewrite sys_mkdir_snoc by done.
    rewrite Hlp. apply String.eqb_neq in Hc as ->. fold P. by rewrite Hk. }
  assert (Live t0 P (nested_at t0 A []) (<[P := Dir]> t0)) as Hlive0.
  { split; [by apply wf_insert; auto|].
    intros k. destruct (strip P k) as [x|] eqn:E.
    - apply strip_Some in E as ->. destruct x as [|a x].
      + by rewrite app_nil_r, lookup_insert_eq.
      + rewrite lookup_insert_ne by by apply strictly_below.
        by apply wf_below_absent.
    - apply strip_None in E. rewrite lookup_insert_ne; [done|].
      by intros <-. }
  destruct (templates_run cw so sf pd P ad A t0 Hwf Hk HlocP HlA HA
              templates [] _ Hlive0) as (t1 & Hrun1 & Hlive1); try done.
  { intros e He Htr. destruct (Hkeys (snd e)) as [Ha Hb];
      [by apply keys_of_template|done]. }
  simpl in Hlive1.
  assert (Live t0 P (loops_at t0 A templates []) t1) as Hlive1'.
  { destruct Hlive1 as [? HS]. split; [done|].
    eapply Shape_ext; [|done]. done. }
  destruct (root_files_run cw so sf pd P ad A t0 Hwf Hk HlocP HlA HA
              templates root_files [] _ Hlive1') as (t2 & Hrun2 & Hlive2);
    try done.
  { intros e He Htr. destruct (Hkeys (snd e)) as [Ha Hb];
      [by apply keys_of_root_file|done]. }
  simpl in Hlive2.
  destruct (synthesize_run cw so sf pd P A t0 Hwf Hk HlocP
              templates root_files project_name t2 Hlive2 Henv Hreadme)
    as (t3 & Hrun3 & Hwf3 & HS3).
  exists t3. split_and!; [|done| |exact HS3].
  2:{ eapply walk_mono; [|exact HlocP].
      eapply Shape_dirs_le; [exact Hwf|exact Hk|exact HS3]. }
  unfold create_project_with. fold pd.
  unfold bind at 1, get_file. simpl. fold ad.
  unfold bind at 1. rewrite Path_exists_run. simpl.
  assert (exists_b t0 cw pd = false) as ->.
  { unfold exists_b, sys_stat, locate. rewrite Hsn, walk_app, Hw. simpl.
    rewrite Hd, step_name by done. fold P. by rewrite Hk. }
  unfold bind at 1, Path_mkdir.
  rewrite (mkdir_rec_direct _ _ _ _ _ _ Hmk).
  change (parent (Path_of sf)) with ad.
  unfold bind at 1. rewrite Hrun1.
  unfold bind at 1. rewrite Hrun2.
  exact Hrun3.
Qed.

(** ** The fuel of [Path.mkdir] *)

(** Without [parents] there is no recursion. *)
Lemma mkdir_rec_flat n q b w :
  Path_mkdir_rec n q false b w = Path_mkdir_rec 0 q false b w.
Proof.
  destruct n; simpl; [done|]. unfold try_except.
  destruct (os_mkdir q w) as [w1 [[]|e]]; [done|]. by destruct (kind e).
Qed.

(** The number of parts is fuel enough: more fuel changes nothing, so the
    branch that runs out of it is never taken. *)
Lemma Path_mkdir_rec_fuel n :
  ∀ q b1 b2 w,
  (length (parts q) <= n)%nat →
  Path_mkdir_rec n q b1 b2 w = Path_mkdir_rec (length (parts q)) q b1 b2 w.
Proof.
  induction n as [|n IH]; intros q b1 b2 w Hn.
  - by replace (length (parts q)) with 0%nat by lia.
  - destruct (decide (length (parts q) = S n)) as [->|Hne]; [done|].
    destruct (parts q) as [|c l _] eqn:Eq using rev_ind.
    + simpl. unfold try_except.
      destruct (os_mkdir q w) as [w1 [[]|e]]; [done|].
      destruct (kind e); try done.
      rewrite (bool_decide_eq_true_2 (parent q = q)) by by apply parent_fixed.
      by rewrite orb_true_r.
    + rewrite length_app in *. simpl in *.
      replace (length l + 1)%nat with (S (length l)) by lia.
      simpl. unfold try_except.
      destruct (os_mkdir q w) as [w1 [[]|e]]; [done|].
      destruct (kind e); try done.
      destruct (negb b1 || _); [done|].
      assert (length (parts (parent q)) = length l) as Hl.
      { simpl. by rewrite Eq, removelast_last. }
      unfold bind. rewrite IH by lia. rewrite Hl.
      destruct (Path_mkdir_rec (length l) (parent q) true true w1)
        as [w2 [[]|e2]]; [|done].
      by rewrite (mkdir_rec_flat n), (mkdir_rec_flat (length l)).
Qed.

(** ** The ends of a run *)

(** A call that finds the project directory prints one line and
    returns 1. *)
Lemma create_project_with_rejects T R project_name output_dir w :
  exists_b (fs w) (cwd w) (output_dir </> project_name) = true →
  create_project_with T R project_name output_dir w =
  (printed w [already_exists (output_dir </> project_name)], Returned 1%Z).
Proof.
  intros H. unfold create_project_with.
  unfold bind at 1, get_file. unfold bind at 1.
  rewrite Path_exists_run, H. done.
Qed.

(** A call that returns has found the directory, or has gone through every
    step. *)
Lemma create_project_with_returned T R project_name output_dir w w' z :
  create_project_with T R project_name output_dir w = (w', Returned z) →
  let pd := output_dir </> project_name in
  let ad := assets_dir_of w in
  (z = 1%Z ∧ exists_b (fs w) (cwd w) pd = true ∧
   w' = printed w [already_exists pd]) ∨
  (z = 0%Z ∧ exists_b (fs w) (cwd w) pd = false ∧
   ∃ w1 w2 w3 w4 w5 n1 n2,
     Path_mkdir pd true false w = (w1, Returned tt) ∧
     for_each T (copy_template ad pd) w1 = (w2, Returned tt) ∧
     for_each R (copy_root_file ad pd) w2 = (w3, Returned tt) ∧
     write_file (pd </> ".env.example") ENV_EXAMPLE w3 = (w4, Returned n1) ∧
     write_file (pd </> "README.md") (README project_name) w4 = (w5, Returned n2) ∧
     w' = printed w5 (banner project_name pd)).
Proof.
  intros H pd ad. revert H. unfold create_project_with. fold pd.
  unfold bind at 1, get_file. fold (assets_dir_of w). fold ad.
  unfold bind at 1. rewrite Path_exists_run.
  destruct (exists_b (fs w) (cwd w) pd) eqn:E.
  { intros [= <- <-]. left. done. }
  intros (w1 & [] & H1 & H)%bind_ok.
  apply bind_ok in H as (w2 & [] & H2 & H).
  apply bind_ok in H as (w3 & [] & H3 & H).
  apply bind_ok in H as (w4 & n1 & H4 & H).
  apply bind_ok in H as (w5 & n2 & H5 & H).
  right. split_and!; try done.
  - unfold bind, print, ret in H. simpl in H. by injection H.
  - exists w1, w2, w3, w4, w5, n1, n2. split_and!; try done.
    unfold bind, print, ret in H. simpl in H. injection H as <- _.
    unfold printed, banner. simpl. by rewrite <- !app_assoc.
Qed.

Lemma write_file_returned q data w w' n :
  write_file q data w = (w', Returned n) →
  ∃ d c, parts q = removelast (parts q) ++ [c] ∧ c ≠ ".." ∧
         walk (fs w) (start (cwd w) q) (removelast (parts q)) = Ok d ∧
         fs w !! d = Some Dir ∧ fs w !! (d ++ [c]) ≠ Some Dir ∧
         w' = set_fs (<[d ++ [c] := File data]> (fs w)) w.
Proof.
  unfold write_file, bind, os_open_w, fd_write, ret.
  destruct (sys_open_w _ _ _ _) as [[t k]|e] eqn:E; [|done].
  intros [= <- _].
  apply sys_open_w_ok in E as (d & c & Hsn & Hw & Hd & Hc & -> & Hk & Ht).
  exists d, c. split_and!; try done.
  unfold set_fs. simpl. f_equal.
  destruct Ht as [[-> _]| ->]; [done|]. by rewrite insert_insert_eq.
Qed.

(** What was written can be read back. *)
Lemma write_file_read q data w w' n :
  write_file q data w = (w', Returned n) → file_at w' q = Some data.
Proof.
  intros (d & c & Hsn & Hc & Hw & Hd & Hk & ->)%write_file_returned.
  unfold file_at, sys_stat, locate. simpl.
  rewrite Hsn, walk_app.
  erewrite walk_mono; [|by apply dirs_le_insert; right|done]. simpl.
  rewrite lookup_insert_ne.
  - rewrite Hd, step_name by done. by rewrite lookup_insert_eq.
  - intros E. apply (f_equal length) in E. rewrite length_app in E.
    simpl in E. lia.
Qed.

(** Writing one name leaves a file of another name alone. *)
Lemma write_file_other pd c1 c2 data w w' n s :
  c2 ≠ ".." → c1 ≠ c2 →
  write_file (sub pd [c1]) data w = (w', Returned n) →
  file_at w (sub pd [c2]) = Some s → file_at w' (sub pd [c2]) = Some s.
Proof.
  intros Hc2 Hne (d & c & Hsn & Hc & Hw & Hd & Hk & ->)%write_file_returned.
  simpl in Hsn. rewrite removelast_last in Hsn.
  apply app_inj_tail in Hsn as [_ <-].
  unfold file_at, sys_stat, locate. simpl.
  destruct (walk (fs w) (start (cwd w) (sub pd [c2])) (parts pd ++ [c2]))
    as [k|] eqn:E; [|done].
  erewrite (walk_mono (fs w)); [|by apply dirs_le_insert; right|done].
  apply walk_snoc_inv in E as (d2 & _ & _ & ->).
  rewrite step_name by done.
  rewrite lookup_insert_ne; [done|].
  intros [_ ?]%app_inj_tail. done.
Qed.

(** The directory a written file is in exists afterwards. *)
Lemma write_file_dir pd c data w w' n :
  write_file (sub pd [c]) data w = (w', Returned n) →
  exists_b (fs w') (cwd w') pd = true.
Proof.
  intros (d & c' & Hsn & Hc & Hw & Hd & Hk & ->)%write_file_returned.
  simpl in Hw. rewrite removelast_last in Hw.
  unfold exists_b, sys_stat, locate. simpl.
  erewrite walk_mono; [|by apply dirs_le_insert; right|done].
  rewrite lookup_insert_ne.
  - by rewrite Hd.
  - intros E. apply (f_equal length) in E. rewrite length_app in E.
    simpl in E. lia.
Qed.

(** ** Text *)

Lemma split_on_app sep a b :
  has_char sep a = false →
  split_on sep (a +:+ String sep b) = a :: split_on sep b.
Proof.
  induction a as [|c a IH]; simpl.
  - by rewrite Ascii.eqb_refl.
  - intros [H1 H2]%orb_false_elim. by rewrite H1, IH.
Qed.

Lemma prefix_same s : String.prefix s s = true.
Proof.
  induction s as [|c s IH]; simpl; [done|]. by destruct (ascii_dec c c).
Qed.

Lemma contains_end a s : contains s (a +:+ s) = true.
Proof.
  induction a as [|c a IH]; simpl.
  - destruct s; simpl; [done|]. rewrite prefix_same.
    by destruct (ascii_dec _ _).
  - rewrite IH. apply orb_true_r.
Qed.

(** The title line of the README, for a name on one line. *)
Lemma first_line_README project_name :
  has_char "010"%char project_name = false →
  first_line (README project_name) = "# " +:+ project_name.
Proof.
  intros H. unfold first_line, lines, README.
  change ("# " +:+ project_name +:+ LF +:+ LF +:+
          "FastAPI Clean Architecture Application" +:+ LF)
    with (String "#" (String " " (project_name +:+ String "010"
            (LF +:+ "FastAPI Clean Architecture Application" +:+ LF)))).
  simpl. by rewrite split_on_app.
Qed.

(** The two synthesized files of a run that returned 0. *)
Lemma env_example_written T R project_name output_dir w w' :
  create_project_with T R project_name output_dir w = (w', Returned 0%Z) →
  file_at w' (output_dir </> project_name </> ".env.example") = Some ENV_EXAMPLE.
Proof.
  intros H.
  apply create_project_with_returned in H as [(Hz & _)|(_ & _ & H)]; [done|].
  destruct H as (w1 & w2 & w3 & w4 & w5 & n1 & n2 & _ & _ & _ & H4 & H5 & ->).
  rewrite (joinpath_sub _ ".env.example") in * by done.
  rewrite (joinpath_sub _ "README.md") in H5 by done.
  apply write_file_read in H4.
  change (parts (Path_of ".env.example")) with [".env.example"] in *.
  change (parts (Path_of "README.md")) with ["README.md"] in *.
  by apply (write_file_other _ _ ".env.example" _ _ _ _ ENV_EXAMPLE) in H5.
Qed.

Lemma readme_written T R project_name output_dir w w' :
  create_project_with T R project_name output_dir w = (w', Returned 0%Z) →
  file_at w' (output_dir </> project_name </> "README.md")
    = Some (README project_name).
Proof.
  intros H.
  apply create_project_with_returned in H as [(Hz & _)|(_ & _ & H)]; [done|].
  destruct H as (w1 & w2 & w3 & w4 & w5 & n1 & n2 & _ & _ & _ & _ & H5 & ->).
  by apply write_file_read in H5.
Qed.

(** * The claims *)

(** C2.  When [output_dir / project_name] exists, whatever it is, the call
    prints the already-exists line, returns 1 and leaves the tree as it
    was; and that is the state a first, successful call leaves, so the same
    call made again is rejected without adding or changing anything. *)
Theorem existing_project_is_rejected project_name output_dir w0 w :
  exists_b (fs w) (cwd w) (output_dir </> project_name) = true ∨
  create_project project_name output_dir w0 = (w, Returned 0%Z) →
  ∃ w', create_project project_name output_dir w = (w', Returned 1%Z) ∧
        fs w' = fs w ∧ cwd w' = cwd w ∧
        stdout w' = stdout w ++ [already_exists (output_dir </> project_name)].
Proof.
  intros H.
  assert (exists_b (fs w) (cwd w) (output_dir </> project_name) = true) as He.
  { destruct H as [H|H]; [done|].
    apply create_project_with_returned in H as [(Hz & _)|(_ & _ & H)]; [done|].
    destruct H as (w1 & w2 & w3 & w4 & w5 & n1 & n2 & _ & _ & _ & _ & H5 & ->).
    rewrite (joinpath_sub _ "README.md") in H5 by done.
    by apply write_file_dir in H5. }
  eexists. split; [by apply create_project_with_rejects|]. done.
Qed.

Lemma existing_project_is_rejected_twice :
  create_project "demo" (Path_of "/tmp/out") demo_world
    = (demo_done, Returned 0%Z) ∧
  ∃ w', create_project "demo" (Path_of "/tmp/out") demo_done
          = (w', Returned 1%Z) ∧
        fs w' = fs demo_done ∧ cwd w' = cwd demo_done ∧
        stdout w' = stdout demo_done ++
                    [already_exists (Path_of "/tmp/out" </> "demo")].
Proof.
  assert (create_project "demo" (Path_of "/tmp/out") demo_world
          = (demo_done, Returned 0%Z)) as H
    by (apply run_eq; vm_compute; reflexivity).
  split; [exact H|].
  apply (existing_project_is_rejected "demo" (Path_of "/tmp/out")
           demo_world demo_done).
  right. exact H.
Defined.

(** C1, as the code has it.  The [.env.example] of a completed run is the
    fixed text [ENV_EXAMPLE], whose first line is
    [PROJECT_NAME=fastapi-app], whatever the project is called. *)
Theorem env_example_is_fixed project_name output_dir w w' :
  create_project project_name output_dir w = (w', Returned 0%Z) →
  file_at w' (output_dir </> project_name </> ".env.example") = Some ENV_EXAMPLE ∧
  first_line ENV_EXAMPLE = "PROJECT_NAME=fastapi-app".
Proof.
  intros H. split; [|done]. by eapply env_example_written.
Qed.

Lemma env_example_is_fixed_demo :
  create_project "demo" (Path_of "/tmp/out") demo_world
    = (demo_done, Returned 0%Z) ∧
  file_at demo_done (Path_of "/tmp/out" </> "demo" </> ".env.example")
    = Some ENV_EXAMPLE ∧
  first_line ENV_EXAMPLE = "PROJECT_NAME=fastapi-app".
Proof.
  assert (create_project "demo" (Path_of "/tmp/out") demo_world
          = (demo_done, Returned 0%Z)) as H
    by (apply run_eq; vm_compute; reflexivity).
  split; [exact H|].
  exact (env_example_is_fixed "demo" (Path_of "/tmp/out") demo_world
           demo_done H).
Defined.

(** C1 fails on [create("demo", "/tmp/out")]: the call returns 0 and the
    [.env.example] it writes neither holds the line [PROJECT_NAME=demo] nor
    contains [demo] at all. *)
Lemma env_example_lacks_project_name :
  create_project "demo" (Path_of "/tmp/out") demo_world
    = (demo_done, Returned 0%Z) ∧
  file_at demo_done (Path_of "/tmp/out" </> "demo" </> ".env.example")
    = Some ENV_EXAMPLE ∧
  contains "demo" ENV_EXAMPLE = false ∧
  "PROJECT_NAME=demo" ∉ lines ENV_EXAMPLE.
Proof.
  split; [apply run_eq; vm_compute; reflexivity|].
  split; [vm_compute; reflexivity|].
  split; [vm_compute; reflexivity|].
  intros Hin. apply list_elem_of_In in Hin. vm_compute in Hin.
  repeat destruct Hin as [Hin|Hin]; discriminate || done.
Qed.

(** C4, as the code has it.  The README of a completed run is
    [README project_name]; when the name holds no line feed, its first line
    is the name after ["# "], and so contains it. *)
Theorem readme_first_line project_name output_dir w w' :
  has_char "010"%char project_name = false →
  create_project project_name output_dir w = (w', Returned 0%Z) →
  file_at w' (output_dir </> project_name </> "README.md")
    = Some (README project_name) ∧
  first_line (README project_name) = "# " +:+ project_name ∧
  contains project_name (first_line (README project_name)) = true.
Proof.
  intros Hlf H.
  rewrite first_line_README by done. split_and!; [|done|apply contains_end].
  by eapply readme_written.
Qed.

Lemma readme_first_line_demo :
  has_char "010"%char "demo" = false ∧
  create_project "demo" (Path_of "/tmp/out") demo_world
    = (demo_done, Returned 0%Z) ∧
  file_at demo_done (Path_of "/tmp/out" </> "demo" </> "README.md")
    = Some (README "demo") ∧
  first_line (README "demo") = "# demo" ∧
  contains "demo" (first_line (README "demo")) = true.
Proof.
  assert (create_project "demo" (Path_of "/tmp/out") demo_world
          = (demo_done, Returned 0%Z)) as H
    by (apply run_eq; vm_compute; reflexivity).
  split; [reflexivity|]. split; [exact H|].
  exact (readme_first_line "demo" (Path_of "/tmp/out") demo_world demo_done
           eq_refl H).
Defined.

(** C4 fails for a name with a line feed in it: [create] of the name
    [a], line feed, [b] returns 0 and the first line of its README is
    ["# a"], which does not contain the name. *)
Lemma readme_first_line_cut :
  create_project two_lines (Path_of "/tmp/out") demo_world
    = (two_lines_done, Returned 0%Z) ∧
  file_at two_lines_done (Path_of "/tmp/out" </> two_lines </> "README.md")
    = Some (README two_lines) ∧
  first_line (README two_lines) = "# a" ∧
  contains two_lines (first_line (README two_lines)) = false.
Proof.
  split; [apply run_eq; vm_compute; reflexivity|].
  split; [vm_compute; reflexivity|].
  split; vm_compute; reflexivity.
Qed.

(** ** Reading a completed scaffold *)

Lemma manifests_ok_code : manifests_ok TEMPLATES ROOT_FILES = true.
Proof. vm_compute. reflexivity. Qed.

(** Below the project directory, a path of names finds what the tree holds
    at that location. *)
Lemma node_at_below t cw so sf pd P r :
  wf t → locate t cw pd = Ok P → t !! P = Some Dir → ".." ∉ r →
  node_at (World t cw so sf) (sub pd r) = t !! (P ++ r).
Proof.
  intros Hwf HP HPd Hr. unfold node_at. simpl.
  destruct (t !! (P ++ r)) as [n|] eqn:E.
  - by rewrite (stat_sub cw pd P t r n).
  - unfold sys_stat, locate. simpl. rewrite start_sub, walk_app.
    unfold locate in HP. rewrite HP.
    destruct (walk t P r) as [k|] eqn:Ew; [|done].
    apply walk_names in Ew as ->; [|done]. by rewrite E.
Qed.

Lemma file_at_node_at w p :
  file_at w p = match node_at w p with Some (File s) => Some s | _ => None end.
Proof. unfold file_at, node_at. by destruct (sys_stat _ _ _) as [[|?]|]. Qed.

Lemma expected_below t0 P A T R project_name r :
  r ≠ [] →
  expected t0 P A T R project_name (P ++ r) = scaffold_at t0 A T R project_name r.
Proof. intros Hr. unfold expected. rewrite strip_app. by destruct r. Qed.

Lemma expected_at t0 P A T R project_name :
  expected t0 P A T R project_name P = Some Dir.
Proof.
  unfold expected. pose proof (strip_app P []) as E.
  rewrite app_nil_r in E. by rewrite E.
Qed.

(** The asset store of a ready world, as the loops read it. *)
Lemma asset_ready keys w pd key :
  ready keys w pd = true → key ∈ keys → plain key = true →
  asset w key = asset_at (fs w) (assets_at w) key.
Proof.
  intros (d & c & A & Hwf & _ & _ & _ & _ & HlA & HA & Hkeys & _ & ->)%ready_inv
    Hin Hpl.
  destruct (Hkeys key Hin) as [Hnd _].
  pose proof (plain_inv _ Hpl) as (_ & _ & Hdd).
  unfold asset, file_at. fold (assets_dir_of w).
  rewrite joinpath_plain by done. fold (sub (assets_dir_of w) [key]).
  unfold asset_at.
  destruct (fs w !! (A ++ [key])) as [[|s]|] eqn:E; [done|..].
  - rewrite (stat_sub (cwd w) (assets_dir_of w) A (fs w) [key] (File s));
      try done.
    apply not_elem_of_cons. split; [done|apply not_elem_of_nil].
  - pose proof (stat_sub_missing (cwd w) (assets_dir_of w) A (fs w) [] key Hwf)
      as Hm.
    rewrite app_nil_r in Hm. cbn [app] in Hm.
    rewrite Hm; try done. apply not_elem_of_nil.
Qed.

(** What the code's own manifests put at their targets. *)
Lemma template_entry t0 A project_name tp key :
  (tp, key) ∈ TEMPLATES →
  root (Path_of tp) = "" ∧ tparts tp ≠ [] ∧ (".." ∉ tparts tp) ∧
  (truthy key = true → plain key = true) ∧
  scaffold_at t0 A TEMPLATES ROOT_FILES project_name (tparts tp)
    = Some (File (template_content t0 A key)).
Proof.
  intros H. unfold TEMPLATES in H.
  repeat (apply elem_of_cons in H as [[= -> ->]|H];
          [split_and!; [done|done| |done|reflexivity];
           intros Hin; apply list_elem_of_In in Hin; vm_compute in Hin;
           repeat destruct Hin as [Hin|Hin]; discriminate || done|]).
  by apply elem_of_nil in H.
Qed.

Lemma root_file_entry t0 A project_name tp key :
  (tp, key) ∈ ROOT_FILES →
  root (Path_of tp) = "" ∧ tparts tp ≠ [] ∧ (".." ∉ tparts tp) ∧
  plain key = true ∧
  scaffold_at t0 A TEMPLATES ROOT_FILES project_name (tparts tp)
    = match asset_at t0 A key with
      | Some c => Some (File c)
      | None => None
      end.
Proof.
  intros H. unfold ROOT_FILES in H.
  repeat (apply elem_of_cons in H as [[= -> ->]|H];
          [split_and!; [done|done| |done|];
           [intros Hin; apply list_elem_of_In in Hin; vm_compute in Hin;
            repeat destruct Hin as [Hin|Hin]; discriminate || done|
            unfold scaffold_at, loops_at, root_at; simpl;
            by destruct (asset_at _ _ _)]|]).
  by apply elem_of_nil in H.
Qed.

(** A complete run of the script, read back through paths. *)
Lemma create_project_complete project_name output_dir w :
  ready (keys_of TEMPLATES ROOT_FILES) w (output_dir </> project_name) = true →
  ∃ w', create_project project_name output_dir w = (w', Returned 0%Z) ∧
        stdout w' = stdout w ++ banner project_name (output_dir </> project_name) ∧
        node_at w' (output_dir </> project_name) = Some Dir ∧
        ∀ r, r ≠ [] → ".." ∉ r →
          node_at w' (sub (output_dir </> project_name) r)
          = scaffold_at (fs w) (assets_at w) TEMPLATES ROOT_FILES project_name r.
Proof.
  intros Hready.
  destruct (create_project_with_complete TEMPLATES ROOT_FILES project_name
              output_dir w manifests_ok_code Hready)
    as (t' & Hrun & Hwf & Hloc & Ht').
  eexists. split; [exact Hrun|]. split; [done|].
  assert (t' !! project_at w (output_dir </> project_name) = Some Dir) as HPd.
  { rewrite Ht'. apply expected_at. }
  split.
  - rewrite <- (sub_nil (output_dir </> project_name)).
    erewrite node_at_below; try done; [|apply not_elem_of_nil].
    by rewrite app_nil_r.
  - intros r Hr Hdd. erewrite node_at_below; try done.
    rewrite Ht'. by apply expected_below.
Qed.

Lemma template_file project_name output_dir w w' tp key :
  ready (keys_of TEMPLATES ROOT_FILES) w (output_dir </> project_name) = true →
  (∀ r, r ≠ [] → ".." ∉ r →
     node_at w' (sub (output_dir </> project_name) r)
     = scaffold_at (fs w) (assets_at w) TEMPLATES ROOT_FILES project_name r) →
  (tp, key) ∈ TEMPLATES →
  file_at w' (output_dir </> project_name </> tp)
  = Some (if truthy key
          then match asset w key with Some c => c | None => "" end
          else "").
Proof.
  intros Hready Hat Hin.
  destruct (template_entry (fs w) (assets_at w) project_name tp key Hin)
    as (Hroot & Hne & Hdd & Hpl & Hsc).
  rewrite joinpath_sub by done. fold (tparts tp).
  rewrite file_at_node_at, Hat, Hsc by done.
  unfold template_content. destruct (truthy key) eqn:Etr; [|done].
  rewrite (asset_ready _ _ _ key Hready); [done| |by apply Hpl].
  by apply (keys_of_template TEMPLATES ROOT_FILES (tp, key)).
Qed.







(** C3, as the code has it.  In a world that is ready for the call the run
    completes and every target of the layout is a regular file: empty where
    the manifest gives no template, the template's content (empty when the
    template is not beside the script) where it gives one.  That holds for
    [app/routers/__init__.py] too, whose template is [routers_init.py]: it
    is not created empty.  The two synthesized files are there as well. *)
Theorem scaffold_layout project_name output_dir w :
  ready (keys_of TEMPLATES ROOT_FILES) w (output_dir </> project_name) = true →
  ∃ w', create_project project_name output_dir w = (w', Returned 0%Z) ∧
    node_at w' (output_dir </> project_name) = Some Dir ∧
    (∀ tp, (tp, "") ∈ TEMPLATES →
       file_at w' (output_dir </> project_name </> tp) = Some "") ∧
    (∀ tp key, (tp, key) ∈ TEMPLATES → key ≠ "" →
       file_at w' (output_dir </> project_name </> tp)
       = Some (match asset w key with Some c => c | None => "" end)) ∧
    file_at w' (output_dir </> project_name </> "app/routers/__init__.py")
      = Some (match asset w "routers_init.py" with Some c => c | None => "" end) ∧
    file_at w' (output_dir </> project_name </> ".env.example")
      = Some ENV_EXAMPLE ∧
    file_at w' (output_dir </> project_name </> "README.md")
      = Some (README project_name).
Proof.
  intros Hready.
  destruct (create_project_complete project_name output_dir w Hready)
    as (w' & Hrun & _ & Hdir & Hat).
  exists w'. split; [done|]. split; [done|].
  assert (∀ tp key, (tp, key) ∈ TEMPLATES → key ≠ "" →
       file_at w' (output_dir </> project_name </> tp)
       = Some (match asset w key with Some c => c | None => "" end)) as Hkeyed.
  { intros tp key Hin Hkey.
    rewrite (template_file _ _ _ _ _ _ Hready Hat Hin).
    unfold truthy. apply String.eqb_neq in Hkey. by rewrite Hkey. }
  split_and!.
  - intros tp Hin. by rewrite (template_file _ _ _ _ _ _ Hready Hat Hin).
  - exact Hkeyed.
  - apply Hkeyed; [|done]. unfold TEMPLATES.
    do 5 apply list_elem_of_further. apply list_elem_of_here.
  - by eapply env_example_written.
  - by eapply readme_written.
Qed.

Lemma scaffold_layout_demo :
  ready (keys_of TEMPLATES ROOT_FILES) demo_world
        (Path_of "/tmp/out" </> "demo") = true ∧
  ∃ w', create_project "demo" (Path_of "/tmp/out") demo_world
          = (w', Returned 0%Z) ∧
    node_at w' (Path_of "/tmp/out" </> "demo") = Some Dir ∧
    (∀ tp, (tp, "") ∈ TEMPLATES →
       file_at w' (Path_of "/tmp/out" </> "demo" </> tp) = Some "") ∧
    (∀ tp key, (tp, key) ∈ TEMPLATES → key ≠ "" →
       file_at w' (Path_of "/tmp/out" </> "demo" </> tp)
       = Some (match asset demo_world key with Some c => c | None => "" end)) ∧
    file_at w' (Path_of "/tmp/out" </> "demo" </> "app/routers/__init__.py")
      = Some (match asset demo_world "routers_init.py" with
              | Some c => c
              | None => ""
              end) ∧
    file_at w' (Path_of "/tmp/out" </> "demo" </> ".env.example")
      = Some ENV_EXAMPLE ∧
    file_at w' (Path_of "/tmp/out" </> "demo" </> "README.md")
      = Some (README "demo").
Proof.
  split; [vm_compute; reflexivity|].
  apply (scaffold_layout "demo" (Path_of "/tmp/out") demo_world).
  vm_compute. reflexivity.
Defined.

(** C3 fails on [create("demo", "/tmp/out")] with the templates that ship
    with the script: [/tmp/out] is empty, the call returns 0, and
    [app/routers/__init__.py] holds the 294 characters of
    [routers_init.py]. *)
Lemma routers_init_is_not_empty :
  ready (keys_of TEMPLATES ROOT_FILES) demo_world
        (Path_of "/tmp/out" </> "demo") = true ∧
  create_project "demo" (Path_of "/tmp/out") demo_world
    = (demo_done, Returned 0%Z) ∧
  file_at demo_done (Path_of "/tmp/out" </> "demo" </> "app/routers/__init__.py")
    = Some asset_routers_init ∧
  String.length asset_routers_init = 294 ∧
  asset_routers_init ≠ "".
Proof.
  split; [vm_compute; reflexivity|].
  split; [apply run_eq; vm_compute; reflexivity|].
  split; [vm_compute; reflexivity|].
  split; [vm_compute; reflexivity|].
  intros H. apply (f_equal String.length) in H. vm_compute in H. discriminate.
Qed.

Lemma safe_manifests_code :
  forallb safe_template TEMPLATES = true ∧
  forallb safe_root_file ROOT_FILES = true.
Proof. split; vm_compute; reflexivity. Qed.

(** C10, as the code has it.  For a project name without separator that is
    not [..], the project directory is the output directory followed by at
    most that one name.  Whatever the call returns or raises, nothing that
    was in the tree is altered, and every location it adds is a directory
    on the way to the project directory (the missing part of the output
    directory chain, and the project directory itself) or lies strictly
    below the project directory, which is then new. *)
Theorem writes_stay_in_project_dir project_name output_dir w w' r :
  has_char SEP project_name = false → project_name ≠ ".." →
  well_formed (fs w) = true →
  create_project project_name output_dir w = (w', r) →
  root (output_dir </> project_name) = root output_dir ∧
  (parts (output_dir </> project_name) = parts output_dir ++ [project_name] ∨
   parts (output_dir </> project_name) = parts output_dir) ∧
  (∀ k n, fs w !! k = Some n → fs w' !! k = Some n) ∧
  (∀ k, fs w !! k = None → is_Some (fs w' !! k) →
     (fs w' !! k = Some Dir ∧
      ∃ i, walk (fs w') (start (cwd w) (output_dir </> project_name))
                (take i (parts (output_dir </> project_name))) = Ok k) ∨
     (∃ P, locate (fs w') (cwd w) (output_dir </> project_name) = Ok P ∧
           fs w !! P = None ∧ P ≠ k ∧ P `prefix_of` k)).
Proof.
  intros Hsep Hdd Hwf Hrun.
  destruct safe_manifests_code as [HT HR].
  apply create_project_with_footprint in Hrun as (_ & _ & HI);
    [|done|done|by apply well_formed_wf].
  destruct HI as (_ & _ & Hsub & Hnew).
  rewrite joinpath_segment by done. simpl.
  split; [done|]. split.
  - destruct (keep_part project_name); [by left|right]. by rewrite app_nil_r.
  - rewrite joinpath_segment in Hnew by done.
    split; [|exact Hnew].
    intros k n Hk. by eapply lookup_weaken.
Qed.

Lemma writes_stay_in_project_dir_demo :
  has_char SEP "demo" = false ∧ "demo" ≠ ".." ∧
  well_formed (fs demo_world) = true ∧
  create_project "demo" (Path_of "/tmp/out") demo_world
    = (demo_done, Returned 0%Z) ∧
  root (Path_of "/tmp/out" </> "demo") = root (Path_of "/tmp/out") ∧
  (parts (Path_of "/tmp/out" </> "demo") = parts (Path_of "/tmp/out") ++ ["demo"] ∨
   parts (Path_of "/tmp/out" </> "demo") = parts (Path_of "/tmp/out")) ∧
  (∀ k n, fs demo_world !! k = Some n → fs demo_done !! k = Some n) ∧
  (∀ k, fs demo_world !! k = None → is_Some (fs demo_done !! k) →
     (fs demo_done !! k = Some Dir ∧
      ∃ i, walk (fs demo_done) (start (cwd demo_world) (Path_of "/tmp/out" </> "demo"))
                (take i (parts (Path_of "/tmp/out" </> "demo"))) = Ok k) ∨
     (∃ P, locate (fs demo_done) (cwd demo_world) (Path_of "/tmp/out" </> "demo") = Ok P ∧
           fs demo_world !! P = None ∧ P ≠ k ∧ P `prefix_of` k)).
Proof.
  assert (create_project "demo" (Path_of "/tmp/out") demo_world
          = (demo_done, Returned 0%Z)) as H
    by (apply run_eq; vm_compute; reflexivity).
  split; [reflexivity|]. split; [discriminate|].
  split; [vm_compute; reflexivity|]. split; [exact H|].
  apply (writes_stay_in_project_dir "demo" (Path_of "/tmp/out") demo_world
           demo_done (Returned 0%Z));
    [reflexivity|discriminate|vm_compute; reflexivity|exact H].
Defined.

(** C10 fails as stated on [create("demo", "/tmp/new/deep")] where only
    [/tmp] exists: the call returns 0 and has made the directories
    [/tmp/new] and [/tmp/new/deep], which are above the project directory,
    and the project directory itself, which is not strictly below
    itself. *)
Lemma output_dir_chain_is_created :
  create_project "demo" (Path_of "/tmp/new/deep") demo_world
    = (deep_done, Returned 0%Z) ∧
  locate (fs deep_done) (cwd deep_done) (Path_of "/tmp/new/deep" </> "demo")
    = Ok ["tmp"; "new"; "deep"; "demo"] ∧
  fs demo_world !! ["tmp"; "new"] = None ∧
  fs deep_done !! ["tmp"; "new"] = Some Dir ∧
  ¬ ["tmp"; "new"; "deep"; "demo"] `prefix_of` ["tmp"; "new"] ∧
  fs demo_world !! ["tmp"; "new"; "deep"; "demo"] = None ∧
  fs deep_done !! ["tmp"; "new"; "deep"; "demo"] = Some Dir.
Proof.
  split; [apply run_eq; vm_compute; reflexivity|].
  split; [vm_compute; reflexivity|].
  split; [vm_compute; reflexivity|].
  split; [vm_compute; reflexivity|].
  split; [|split; vm_compute; reflexivity].
  intros Hp. apply prefix_length in Hp. simpl in Hp. lia.
Qed.


(** C8, as the code has it.  An empty project name is not refused: the
    project directory is then the output directory itself.  When the output
    directory exists the call returns 1 with the already-exists line and
    the tree is untouched; when it does not and the world is otherwise
    ready, the call returns 0 and has made the output directory and the
    scaffold inside it. *)
Theorem empty_name_is_not_refused output_dir w :
  exists_b (fs w) (cwd w) output_dir = true ∨
  ready (keys_of TEMPLATES ROOT_FILES) w output_dir = true →
  output_dir </> "" = output_dir ∧
  ∃ w' z, create_project "" output_dir w = (w', Returned z) ∧
    ((z = 1%Z ∧ exists_b (fs w) (cwd w) output_dir = true ∧
      fs w' = fs w ∧ stdout w' = stdout w ++ [already_exists output_dir]) ∨
     (z = 0%Z ∧ exists_b (fs w) (cwd w) output_dir = false ∧
      node_at w' output_dir = Some Dir ∧
      file_at w' (output_dir </> ".env.example") = Some ENV_EXAMPLE ∧
      file_at w' (output_dir </> "README.md") = Some (README ""))).
Proof.
  intros H. split; [apply joinpath_empty_name|].
  destruct H as [He|Hready].
  - exists (printed w [already_exists output_dir]), 1%Z. split.
    + unfold create_project. rewrite create_project_with_rejects;
        rewrite joinpath_empty_name; done.
    + left. done.
  - rewrite <- (joinpath_empty_name output_dir) in Hready.
    destruct (create_project_complete "" output_dir w Hready)
      as (w' & Hrun & _ & Hdir & _).
    exists w', 0%Z. split; [done|]. right.
    pose proof (env_example_written _ _ _ _ _ _ Hrun) as Henv.
    pose proof (readme_written _ _ _ _ _ _ Hrun) as Hreadme.
    apply create_project_with_returned in Hrun as [(Hz & _)|(_ & He & _)];
      [done|].
    rewrite joinpath_empty_name in *. done.
Qed.

Lemma empty_name_is_not_refused_demo :
  ready (keys_of TEMPLATES ROOT_FILES) demo_world (Path_of "/tmp/new") = true ∧
  Path_of "/tmp/new" </> "" = Path_of "/tmp/new" ∧
  ∃ w' z, create_project "" (Path_of "/tmp/new") demo_world = (w', Returned z) ∧
    ((z = 1%Z ∧
      exists_b (fs demo_world) (cwd demo_world) (Path_of "/tmp/new") = true ∧
      fs w' = fs demo_world ∧
      stdout w' = stdout demo_world ++ [already_exists (Path_of "/tmp/new")]) ∨
     (z = 0%Z ∧
      exists_b (fs demo_world) (cwd demo_world) (Path_of "/tmp/new") = false ∧
      node_at w' (Path_of "/tmp/new") = Some Dir ∧
      file_at w' (Path_of "/tmp/new" </> ".env.example") = Some ENV_EXAMPLE ∧
      file_at w' (Path_of "/tmp/new" </> "README.md") = Some (README ""))).
Proof.
  split; [vm_compute; reflexivity|].
  apply (empty_name_is_not_refused (Path_of "/tmp/new") demo_world).
  right. vm_compute. reflexivity.
Defined.

(** C8 fails on [create("", "/tmp/new")] where [/tmp/new] does not exist:
    the call reports no error, returns 0, and has written into the tree,
    among others [/tmp/new/app/main.py]. *)
Lemma empty_name_is_scaffolded :
  create_project "" (Path_of "/tmp/new") demo_world
    = (unnamed_done, Returned 0%Z) ∧
  fs demo_world !! ["tmp"; "new"] = None ∧
  fs unnamed_done !! ["tmp"; "new"] = Some Dir ∧
  fs demo_world !! ["tmp"; "new"; "app"; "main.py"] = None ∧
  fs unnamed_done !! ["tmp"; "new"; "app"; "main.py"] = Some (File asset_main).
Proof.
  split; [apply run_eq; vm_compute; reflexivity|].
  split; [vm_compute; reflexivity|].
  split; [vm_compute; reflexivity|].
  split; vm_compute; reflexivity.
Qed.

(** ** Manifests in another order *)

Lemma forallb_same {X : Type} (f : X → bool) l l' :
  (∀ x, In x l ↔ In x l') → forallb f l = forallb f l'.
Proof.
  intros H. apply eq_true_iff_eq. rewrite !forallb_forall.
  split; intros Hf x Hx; apply Hf, H, Hx.
Qed.

Lemma existsb_same {X : Type} (f : X → bool) l l' :
  (∀ x, In x l ↔ In x l') → existsb f l = existsb f l'.
Proof.
  intros H. apply eq_true_iff_eq. rewrite !existsb_exists.
  split; intros (x & Hx & Hf); exists x; split; try done; by apply H.
Qed.

Lemma forallb_eq {X : Type} (f g : X → bool) l :
  (∀ x, f x = g x) → forallb f l = forallb g l.
Proof. intros H. induction l as [|a l IH]; simpl; [done|]. by rewrite H, IH. Qed.

Lemma perm_In {X : Type} (l l' : list X) :
  l ≡ₚ l' → ∀ x, In x l ↔ In x l'.
Proof.
  intros H x. split; intros Hx.
  - by eapply Permutation_in.
  - eapply Permutation_in; [|done]. by symmetry.
Qed.

Lemma prefix_free_perm m m' : m ≡ₚ m' → prefix_free m = prefix_free m'.
Proof.
  intros H. unfold prefix_free.
  rewrite (forallb_same _ m m') by by apply perm_In.
  apply forallb_eq. intros e1. apply forallb_same. by apply perm_In.
Qed.

Lemma manifests_ok_perm T T' R R' :
  T ≡ₚ T' → R ≡ₚ R' → manifests_ok T R = manifests_ok T' R'.
Proof.
  intros HT HR. unfold manifests_ok.
  rewrite (forallb_same nested_ok T T') by by apply perm_In.
  rewrite (prefix_free_perm T T') by done.
  rewrite (prefix_free_perm R R') by done.
  rewrite (bool_decide_ext (NoDup T) (NoDup T')) by by rewrite HT.
  rewrite (bool_decide_ext (NoDup R) (NoDup R')) by by rewrite HR.
  rewrite (forallb_same _ T T') by by apply perm_In.
  f_equal. f_equal. f_equal. f_equal.
  rewrite (forallb_same (root_ok T) R R') by by apply perm_In.
  apply forallb_eq. intros e. unfold root_ok.
  destruct (tparts (fst e)) as [|x [|? ?]]; try done.
  by rewrite (forallb_same _ T T') by by apply perm_In.
Qed.

Lemma keys_of_perm T T' R R' :
  T ≡ₚ T' → R ≡ₚ R' → ∀ key, In key (keys_of T R) ↔ In key (keys_of T' R').
Proof.
  intros HT HR key. unfold keys_of.
  rewrite !in_app_iff, !filter_In, !in_map_iff.
  split; intros [[(e & He & Hin) Htr]|(e & He & Hin)].
  - left. split; [|done]. exists e. split; [done|]. by apply (perm_In T T').
  - right. exists e. split; [done|]. by apply (perm_In R R').
  - left. split; [|done]. exists e. split; [done|]. by apply (perm_In T T').
  - right. exists e. split; [done|]. by apply (perm_In R R').
Qed.

Lemma ready_same keys keys' w pd :
  (∀ key, In key keys ↔ In key keys') → ready keys w pd = ready keys' w pd.
Proof.
  intros H. unfold ready.
  destruct (locate_parent _ _ _) as [[d c]|]; [|done].
  destruct (locate _ _ _) as [A|]; [|done].
  by rewrite (forallb_same _ keys keys').
Qed.

Lemma find_target_perm x m m' :
  free m → m ≡ₚ m' → find_target x m' = find_target x m.
Proof.
  intros Hfree Hperm.
  destruct (find_target x m) as [e|] eqn:E.
  - apply find_target_Some in E as [He Hx].
    destruct (find_target x m') as [e'|] eqn:E'.
    + apply find_target_Some in E' as [He' Hx']. f_equal.
      apply Hfree; [by rewrite Hperm|done|by rewrite Hx, Hx'].
    + exfalso. rewrite find_target_None in E'.
      apply (E' e); [by rewrite <- Hperm|done].
  - rewrite find_target_None in E. apply find_target_None.
    intros e He. apply E. by rewrite Hperm.
Qed.

Lemma scaffold_at_perm t A T T' R R' project_name x :
  free T → free R → T ≡ₚ T' → R ≡ₚ R' →
  scaffold_at t A T' R' project_name x = scaffold_at t A T R project_name x.
Proof.
  intros HfT HfR HT HR. unfold scaffold_at, loops_at, root_at, nested_at.
  rewrite (find_target_perm x R R'), (find_target_perm x T T') by done.
  unfold has_below. by rewrite (existsb_same _ T T') by by apply perm_In.
Qed.




(** * More of the script *)

(** ** A project name that is a rooted path *)

Lemma Path_of_rooted s : root (Path_of (String "/" s)) ≠ "".
Proof.
  unfold Path_of.
  destruct s as [|c s]; [done|].
  destruct c as [[] [] [] [] [] [] [] []]; try done.
  destruct s as [|c s]; [done|].
  destruct c as [[] [] [] [] [] [] [] []]; done.
Qed.

Lemma joinpath_rooted p s : root (Path_of s) ≠ "" → p </> s = Path_of s.
Proof. intros H. unfold joinpath. apply String.eqb_neq in H. by rewrite H. Qed.

(** X1.  A project name that starts with a slash replaces the output
    directory instead of being put under it: the project directory is the
    name read as a path, and the call does the same whatever output
    directory it is given. *)
Theorem rooted_name_ignores_output_dir rest output_dir output_dir' w :
  output_dir </> String "/" rest = Path_of (String "/" rest) ∧
  create_project (String "/" rest) output_dir w
  = create_project (String "/" rest) output_dir' w.
Proof.
  pose proof (Path_of_rooted rest) as Hr. split; [by apply joinpath_rooted|].
  unfold create_project, create_project_with.
  by rewrite (joinpath_rooted output_dir _ Hr), (joinpath_rooted output_dir' _ Hr).
Qed.

(** ** An output directory that is a regular file *)

(** X2.  When the output directory is a regular file, [exists()] takes the
    [ENOTDIR] of the project path for "not there", [mkdir] then raises
    [NotADirectoryError] for the project path, nobody catches it, and the
    world is left exactly as it was. *)
Theorem output_dir_is_a_file project_name output_dir w s :
  plain project_name = true →
  file_at w output_dir = Some s →
  create_project project_name output_dir w
  = (w, Raised (mkOSError NotADirectoryError (output_dir </> project_name))).
Proof.
  intros Hpl Hf.
  unfold file_at, sys_stat in Hf.
  destruct (locate (fs w) (cwd w) output_dir) as [O|] eqn:HO; [|done].
  destruct (fs w !! O) as [[|s']|] eqn:EO; try done.
  unfold create_project, create_project_with.
  rewrite (joinpath_plain output_dir project_name Hpl).
  set (pd := mkPath (root output_dir) (parts output_dir ++ [project_name])).
  assert (walk (fs w) (start (cwd w) pd) (parts output_dir) = Ok O) as Hw
    by exact HO.
  assert (exists_b (fs w) (cwd w) pd = false) as He.
  { unfold exists_b, sys_stat, locate. simpl. rewrite walk_app, Hw. simpl.
    by rewrite EO. }
  assert (os_mkdir pd w = (w, Raised (mkOSError NotADirectoryError pd))) as Hmk.
  { unfold os_mkdir, sys_put.
    rewrite (sys_mkdir_snoc _ _ pd (parts output_dir) project_name) by done.
    unfold locate_parent. simpl. rewrite removelast_last, Hw, EO. done. }
  assert (∀ n, Path_mkdir_rec n pd true false w
               = (w, Raised (mkOSError NotADirectoryError pd))) as Hrec.
  { intros n. destruct n; simpl; unfold try_except; by rewrite Hmk. }
  unfold bind at 1, get_file. unfold bind at 1.
  rewrite Path_exists_run, He.
  unfold bind at 1, Path_mkdir. by rewrite Hrec.
Qed.

Lemma output_dir_is_a_file_demo :
  plain "demo" = true ∧
  file_at demo_world (Path_of "/opt/skill/assets/main.py") = Some asset_main ∧
  create_project "demo" (Path_of "/opt/skill/assets/main.py") demo_world
  = (demo_world,
     Raised (mkOSError NotADirectoryError
               (Path_of "/opt/skill/assets/main.py" </> "demo"))).
Proof.
  split; [reflexivity|]. split; [vm_compute; reflexivity|].
  apply (output_dir_is_a_file "demo" (Path_of "/opt/skill/assets/main.py")
           demo_world asset_main);
    [reflexivity|vm_compute; reflexivity].
Defined.

(** ** A root file whose asset is there *)

(** X3.  In a world that is ready for the call, a root-file entry whose
    asset is beside the script is copied as it is: the run completes and
    the entry's target holds the asset's content. *)
Theorem present_root_file_is_copied project_name output_dir w tp key c :
  ready (keys_of TEMPLATES ROOT_FILES) w (output_dir </> project_name) = true →
  (tp, key) ∈ ROOT_FILES → asset w key = Some c →
  ∃ w', create_project project_name output_dir w = (w', Returned 0%Z) ∧
        file_at w' (output_dir </> project_name </> tp) = Some c.
Proof.
  intros Hready Hin Ha.
  destruct (create_project_complete project_name output_dir w Hready)
    as (w' & Hrun & _ & _ & Hat).
  exists w'. split; [done|].
  destruct (root_file_entry (fs w) (assets_at w) project_name tp key Hin)
    as (Hroot & Hne & Hdd & Hpl & Hsc).
  rewrite joinpath_sub by done. fold (tparts tp).
  rewrite file_at_node_at, Hat, Hsc by done.
  rewrite <- (asset_ready _ _ _ key Hready), Ha; [done| |done].
  by apply (keys_of_root_file TEMPLATES ROOT_FILES (tp, key)).
Qed.

Lemma present_root_file_is_copied_demo :
  ready (keys_of TEMPLATES ROOT_FILES) docker_world
        (Path_of "/tmp/out" </> "demo") = true ∧
  ("Dockerfile", "Dockerfile") ∈ ROOT_FILES ∧
  asset docker_world "Dockerfile" = Some "FROM python:3.12-slim" ∧
  ∃ w', create_project "demo" (Path_of "/tmp/out") docker_world
          = (w', Returned 0%Z) ∧
        file_at w' (Path_of "/tmp/out" </> "demo" </> "Dockerfile")
          = Some "FROM python:3.12-slim".
Proof.
  assert (("Dockerfile", "Dockerfile") ∈ ROOT_FILES) as Hin
    by apply list_elem_of_here.
  split; [vm_compute; reflexivity|]. split; [exact Hin|].
  split; [vm_compute; reflexivity|].
  apply (present_root_file_is_copied "demo" (Path_of "/tmp/out") docker_world
           "Dockerfile" "Dockerfile");
    [vm_compute; reflexivity|exact Hin|vm_compute; reflexivity].
Defined.

(** ** What is printed *)

Lemma quiet_ret {X : Type} (a : X) : quiet (ret a).
Proof. by intros w w' r [= <- <-]. Qed.

Lemma quiet_raise {X : Type} e : quiet (@raise X e).
Proof. by intros w w' r [= <- <-]. Qed.

Lemma quiet_bind {X Y : Type} (m : M X) (k : X → M Y) :
  quiet m → (∀ a, quiet (k a)) → quiet (bind m k).
Proof.
  intros Hm Hk w w' r. unfold bind.
  destruct (m w) as [w1 [a|e]] eqn:E; apply Hm in E.
  - intros H%Hk. congruence.
  - intros [= <- <-]. done.
Qed.

Lemma quiet_try {X : Type} (m : M X) (h : OSError → M X) :
  quiet m → (∀ e, quiet (h e)) → quiet (try_except m h).
Proof.
  intros Hm Hh w w' r. unfold try_except.
  destruct (m w) as [w1 [a|e]] eqn:E; apply Hm in E.
  - intros [= <- <-]. done.
  - intros H%Hh. congruence.
Qed.

Lemma quiet_for_each {X : Type} (l : list X) (body : X → M unit) :
  (∀ x, quiet (body x)) → quiet (for_each l body).
Proof.
  intros H. induction l as [|x l IH]; simpl; [apply quiet_ret|].
  apply quiet_bind; [apply H|]. intros _. apply IH.
Qed.

Lemma quiet_sys_get {X : Type} (f : tree → loc → Path → res X) p :
  quiet (sys_get f p).
Proof.
  intros w w' r. unfold sys_get. destruct (f _ _ _); by intros [= <- <-].
Qed.

Lemma quiet_sys_put (f : tree → loc → Path → res tree) p :
  quiet (sys_put f p).
Proof.
  intros w w' r. unfold sys_put. destruct (f _ _ _); by intros [= <- <-].
Qed.

Lemma quiet_open_w trunc p : quiet (os_open_w trunc p).
Proof.
  intros w w' r. unfold os_open_w.
  destruct (sys_open_w _ _ _ _) as [[t k]|e]; by intros [= <- <-].
Qed.

Lemma quiet_fd_write k data : quiet (fd_write k data).
Proof. by intros w w' r [= <- <-]. Qed.

Lemma quiet_samefile a b : quiet (samefile a b).
Proof. by intros w w' r [= <- <-]. Qed.

Lemma quiet_exists p : quiet (Path_exists p).
Proof. intros w w' r. rewrite Path_exists_run. by intros [= <- <-]. Qed.

Lemma quiet_is_dir p : quiet (Path_is_dir p).
Proof. intros w w' r. rewrite Path_is_dir_run. by intros [= <- <-]. Qed.

Lemma quiet_mkdir_rec n : ∀ q b1 b2, quiet (Path_mkdir_rec n q b1 b2).
Proof.
  induction n as [|n IH]; intros q b1 b2; simpl.
  all: apply quiet_try; [apply quiet_sys_put|].
  all: intros e; destruct (kind e).
  all: try (destruct (negb b2); [apply quiet_raise|];
            apply quiet_bind; [apply quiet_is_dir|];
            intros d; destruct (negb d); [apply quiet_raise|apply quiet_ret]).
  - destruct (_ || _); apply quiet_raise.
  - destruct (_ || _); [apply quiet_raise|].
    apply quiet_bind; [apply IH|]. intros _. apply IH.
Qed.

Lemma quiet_touch p : quiet (Path_touch p).
Proof.
  apply quiet_try.
  - apply quiet_bind; [apply quiet_sys_get|]. intros; apply quiet_ret.
  - intros _. apply quiet_bind; [apply quiet_open_w|]. intros; apply quiet_ret.
Qed.

Lemma quiet_write_file p data : quiet (write_file p data).
Proof.
  apply quiet_bind; [apply quiet_open_w|]. intros k.
  apply quiet_bind; [apply quiet_fd_write|]. intros; apply quiet_ret.
Qed.

Lemma quiet_copyfile src dst : quiet (copyfile src dst).
Proof.
  apply quiet_bind; [apply quiet_samefile|].
  intros [|]; [apply quiet_raise|].
  apply quiet_bind; [apply quiet_sys_get|]. intros data.
  apply quiet_try.
  - apply quiet_bind; [apply quiet_write_file|]. intros; apply quiet_ret.
  - intros e. destruct (kind e); try apply quiet_raise.
    apply quiet_bind; [apply quiet_exists|].
    intros [|]; apply quiet_raise.
Qed.

Lemma quiet_shutil_copy src dst : quiet (shutil_copy src dst).
Proof.
  apply quiet_bind; [apply quiet_is_dir|].
  intros [|]; apply quiet_copyfile.
Qed.

Lemma quiet_copy_template ad pd e : quiet (copy_template ad pd e).
Proof.
  destruct e as [tp sf]. unfold copy_template.
  apply quiet_bind; [apply quiet_mkdir_rec|]. intros _.
  destruct (truthy sf); [|apply quiet_touch].
  apply quiet_bind; [apply quiet_exists|].
  intros [|]; [|apply quiet_touch].
  apply quiet_bind; [apply quiet_shutil_copy|]. intros; apply quiet_ret.
Qed.

Lemma quiet_copy_root_file ad pd e : quiet (copy_root_file ad pd e).
Proof.
  destruct e as [tp sf]. unfold copy_root_file.
  apply quiet_bind; [apply quiet_exists|].
  intros [|]; [|apply quiet_ret].
  apply quiet_bind; [apply quiet_shutil_copy|]. intros; apply quiet_ret.
Qed.

Lemma bind_raised_inv {X Y : Type} (m : M X) (k : X → M Y) w w' e :
  bind m k w = (w', Raised e) →
  m w = (w', Raised e) ∨
  ∃ w1 a, m w = (w1, Returned a) ∧ k a w1 = (w', Raised e).
Proof.
  unfold bind. destruct (m w) as [w1 [a|e1]].
  - intros H. right. eauto.
  - intros [= <- <-]. by left.
Qed.

(** What a call over any manifests prints, by its way out. *)
Lemma create_project_with_prints T R project_name output_dir w w' r :
  create_project_with T R project_name output_dir w = (w', r) →
  match r with
  | Returned z =>
      (z = 1%Z ∧
       stdout w' = stdout w ++ [already_exists (output_dir </> project_name)]) ∨
      (z = 0%Z ∧
       stdout w' = stdout w ++ banner project_name (output_dir </> project_name))
  | Raised _ => stdout w' = stdout w
  end.
Proof.
  intros H. destruct r as [z|e].
  - apply create_project_with_returned in H as [(-> & _ & ->)|(-> & _ & H)].
    + by left.
    + right. split; [done|].
      destruct H as (w1 & w2 & w3 & w4 & w5 & n1 & n2 & H1 & H2 & H3 & H4 & H5 & ->).
      apply quiet_mkdir_rec in H1.
      apply (quiet_for_each _ _ (quiet_copy_template _ _)) in H2.
      apply (quiet_for_each _ _ (quiet_copy_root_file _ _)) in H3.
      apply quiet_write_file in H4. apply quiet_write_file in H5.
      simpl. congruence.
  - revert H. unfold create_project_with.
    unfold bind at 1, get_file. unfold bind at 1. rewrite Path_exists_run.
    destruct (exists_b _ _ _); [done|].
    intros [H|(w1 & [] & H1 & H)]%bind_raised_inv;
      [by apply quiet_mkdir_rec in H|].
    apply quiet_mkdir_rec in H1.
    apply bind_raised_inv in H as [H|(w2 & [] & H2 & H)];
      [apply (quiet_for_each _ _ (quiet_copy_template _ _)) in H; congruence|].
    apply (quiet_for_each _ _ (quiet_copy_template _ _)) in H2.
    apply bind_raised_inv in H as [H|(w3 & [] & H3 & H)];
      [apply (quiet_for_each _ _ (quiet_copy_root_file _ _)) in H; congruence|].
    apply (quiet_for_each _ _ (quiet_copy_root_file _ _)) in H3.
    apply bind_raised_inv in H as [H|(w4 & n1 & H4 & H)];
      [apply quiet_write_file in H; congruence|].
    apply quiet_write_file in H4.
    apply bind_raised_inv in H as [H|(w5 & n2 & H5 & H)];
      [apply quiet_write_file in H; congruence|].
    unfold bind, print, ret in H. done.
Qed.

(** X4.  The call prints on one way out only.  Returning 1 it has printed
    the already-exists line and nothing else; returning 0 it has printed
    the five lines of the report, after all the writing; raising it has
    printed nothing, so a failed run leaves no message of its own. *)
Theorem create_prints_by_outcome project_name output_dir w w' r :
  create_project project_name output_dir w = (w', r) →
  match r with
  | Returned z =>
      (z = 1%Z ∧
       stdout w' = stdout w ++ [already_exists (output_dir </> project_name)]) ∨
      (z = 0%Z ∧
       stdout w' = stdout w ++ banner project_name (output_dir </> project_name))
  | Raised _ => stdout w' = stdout w
  end.
Proof. apply create_project_with_prints. Qed.

Lemma create_prints_by_outcome_demo :
  create_project "conftest.py" (Path_of "/opt/skill/assets") demo_world
    = (conftest_done,
       Raised (mkOSError IsADirectoryError
                 (Path_of "/opt/skill/assets/conftest.py"))) ∧
  stdout conftest_done = stdout demo_world.
Proof.
  assert (create_project "conftest.py" (Path_of "/opt/skill/assets") demo_world
          = (conftest_done,
             Raised (mkOSError IsADirectoryError
                       (Path_of "/opt/skill/assets/conftest.py")))) as H
    by (apply run_eq; vm_compute; reflexivity).
  split; [exact H|].
  exact (create_prints_by_outcome "conftest.py" (Path_of "/opt/skill/assets")
           demo_world conftest_done _ H).
Defined.

(** ** A project directory whose parents are missing *)

(** A call goes on from [mkdir] as it would in any world with the same
    script path where [mkdir] does the same. *)
Lemma create_project_with_resumes T R project_name output_dir w wa :
  script_file wa = script_file w →
  exists_b (fs w) (cwd w) (output_dir </> project_name) = false →
  exists_b (fs wa) (cwd wa) (output_dir </> project_name) = false →
  Path_mkdir (output_dir </> project_name) true false w
  = Path_mkdir (output_dir </> project_name) true false wa →
  create_project_with T R project_name output_dir w
  = create_project_with T R project_name output_dir wa.
Proof.
  intros Hs H1 H2 Hm. unfold create_project_with, bind, get_file.
  cbv beta iota. rewrite !Path_exists_run, H1, H2. cbv beta iota.
  by rewrite Hm, Hs.
Qed.

(** X5.  [mkdir(parents=True)] of the project directory: when the
    directory that is to hold it is missing below an existing directory,
    with no file in the way, the call first makes the missing directories
    and then goes on exactly as if they had been there.  They are left
    behind whatever the call returns or raises afterwards. *)
Theorem missing_parents_are_made project_name output_dir base r c w D :
  output_dir </> project_name = sub base (r ++ [c]) →
  wf (fs w) → locate (fs w) (cwd w) base = Ok D → fs w !! D = Some Dir →
  (".." ∉ r) → c ≠ ".." →
  (∀ x, x `prefix_of` r → ∀ s, fs w !! (D ++ x) ≠ Some (File s)) →
  fs w !! (D ++ r) = None →
  ∃ ta, grown D r (fs w) ta ∧ wf ta ∧
    create_project project_name output_dir w
    = create_project project_name output_dir (set_fs ta w) ∧
    ∀ x, x `prefix_of` r →
      fs (fst (create_project project_name output_dir w)) !! (D ++ x) = Some Dir.
Proof.
  intros Hpd Hwf HD HDd Hr Hc Hf Hn.
  destruct w as [t cw so sf]. simpl in *.
  remember (length (parts base) + length r)%nat as n eqn:En.
  destruct (mkdir_p_run cw so sf base D t r n Hwf HD HDd Hr Hf)
    as (ta & Hrun & Hwfa & Hg); [lia|].
  exists ta. split; [done|]. split; [done|].
  pose proof Hg as (Hsub & Hdirs & Hnew).
  assert (locate ta cw base = Ok D) as HDa
    by (eapply walk_mono; [by apply subseteq_dirs_le|done]).
  assert (t !! (D ++ r ++ [c]) = None) as Ek.
  { rewrite app_assoc. by apply wf_below_absent. }
  assert (ta !! (D ++ r ++ [c]) = None) as Eka.
  { destruct (ta !! (D ++ r ++ [c])) eqn:E1; [|done].
    destruct (Hnew (D ++ r ++ [c]) Ek) as (x & Hx & Ex); [by rewrite E1|].
    apply app_inv_head in Ex. subst x. apply prefix_length in Hx.
    rewrite length_app in Hx. simpl in Hx. lia. }
  assert (os_mkdir (sub base (r ++ [c])) (World ta cw so sf)
          = (World (<[D ++ r ++ [c] := Dir]> ta) cw so sf, Returned tt)) as Hmka.
  { apply os_mkdir_sub_new; try done. by apply Hdirs. }
  assert (Path_mkdir (sub base (r ++ [c])) true false (World t cw so sf)
          = (World (<[D ++ r ++ [c] := Dir]> ta) cw so sf, Returned tt)) as Hmk.
  { unfold Path_mkdir.
    replace (length (parts (sub base (r ++ [c])))) with (S n)
      by (simpl; rewrite !length_app; simpl; lia).
    simpl. unfold try_except.
    rewrite (os_mkdir_sub_orphan cw so sf base D t r c) by done. simpl.
    rewrite bool_decide_eq_false_2.
    2:{ rewrite parent_fixed. simpl. by destruct (parts base), r. }
    simpl. rewrite parent_sub. unfold bind. rewrite Hrun.
    by apply mkdir_rec_direct. }
  assert (create_project project_name output_dir (World t cw so sf)
          = create_project project_name output_dir (set_fs ta (World t cw so sf)))
    as Hsame.
  { unfold create_project. apply create_project_with_resumes; simpl; [done| | |].
    - rewrite Hpd. unfold exists_b, sys_stat, locate. unfold locate in HD.
      simpl. rewrite walk_app, start_sub, HD, walk_app.
      destruct (walk_no_file t D r Hr Hf) as [-> | ->]; simpl; [|done].
      by rewrite Hn.
    - rewrite Hpd. unfold exists_b.
      by rewrite (stat_sub_missing cw base D ta r c) by (done || by apply Hdirs).
    - rewrite Hpd, Hmk. unfold set_fs, Path_mkdir. simpl.
      symmetry. by apply mkdir_rec_direct. }
  split; [done|].
  intros x Hx. rewrite Hsame.
  destruct (create_project project_name output_dir
              (set_fs ta (World t cw so sf))) as [w' res] eqn:E.
  destruct safe_manifests_code as [HT HR].
  apply create_project_with_footprint in E as (_ & _ & (_ & _ & Hle & _));
    [|done..].
  simpl in *. eapply lookup_weaken; [|done]. by apply Hdirs.
Qed.

Lemma missing_parents_are_made_demo :
  Path_of "/tmp/out" </> "a/b" = sub (Path_of "/tmp/out") (["a"] ++ ["b"]) ∧
  ∃ ta, grown ["tmp"; "out"] ["a"] (fs demo_world) ta ∧ wf ta ∧
    create_project "a/b" (Path_of "/tmp/out") demo_world
    = create_project "a/b" (Path_of "/tmp/out") (set_fs ta demo_world) ∧
    ∀ x, x `prefix_of` ["a"] →
      fs (fst (create_project "a/b" (Path_of "/tmp/out") demo_world))
        !! (["tmp"; "out"] ++ x) = Some Dir.
Proof.
  split; [reflexivity|].
  apply (missing_parents_are_made "a/b" (Path_of "/tmp/out")
           (Path_of "/tmp/out") ["a"] "b" demo_world ["tmp"; "out"]).
  - reflexivity.
  - apply well_formed_wf. vm_compute. reflexivity.
  - vm_compute. reflexivity.
  - vm_compute. reflexivity.
  - intros H. apply list_elem_of_In in H. vm_compute in H. by destruct H.
  - done.
  - intros x Hx s H.
    assert (x = [] ∨ x = ["a"]) as [-> | ->].
    { destruct Hx as [y Hy]. destruct x as [|a [|b x]];
        [by left|right|done]. by injection Hy as <- _. }
    + vm_compute in H. discriminate.
    + vm_compute in H. discriminate.
  - vm_compute. reflexivity.
Defined.

(** ** The locations a complete run adds *)

Lemma prefixes_of_spec r x : x ∈ prefixes_of r ↔ x ≠ [] ∧ x `prefix_of` r.
Proof.
  unfold prefixes_of. rewrite list_elem_of_In, in_map_iff. split.
  - intros (i & <- & Hi). apply in_seq in Hi. split.
    + intros E. apply (f_equal length) in E. rewrite length_take in E.
      simpl in E. lia.
    + exists (drop i r). by rewrite take_drop.
  - intros [Hx [y ->]]. exists (length x). split; [by rewrite take_app_length|].
    apply in_seq. rewrite length_app. destruct x; [done|]. simpl. lia.
Qed.

Lemma layout_spec m x :
  x ∈ layout m ↔ x ≠ [] ∧ ∃ e, e ∈ m ∧ x `prefix_of` tparts (fst e).
Proof.
  unfold layout. rewrite list_elem_of_In, in_flat_map. split.
  - intros (e & He & Hx). apply list_elem_of_In, prefixes_of_spec in Hx as [? ?].
    apply list_elem_of_In in He. eauto.
  - intros (Hx & e & He & Hp). exists e. split; [by apply list_elem_of_In|].
    by apply list_elem_of_In, prefixes_of_spec.
Qed.

(** The first loop leaves something exactly at the targets and at the
    directories above them. *)
Lemma nested_at_layout t A T x :
  x ≠ [] → is_Some (nested_at t A T x) ↔ x ∈ layout T.
Proof.
  intros Hx. rewrite layout_spec. unfold nested_at.
  destruct (find_target x T) as [e|] eqn:E.
  - apply find_target_Some in E as [He <-]. split; [|by eauto].
    intros _. split; [done|]. by exists e.
  - destruct (has_below x T) eqn:Hb.
    + apply has_below_true in Hb as (e & He & Hp & _). split; [|by eauto].
      intros _. split; [done|]. by exists e.
    + split; [by intros [? [=]]|]. intros (_ & e & He & Hp).
      assert (has_below x T = true) as Hb'; [|congruence].
      apply has_below_true. exists e. split_and!; try done.
      intros ->. by apply (proj1 (find_target_None _ _) E e He).
Qed.

(** The second loop leaves something exactly at the targets whose asset is
    there. *)
Lemma root_at_spec t A R x :
  free R →
  is_Some (root_at t A R x) ↔
  ∃ e, e ∈ R ∧ x = tparts (fst e) ∧ is_Some (asset_at t A (snd e)).
Proof.
  intros Hfree. unfold root_at. destruct (find_target x R) as [e|] eqn:E.
  - apply find_target_Some in E as [He <-]. split.
    + intros Hs. exists e. split_and!; try done.
      destruct (asset_at t A (snd e)); [by eauto|by destruct Hs].
    + intros (e' & He' & Hx & Hs).
      assert (e = e') as <- by (apply Hfree; try done; by rewrite Hx).
      destruct (asset_at t A (snd e)); [by eauto|by destruct Hs].
  - split; [by intros [? [=]]|]. intros (e & He & -> & _).
    by destruct (proj1 (find_target_None _ _) E e He).
Qed.

Lemma scaffold_at_spec t A T R project_name x :
  free R → x ≠ [] →
  is_Some (scaffold_at t A T R project_name x) ↔
  x ∈ layout T ∨ x = [".env.example"] ∨ x = ["README.md"] ∨
  ∃ e, e ∈ R ∧ x = tparts (fst e) ∧ is_Some (asset_at t A (snd e)).
Proof.
  intros Hfree Hx. unfold scaffold_at, loops_at.
  destruct (decide (x = ["README.md"])) as [->|N1].
  { rewrite bool_decide_eq_true_2 by done. split; [|by eauto].
    intros _. right. right. by left. }
  rewrite (bool_decide_eq_false_2 (x = ["README.md"])) by done.
  destruct (decide (x = [".env.example"])) as [->|N2].
  { rewrite bool_decide_eq_true_2 by done. split; [|by eauto].
    intros _. right. by left. }
  rewrite (bool_decide_eq_false_2 (x = [".env.example"])) by done.
  pose proof (root_at_spec t A R x Hfree) as Hroot.
  pose proof (nested_at_layout t A T x Hx) as Hnest.
  destruct (root_at t A R x) as [n|].
  - split; [|by eauto]. intros _. do 3 right. apply Hroot. by eauto.
  - rewrite Hnest. split; [by left|].
    intros [?|[?|[?|He]]]; try done.
    apply Hroot in He. by destruct He.
Qed.

(** X6.  A complete run adds exactly these locations: the project
    directory, the thirteen template targets with the six directories above
    them, [.env.example], [README.md], and the target of every root file
    whose asset is beside the script.  Nothing else is new. *)
Theorem created_exactly project_name output_dir w :
  ready (keys_of TEMPLATES ROOT_FILES) w (output_dir </> project_name) = true →
  ∃ w', create_project project_name output_dir w = (w', Returned 0%Z) ∧
    ∀ k, k ∈ created w w' ↔
      ∃ x, k = project_at w (output_dir </> project_name) ++ x ∧
        (x = [] ∨ x ∈ layout TEMPLATES ∨
         x = [".env.example"] ∨ x = ["README.md"] ∨
         ∃ e, e ∈ ROOT_FILES ∧ x = tparts (fst e) ∧ is_Some (asset w (snd e))).
Proof.
  intros Hready.
  destruct (create_project_with_complete TEMPLATES ROOT_FILES project_name
              output_dir w manifests_ok_code Hready)
    as (t' & Hrun & _ & _ & Hat).
  eexists. split; [exact Hrun|].
  destruct (manifests_ok_inv _ _ manifests_ok_code)
    as (_ & _ & _ & _ & Hfree & _).
  pose proof (ready_inv _ _ _ Hready)
    as (d & c & A & Hwf & _ & _ & _ & Hk & _ & _ & _ & HP & HA).
  rewrite <- HP in Hk.
  set (P := project_at w (output_dir </> project_name)) in *.
  assert (∀ e, e ∈ ROOT_FILES →
            asset_at (fs w) (assets_at w) (snd e) = asset w (snd e)) as Hasset.
  { intros [tp key] He. simpl. symmetry.
    destruct (root_file_entry (fs w) (assets_at w) project_name tp key He)
      as (_ & _ & _ & Hpl & _).
    eapply asset_ready; [exact Hready| |done].
    by apply (keys_of_root_file TEMPLATES ROOT_FILES (tp, key)). }
  intros k. unfold created.
  rewrite elem_of_difference, elem_of_dom, not_elem_of_dom. simpl.
  rewrite Hat. unfold expected.
  destruct (strip P k) as [x|] eqn:E.
  - apply strip_Some in E as ->. rewrite (wf_below_absent _ P x Hwf Hk).
    destruct x as [|a x].
    + split; [|by eauto]. intros _. exists []. split; [done|by left].
    + rewrite (scaffold_at_spec _ _ _ _ _ (a :: x) Hfree) by done. split.
      * intros [Hs _]. exists (a :: x). split; [done|]. right.
        destruct Hs as [?|[?|[?|(e & He & Hx & Hs)]]]; auto.
        do 3 right. exists e. by rewrite <- Hasset.
      * intros (x' & <-%app_inv_head & Hc). split; [|done].
        destruct Hc as [?|[?|[?|[?|(e & He & Hx & Hs)]]]]; [done|auto..|].
        do 3 right. exists e. by rewrite Hasset.
  - split.
    + intros [Hs Hn]. rewrite Hn in Hs. by destruct Hs.
    + intros (x & -> & _). by rewrite strip_app in E.
Qed.

Lemma created_exactly_demo :
  ready (keys_of TEMPLATES ROOT_FILES) docker_world
        (Path_of "/tmp/out" </> "demo") = true ∧
  ∃ w', create_project "demo" (Path_of "/tmp/out") docker_world
          = (w', Returned 0%Z) ∧
    ∀ k, k ∈ created docker_world w' ↔
      ∃ x, k = project_at docker_world (Path_of "/tmp/out" </> "demo") ++ x ∧
        (x = [] ∨ x ∈ layout TEMPLATES ∨
         x = [".env.example"] ∨ x = ["README.md"] ∨
         ∃ e, e ∈ ROOT_FILES ∧ x = tparts (fst e) ∧
              is_Some (asset docker_world (snd e))).
Proof.
  split; [vm_compute; reflexivity|].
  apply (created_exactly "demo" (Path_of "/tmp/out") docker_world).
  vm_compute. reflexivity.
Defined.

(** ** A project name that steps out of the output directory *)

Lemma Path_of_dotdot n :
  plain n = true → Path_of ("../" +:+ n) = mkPath "" [".."; n].
Proof.
  intros (Hs & Hk & _)%plain_inv. unfold Path_of.
  change ("../" +:+ n) with (".." +:+ String SEP n).
  change (splitroot (".." +:+ String SEP n)) with ("", ".." +:+ String SEP n).
  cbv beta iota.
  rewrite split_on_app by done. rewrite split_on_none by done.
  simpl. by rewrite Hk.
Qed.

(** X7.  The project name is read as a path and its [..] is resolved by
    the kernel: the name [../n] puts the project beside the output
    directory.  From a world that is ready for it the run completes, the
    project directory is [n] in the directory above the output directory,
    everything new is at or below it, and, unless the output directory is
    the root, nothing new is in the output directory. *)
Theorem dotdot_name_leaves_output_dir n output_dir w O :
  plain n = true →
  ready (keys_of TEMPLATES ROOT_FILES) w (output_dir </> ("../" +:+ n)) = true →
  locate (fs w) (cwd w) output_dir = Ok O →
  ∃ w', create_project ("../" +:+ n) output_dir w = (w', Returned 0%Z) ∧
    fs w' !! (removelast O ++ [n]) = Some Dir ∧
    fs w' !! (removelast O ++ [n; "README.md"])
      = Some (File (README ("../" +:+ n))) ∧
    ∀ k, k ∈ created w w' →
      removelast O ++ [n] `prefix_of` k ∧ (O ≠ [] → ¬ O `prefix_of` k).
Proof.
  intros Hpl Hready HO.
  assert (output_dir </> ("../" +:+ n) = sub output_dir ([".."] ++ [n])) as Hpd.
  { unfold joinpath. by rewrite Path_of_dotdot. }
  destruct (create_project_with_complete TEMPLATES ROOT_FILES _ output_dir w
              manifests_ok_code Hready) as (t' & Hrun & _ & _ & Hat).
  pose proof (ready_inv _ _ _ Hready)
    as (d & c & A & Hwf & Hlp & _ & _ & Hk & _ & _ & _ & HP & _).
  apply locate_parent_ok in Hlp as (Hw & Hd & Hc).
  rewrite Hpd in Hw, Hc.
  change (parts (sub output_dir ([".."] ++ [n])))
    with (parts output_dir ++ [".."] ++ [n]) in Hw, Hc.
  rewrite app_assoc, removelast_last in Hw. rewrite app_assoc, last_last in Hc.
  apply walk_snoc_inv in Hw as (d0 & Hw0 & Hd0 & ->).
  unfold locate in HO. rewrite start_sub, HO in Hw0. injection Hw0 as <-.
  change (step O "..") with (removelast O) in *. subst c.
  set (P := removelast O ++ [n]) in *.
  eexists. split; [exact Hrun|]. simpl. rewrite !Hat, HP.
  split; [apply expected_at|]. split.
  - replace (removelast O ++ [n; "README.md"]) with (P ++ ["README.md"])
      by (unfold P; by rewrite <- app_assoc).
    by rewrite expected_below.
  - intros k. unfold created.
    rewrite elem_of_difference, elem_of_dom, not_elem_of_dom. simpl.
    rewrite Hat, HP. unfold expected. intros [Hs Hn].
    destruct (strip P k) as [x|] eqn:E; [|rewrite Hn in Hs; by destruct Hs].
    apply strip_Some in E as ->. split; [by exists x|].
    intros HOne [y Hy].
    rewrite (app_removelast_last "" HOne) in Hy. unfold P in Hy.
    rewrite <- !app_assoc in Hy. apply app_inv_head in Hy.
    injection Hy as Hl _.
    assert (O = P) as E.
    { unfold P. rewrite Hl. by apply app_removelast_last. }
    rewrite <- E in Hk. congruence.
Qed.

Lemma dotdot_name_leaves_output_dir_demo :
  plain "evil" = true ∧
  ready (keys_of TEMPLATES ROOT_FILES) demo_world
        (Path_of "/tmp/out" </> ("../" +:+ "evil")) = true ∧
  locate (fs demo_world) (cwd demo_world) (Path_of "/tmp/out")
    = Ok ["tmp"; "out"] ∧
  ∃ w', create_project ("../" +:+ "evil") (Path_of "/tmp/out") demo_world
          = (w', Returned 0%Z) ∧
    fs w' !! (removelast ["tmp"; "out"] ++ ["evil"]) = Some Dir ∧
    fs w' !! (removelast ["tmp"; "out"] ++ ["evil"; "README.md"])
      = Some (File (README ("../" +:+ "evil"))) ∧
    ∀ k, k ∈ created demo_world w' →
      removelast ["tmp"; "out"] ++ ["evil"] `prefix_of` k ∧
      (["tmp"; "out"] ≠ [] → ¬ ["tmp"; "out"] `prefix_of` k).
Proof.
  split; [reflexivity|]. split; [vm_compute; reflexivity|].
  split; [vm_compute; reflexivity|].
  apply (dotdot_name_leaves_output_dir "evil" (Path_of "/tmp/out") demo_world
           ["tmp"; "out"]);
    [reflexivity|vm_compute; reflexivity|vm_compute; reflexivity].
Defined.

(** ** The entry point *)

(** X8.  Without [-o] the output directory is [.]: for a name that is a
    single path segment the project is made in the working directory, and
    the report names it by the bare project name. *)
Theorem main_default_is_cwd project_name w :
  plain project_name = true →
  ready (keys_of TEMPLATES ROOT_FILES) w (Path_of "." </> project_name) = true →
  ∃ w', main (parsed project_name None) w = (w', Returned 0%Z) ∧
    fs w' !! (cwd w ++ [project_name]) = Some Dir ∧
    fs w' !! (cwd w ++ [project_name; "README.md"])
      = Some (File (README project_name)) ∧
    stdout w' = stdout w ++
      [ "Project '" +:+ project_name +:+ "' created at " +:+ project_name;
        LF +:+ "Next steps:";
        "  cd " +:+ project_name;
        "  cp .env.example .env";
        "  docker compose up -d" ].
Proof.
  intros Hpl Hready.
  destruct (create_project_with_complete TEMPLATES ROOT_FILES _ _ w
              manifests_ok_code Hready) as (t' & Hrun & _ & _ & Hat).
  pose proof (ready_inv _ _ _ Hready)
    as (d & c & A & Hwf & Hlp & _ & _ & Hk & _ & _ & _ & HP & _).
  rewrite joinpath_plain in Hlp by done.
  apply locate_parent_ok in Hlp as (Hw & Hd & Hc).
  simpl in Hw, Hc. injection Hw as <-. subst c.
  unfold main, parsed, default_output, create_project.
  cbn [ns_project_name ns_output].
  eexists. split; [exact Hrun|]. cbn [fs stdout]. rewrite !Hat, HP.
  split; [apply expected_at|]. split; [|by rewrite joinpath_plain by done].
  replace (cwd w ++ [project_name; "README.md"])
    with ((cwd w ++ [project_name]) ++ ["README.md"])
    by (by rewrite <- app_assoc).
  by rewrite expected_below.
Qed.

Lemma main_default_is_cwd_demo :
  plain "demo" = true ∧
  ready (keys_of TEMPLATES ROOT_FILES) demo_world (Path_of "." </> "demo")
    = true ∧
  ∃ w', main (parsed "demo" None) demo_world = (w', Returned 0%Z) ∧
    fs w' !! (cwd demo_world ++ ["demo"]) = Some Dir ∧
    fs w' !! (cwd demo_world ++ ["demo"; "README.md"])
      = Some (File (README "demo")) ∧
    stdout w' = stdout demo_world ++
      [ "Project '" +:+ "demo" +:+ "' created at " +:+ "demo";
        LF +:+ "Next steps:";
        "  cd " +:+ "demo";
        "  cp .env.example .env";
        "  docker compose up -d" ].
Proof.
  split; [reflexivity|]. split; [vm_compute; reflexivity|].
  apply (main_default_is_cwd "demo" demo_world);
    [reflexivity|vm_compute; reflexivity].
Defined.

Lemma exit_eq (x : world * Z) z : snd x = z → x = (fst x, z).
Proof. destruct x. simpl. by intros ->. Qed.



(** ** Absolute paths and the working directory *)

Lemma start_rooted c p : rooted p → start c p = [].
Proof. intros H. unfold start. by apply String.eqb_neq in H as ->. Qed.

Lemma rooted_parent p : rooted p → rooted (parent p).
Proof. done. Qed.

Lemma rooted_join p s : rooted p → rooted (p </> s).
Proof.
  intros H. unfold joinpath, rooted.
  destruct (String.eqb (root (Path_of s)) "") eqn:E; [done|].
  by apply String.eqb_neq in E.
Qed.

Lemma locate_rooted t c p : rooted p → locate t c p = locate t [] p.
Proof. intros H. unfold locate. by rewrite !(start_rooted _ p H). Qed.

Lemma sys_stat_rooted t c p : rooted p → sys_stat t c p = sys_stat t [] p.
Proof. intros H. unfold sys_stat. by rewrite (locate_rooted t c p H). Qed.

Lemma sys_read_rooted t c p : rooted p → sys_read t c p = sys_read t [] p.
Proof. intros H. unfold sys_read. by rewrite (sys_stat_rooted t c p H). Qed.

Lemma locate_parent_rooted t c p :
  rooted p → locate_parent t c p = locate_parent t [] p.
Proof. intros H. unfold locate_parent. by rewrite !(start_rooted _ p H). Qed.

Lemma sys_mkdir_rooted t c p : rooted p → sys_mkdir t c p = sys_mkdir t [] p.
Proof.
  intros H. unfold sys_mkdir.
  by rewrite (locate_parent_rooted t c p H), !(start_rooted _ p H).
Qed.

Lemma sys_open_w_rooted trunc t c p :
  rooted p → sys_open_w trunc t c p = sys_open_w trunc t [] p.
Proof.
  intros H. unfold sys_open_w.
  by rewrite (locate_parent_rooted t c p H), !(start_rooted _ p H).
Qed.

Lemma cwd_free_ret {X : Type} (a : X) : cwd_free (ret a).
Proof. by intros w w' r c [= <- <-]. Qed.

Lemma cwd_free_raise {X : Type} e : cwd_free (@raise X e).
Proof. by intros w w' r c [= <- <-]. Qed.

Lemma cwd_free_print s : cwd_free (print s).
Proof. by intros w w' r c [= <- <-]. Qed.

Lemma cwd_free_bind {X Y : Type} (m : M X) (k : X → M Y) :
  cwd_free m → (∀ a, cwd_free (k a)) → cwd_free (bind m k).
Proof.
  intros Hm Hk w w' r c. unfold bind.
  destruct (m w) as [w1 [a|e]] eqn:E; rewrite (Hm _ _ _ c E).
  - apply Hk.
  - by intros [= <- <-].
Qed.

Lemma cwd_free_try {X : Type} (m : M X) (h : OSError → M X) :
  cwd_free m → (∀ e, cwd_free (h e)) → cwd_free (try_except m h).
Proof.
  intros Hm Hh w w' r c. unfold try_except.
  destruct (m w) as [w1 [a|e]] eqn:E; rewrite (Hm _ _ _ c E).
  - by intros [= <- <-].
  - apply Hh.
Qed.

Lemma cwd_free_for_each {X : Type} (l : list X) (body : X → M unit) :
  (∀ x, cwd_free (body x)) → cwd_free (for_each l body).
Proof.
  intros H. induction l as [|x l IH]; simpl; [apply cwd_free_ret|].
  apply cwd_free_bind; [apply H|]. intros _. apply IH.
Qed.

Lemma cwd_free_sys_get {X : Type} (f : tree → loc → Path → res X) p :
  (∀ t c, f t c p = f t [] p) → cwd_free (sys_get f p).
Proof.
  intros H w w' r c. unfold sys_get. simpl.
  rewrite (H (fs w) (cwd w)), (H (fs w) c).
  destruct (f (fs w) [] p); by intros [= <- <-].
Qed.

Lemma cwd_free_sys_put (f : tree → loc → Path → res tree) p :
  (∀ t c, f t c p = f t [] p) → cwd_free (sys_put f p).
Proof.
  intros H w w' r c. unfold sys_put. simpl.
  rewrite (H (fs w) (cwd w)), (H (fs w) c).
  destruct (f (fs w) [] p); by intros [= <- <-].
Qed.

Lemma cwd_free_open_w trunc p : rooted p → cwd_free (os_open_w trunc p).
Proof.
  intros H w w' r c. unfold os_open_w. simpl.
  rewrite (sys_open_w_rooted trunc (fs w) (cwd w) p H),
    (sys_open_w_rooted trunc (fs w) c p H).
  destruct (sys_open_w trunc (fs w) [] p) as [[t k]|e]; by intros [= <- <-].
Qed.

Lemma cwd_free_fd_write k data : cwd_free (fd_write k data).
Proof. by intros w w' r c [= <- <-]. Qed.

Lemma cwd_free_stat p : rooted p → cwd_free (os_stat p).
Proof. intros H. apply cwd_free_sys_get. intros. by apply sys_stat_rooted. Qed.

Lemma cwd_free_mkdir p : rooted p → cwd_free (os_mkdir p).
Proof. intros H. apply cwd_free_sys_put. intros. by apply sys_mkdir_rooted. Qed.

Lemma cwd_free_samefile a b : rooted a → rooted b → cwd_free (samefile a b).
Proof.
  intros Ha Hb w w' r c. unfold samefile. simpl.
  rewrite (sys_stat_rooted (fs w) (cwd w) a Ha), (sys_stat_rooted (fs w) c a Ha),
    (sys_stat_rooted (fs w) (cwd w) b Hb), (sys_stat_rooted (fs w) c b Hb),
    (locate_rooted (fs w) (cwd w) a Ha), (locate_rooted (fs w) c a Ha),
    (locate_rooted (fs w) (cwd w) b Hb), (locate_rooted (fs w) c b Hb).
  by intros [= <- <-].
Qed.

Lemma cwd_free_exists p : rooted p → cwd_free (Path_exists p).
Proof.
  intros H. apply cwd_free_try.
  - apply cwd_free_bind; [by apply cwd_free_stat|]. intros; apply cwd_free_ret.
  - intros e. destruct (ignore_error e); [apply cwd_free_ret|apply cwd_free_raise].
Qed.

Lemma cwd_free_is_dir p : rooted p → cwd_free (Path_is_dir p).
Proof.
  intros H. apply cwd_free_try.
  - apply cwd_free_bind; [by apply cwd_free_stat|]. intros; apply cwd_free_ret.
  - intros e. destruct (ignore_error e); [apply cwd_free_ret|apply cwd_free_raise].
Qed.

Lemma cwd_free_mkdir_rec n :
  ∀ q b1 b2, rooted q → cwd_free (Path_mkdir_rec n q b1 b2).
Proof.
  induction n as [|n IH]; intros q b1 b2 Hq; simpl.
  all: apply cwd_free_try; [by apply cwd_free_mkdir|].
  all: intros e; destruct (kind e).
  all: try (destruct (negb b2); [apply cwd_free_raise|];
            apply cwd_free_bind; [by apply cwd_free_is_dir|];
            intros d; destruct (negb d);
            [apply cwd_free_raise|apply cwd_free_ret]).
  - destruct (_ || _); apply cwd_free_raise.
  - destruct (_ || _); [apply cwd_free_raise|].
    apply cwd_free_bind; [by apply IH, rooted_parent|]. intros _. by apply IH.
Qed.

Lemma cwd_free_touch p : rooted p → cwd_free (Path_touch p).
Proof.
  intros H. apply cwd_free_try.
  - apply cwd_free_bind; [by apply cwd_free_stat|]. intros; apply cwd_free_ret.
  - intros _. apply cwd_free_bind; [by apply cwd_free_open_w|].
    intros; apply cwd_free_ret.
Qed.

Lemma cwd_free_write_file p data : rooted p → cwd_free (write_file p data).
Proof.
  intros H. apply cwd_free_bind; [by apply cwd_free_open_w|]. intros k.
  apply cwd_free_bind; [apply cwd_free_fd_write|]. intros; apply cwd_free_ret.
Qed.

Lemma cwd_free_copyfile src dst :
  rooted src → rooted dst → cwd_free (copyfile src dst).
Proof.
  intros Hs Hd. apply cwd_free_bind; [by apply cwd_free_samefile|].
  intros [|]; [apply cwd_free_raise|].
  apply cwd_free_bind.
  { apply cwd_free_sys_get. intros. by apply sys_read_rooted. }
  intros data. apply cwd_free_try.
  - apply cwd_free_bind; [by apply cwd_free_write_file|].
    intros; apply cwd_free_ret.
  - intros e. destruct (kind e); try apply cwd_free_raise.
    apply cwd_free_bind; [by apply cwd_free_exists|].
    intros [|]; apply cwd_free_raise.
Qed.

Lemma cwd_free_shutil_copy src dst :
  rooted src → rooted dst → cwd_free (shutil_copy src dst).
Proof.
  intros Hs Hd. apply cwd_free_bind; [by apply cwd_free_is_dir|].
  intros [|]; apply cwd_free_copyfile; try done. by apply rooted_join.
Qed.

Lemma cwd_free_copy_template ad pd e :
  rooted ad → rooted pd → cwd_free (copy_template ad pd e).
Proof.
  intros Ha Hp. destruct e as [tp sf]. unfold copy_template.
  pose proof (rooted_join pd tp Hp) as Ht.
  pose proof (rooted_join ad sf Ha) as Hs.
  apply cwd_free_bind; [by apply cwd_free_mkdir_rec, rooted_parent|]. intros _.
  destruct (truthy sf); [|by apply cwd_free_touch].
  apply cwd_free_bind; [by apply cwd_free_exists|].
  intros [|]; [|by apply cwd_free_touch].
  apply cwd_free_bind; [by apply cwd_free_shutil_copy|].
  intros; apply cwd_free_ret.
Qed.

Lemma cwd_free_copy_root_file ad pd e :
  rooted ad → rooted pd → cwd_free (copy_root_file ad pd e).
Proof.
  intros Ha Hp. destruct e as [tp sf]. unfold copy_root_file.
  pose proof (rooted_join pd tp Hp) as Ht.
  pose proof (rooted_join ad sf Ha) as Hs.
  apply cwd_free_bind; [by apply cwd_free_exists|].
  intros [|]; [|apply cwd_free_ret].
  apply cwd_free_bind; [by apply cwd_free_shutil_copy|].
  intros; apply cwd_free_ret.
Qed.

(** X10.  With an absolute project directory and an absolute script path
    the working directory does not matter: started anywhere else, the call
    returns or raises the same, prints the same and leaves the same tree. *)
Theorem absolute_paths_ignore_cwd project_name output_dir w w' r c :
  rooted (output_dir </> project_name) →
  rooted (Path_of (script_file w)) →
  create_project project_name output_dir w = (w', r) →
  create_project project_name output_dir (with_cwd c w) = (with_cwd c w', r).
Proof.
  intros Hp Ha. unfold create_project, create_project_with.
  unfold bind at 1, get_file. unfold bind at 3, get_file.
  cbn [script_file with_cwd].
  set (pd := output_dir </> project_name) in *.
  set (ad := parent (Path_of (script_file w))).
  assert (rooted ad) as Had by done.
  apply (cwd_free_bind (Path_exists pd)); [by apply cwd_free_exists|].
  intros [|].
  { apply cwd_free_bind; [apply cwd_free_print|]. intros; apply cwd_free_ret. }
  apply cwd_free_bind; [by apply cwd_free_mkdir_rec|]. intros _.
  apply cwd_free_bind.
  { apply cwd_free_for_each. intros. by apply cwd_free_copy_template. }
  intros _. apply cwd_free_bind.
  { apply cwd_free_for_each. intros. by apply cwd_free_copy_root_file. }
  intros _.
  apply cwd_free_bind; [by apply cwd_free_write_file, rooted_join|]. intros _.
  apply cwd_free_bind; [by apply cwd_free_write_file, rooted_join|]. intros _.
  repeat (apply cwd_free_bind; [apply cwd_free_print|intros _]).
  apply cwd_free_ret.
Qed.

Lemma absolute_paths_ignore_cwd_demo :
  rooted (Path_of "/tmp/out" </> "demo") ∧
  rooted (Path_of (script_file demo_world)) ∧
  create_project "demo" (Path_of "/tmp/out") demo_world
    = (demo_done, Returned 0%Z) ∧
  create_project "demo" (Path_of "/tmp/out") (with_cwd ["tmp"] demo_world)
    = (with_cwd ["tmp"] demo_done, Returned 0%Z).
Proof.
  assert (create_project "demo" (Path_of "/tmp/out") demo_world
          = (demo_done, Returned 0%Z)) as H
    by (apply run_eq; vm_compute; reflexivity).
  split; [by vm_compute|]. split; [by vm_compute|]. split; [exact H|].
  apply (absolute_paths_ignore_cwd "demo" (Path_of "/tmp/out") demo_world
           demo_done (Returned 0%Z) ["tmp"]);
    [by vm_compute|by vm_compute|exact H].
Defined.

(** ** A run that fails half way *)

(** Once [mkdir] of the project directory has returned, the directory is
    there at the end of the call, however the call ends. *)
Lemma create_project_with_made T R project_name output_dir w w1 w' r :
  forallb safe_template T = true →
  forallb safe_root_file R = true →
  wf (fs w) →
  exists_b (fs w) (cwd w) (output_dir </> project_name) = false →
  Path_mkdir (output_dir </> project_name) true false w = (w1, Returned tt) →
  create_project_with T R project_name output_dir w = (w', r) →
  exists_b (fs w') (cwd w') (output_dir </> project_name) = true.
Proof.
  intros HT HR Hwf He E. unfold create_project_with.
  set (pd := output_dir </> project_name) in *.
  set (ad := parent (Path_of (script_file w))).
  unfold bind at 1. unfold get_file at 1.
  fold ad. unfold bind at 1. rewrite Path_exists_run, He.
  unfold bind at 1. rewrite E.
  unfold Path_mkdir in E. pose proof E as E'.
  apply (keeps_mkdir_chain (fs w) (cwd w) pd) in E' as (C1 & C2 & C3);
    [|apply on_chain_self].
  specialize (C3 eq_refl (Inv_start _ _ _ Hwf)).
  apply mkdir_made with (t0 := fs w) (cw := cwd w) in E;
    [|done|by apply Inv_start].
  intros Hrest.
  assert (keeps (cwd w) (Inv2 (fs w) (cwd w) pd)
    (for_each T (copy_template ad pd) ;;
     for_each R (copy_root_file ad pd) ;;
     Path_write_text (pd </> ".env.example") ENV_EXAMPLE ;;
     Path_write_text (pd </> "README.md") (README project_name) ;;
     print ("Project '" +:+ project_name +:+ "' created at " +:+ Path_str pd) ;;
     print (LF +:+ "Next steps:") ;;
     print ("  cd " +:+ project_name) ;;
     print "  cp .env.example .env" ;;
     print "  docker compose up -d" ;;
     ret 0%Z)) as Hk.
  { apply keeps_bind.
    { apply keeps_for_each. intros x Hx. apply keeps_copy_template.
      rewrite forallb_forall in HT. by apply HT, list_elem_of_In. }
    intros _. apply keeps_bind.
    { apply keeps_for_each. intros x Hx. apply keeps_copy_root_file.
      rewrite forallb_forall in HR. by apply HR, list_elem_of_In. }
    intros _. apply keeps_bind.
    { apply keeps_write_file. by apply below_join. }
    intros _. apply keeps_bind.
    { apply keeps_write_file. by apply below_join. }
    intros _. repeat (apply keeps_bind; [apply keeps_print|intros _]).
    apply keeps_ret. }
  apply Hk in Hrest as (D1 & D2 & D3).
  destruct D3 as [_ (P & HP & _ & HPd)]; [done|by split|].
  unfold exists_b, sys_stat. rewrite D1, C1, HP, HPd. done.
Qed.

(** X11.  The call does not clean up.  When it raises, either the error is
    the one [mkdir] of the project directory raised, or the project
    directory is left behind; the same call made again then finds it,
    prints the already-exists line and returns 1 without adding or
    changing anything. *)
Theorem failed_run_blocks_retry project_name output_dir w w' e :
  wf (fs w) →
  create_project project_name output_dir w = (w', Raised e) →
  Path_mkdir (output_dir </> project_name) true false w = (w', Raised e) ∨
  create_project project_name output_dir w'
  = (printed w' [already_exists (output_dir </> project_name)], Returned 1%Z).
Proof.
  intros Hwf H. destruct safe_manifests_code as [HT HR].
  destruct (exists_b (fs w) (cwd w) (output_dir </> project_name)) eqn:He.
  { unfold create_project in H.
    by rewrite create_project_with_rejects in H by done. }
  destruct (Path_mkdir (output_dir </> project_name) true false w)
    as [w1 [[]|e1]] eqn:E.
  - right. apply create_project_with_rejects.
    by eapply (create_project_with_made TEMPLATES ROOT_FILES).
  - left. revert H. unfold create_project, create_project_with.
    unfold bind at 1, get_file. unfold bind at 1.
    rewrite Path_exists_run, He. unfold bind at 1. rewrite E.
    by intros [= <- <-].
Qed.

Lemma failed_run_blocks_retry_demo :
  wf (fs demo_world) ∧
  create_project "conftest.py" (Path_of "/opt/skill/assets") demo_world
    = (conftest_done,
       Raised (mkOSError IsADirectoryError
                 (Path_of "/opt/skill/assets/conftest.py"))) ∧
  (Path_mkdir (Path_of "/opt/skill/assets" </> "conftest.py") true false
     demo_world
   = (conftest_done,
      Raised (mkOSError IsADirectoryError
                (Path_of "/opt/skill/assets/conftest.py"))) ∨
   create_project "conftest.py" (Path_of "/opt/skill/assets") conftest_done
   = (printed conftest_done
        [already_exists (Path_of "/opt/skill/assets" </> "conftest.py")],
      Returned 1%Z)).
Proof.
  assert (wf (fs demo_world)) as Hwf
    by (apply well_formed_wf; vm_compute; reflexivity).
  assert (create_project "conftest.py" (Path_of "/opt/skill/assets") demo_world
          = (conftest_done,
             Raised (mkOSError IsADirectoryError
                       (Path_of "/opt/skill/assets/conftest.py")))) as H
    by (apply run_eq; vm_compute; reflexivity).
  split; [exact Hwf|]. split; [exact H|].
  exact (failed_run_blocks_retry "conftest.py" (Path_of "/opt/skill/assets")
           demo_world conftest_done _ Hwf H).
Defined.

(** ** The names [.] and [..] *)

(** X12.  The names [.] and [..] name a directory that is already there:
    when the output directory exists, the call for either of them is
    rejected like any call for an existing project, and changes nothing. *)
Theorem dot_name_is_rejected project_name output_dir w :
  wf (fs w) →
  is_dir_b (fs w) (cwd w) output_dir = true →
  project_name = "." ∨ project_name = ".." →
  create_project project_name output_dir w
  = (printed w [already_exists (output_dir </> project_name)], Returned 1%Z).
Proof.
  intros Hwf Hd Hn. apply create_project_with_rejects.
  unfold is_dir_b, sys_stat in Hd.
  destruct (locate (fs w) (cwd w) output_dir) as [O|] eqn:HO; [|done].
  destruct (fs w !! O) as [[|s]|] eqn:HOd; try done.
  unfold locate in HO.
  destruct Hn as [-> | ->].
  - change (output_dir </> ".") with (sub output_dir []).
    rewrite sub_nil. unfold exists_b, sys_stat, locate. by rewrite HO, HOd.
  - change (output_dir </> "..") with (sub output_dir [".."]).
    unfold exists_b, sys_stat, locate.
    change (parts (sub output_dir [".."])) with (parts output_dir ++ [".."]).
    rewrite start_sub, walk_app, HO. simpl. rewrite HOd.
    change (step O "..") with (removelast O).
    destruct (decide (O = [])) as [->|HOne].
    + simpl. by rewrite (wf_root _ Hwf).
    + rewrite (wf_parent (fs w) (removelast O) (List.last O "") Hwf); [done|].
      rewrite <- (app_removelast_last "" HOne). by rewrite HOd.
Qed.

Lemma dot_name_is_rejected_demo :
  wf (fs demo_world) ∧
  is_dir_b (fs demo_world) (cwd demo_world) (Path_of "/tmp/out") = true ∧
  create_project ".." (Path_of "/tmp/out") demo_world
  = (printed demo_world [already_exists (Path_of "/tmp/out" </> "..")],
     Returned 1%Z).
Proof.
  assert (wf (fs demo_world)) as Hwf
    by (apply well_formed_wf; vm_compute; reflexivity).
  split; [exact Hwf|]. split; [vm_compute; reflexivity|].
  apply (dot_name_is_rejected ".." (Path_of "/tmp/out") demo_world Hwf);
    [vm_compute; reflexivity|by right].
Defined.

(** ** Two projects in one output directory *)

Lemma wf_well_formed t : wf t → well_formed t = true.
Proof.
  intros Hwf. unfold well_formed. apply andb_true_intro. split.
  - apply bool_decide_eq_true_2. by apply wf_root.
  - apply forallb_forall. intros k Hin.
    apply in_map_iff in Hin as ([k' v] & <- & Hin).
    apply list_elem_of_In, elem_of_map_to_list in Hin. cbn [fst].
    destruct k' as [|a l]; [done|].
    apply bool_decide_eq_true_2.
    apply (wf_parent t _ (List.last (a :: l) "") Hwf).
    rewrite <- app_removelast_last by done. by rewrite Hin.
Qed.

Lemma ready_intro keys w pd d c A :
  wf (fs w) → locate_parent (fs w) (cwd w) pd = Ok (d, c) →
  parts pd ≠ [] → c ≠ ".." → fs w !! (d ++ [c]) = None →
  locate (fs w) (cwd w) (assets_dir_of w) = Ok A →
  fs w !! A = Some Dir →
  (∀ key, key ∈ keys →
     fs w !! (A ++ [key]) ≠ Some Dir ∧ A ++ [key] ≠ d ++ [c]) →
  ready keys w pd = true.
Proof.
  intros Hwf Hlp Hne Hc Hk HlA HA Hkeys. unfold ready.
  rewrite (wf_well_formed _ Hwf), Hlp, HlA. simpl.
  rewrite !andb_true_iff. split_and!.
  - by apply negb_true_iff, bool_decide_eq_false_2.
  - by apply negb_true_iff, String.eqb_neq.
  - by apply bool_decide_eq_true_2.
  - by apply bool_decide_eq_true_2.
  - apply forallb_forall. intros key Hin%list_elem_of_In.
    destruct (Hkeys key Hin) as [H1 H2].
    apply andb_true_intro.
    split; by apply negb_true_iff, bool_decide_eq_false_2.
Qed.

Lemma siblings_apart {X : Type} (d : list X) a b x :
  a ≠ b → ¬ (d ++ [b]) `prefix_of` (d ++ [a]) ++ x.
Proof.
  intros Hab [y Hy]. rewrite <- !app_assoc in Hy.
  apply app_inv_head in Hy. by injection Hy.
Qed.

(** X13.  Two projects go side by side.  When a world is ready for the
    projects [a] and [b] of one output directory, the call for [b] made
    after the call for [a] completes as well, and leaves everything at and
    below the project directory of [a] as the first call made it. *)
Theorem projects_side_by_side a b output_dir w :
  plain a = true → plain b = true → a ≠ b →
  ready (keys_of TEMPLATES ROOT_FILES) w (output_dir </> a) = true →
  ready (keys_of TEMPLATES ROOT_FILES) w (output_dir </> b) = true →
  ∃ wa wb,
    create_project a output_dir w = (wa, Returned 0%Z) ∧
    create_project b output_dir wa = (wb, Returned 0%Z) ∧
    ∀ x, fs wb !! (project_at w (output_dir </> a) ++ x)
         = fs wa !! (project_at w (output_dir </> a) ++ x).
Proof.
  intros Ha Hb Hab Hra Hrb.
  destruct (create_project_with_complete TEMPLATES ROOT_FILES a output_dir w
              manifests_ok_code Hra) as (ta & Hruna & Hwfa & _ & Hata).
  pose proof (ready_inv _ _ _ Hra)
    as (d & ca & A & Hwf & Hlpa & _ & _ & Hka & HlA & HA & Hkeysa & HPa & _).
  pose proof (ready_inv _ _ _ Hrb)
    as (d' & cb & A' & _ & Hlpb & Hneb & Hcb & Hkb & HlA' & _ & Hkeysb & _ & _).
  rewrite HlA in HlA'. injection HlA' as <-.
  pose proof Hlpa as (Hwa & Hda & Hca)%locate_parent_ok.
  pose proof Hlpb as (Hwb & Hdb & Hcb')%locate_parent_ok.
  rewrite joinpath_plain in Hwa, Hca, Hwb, Hcb' by done.
  cbn [parts] in Hwa, Hca, Hwb, Hcb'.
  rewrite removelast_last in Hwa, Hwb. rewrite last_last in Hca, Hcb'.
  change (start (cwd w) _) with (start (cwd w) output_dir) in Hwa, Hwb.
  rewrite Hwa in Hwb. injection Hwb as <-. subst ca cb.
  rewrite HPa in *.
  assert (dirs_le (fs w) ta) as Hle.
  { intros k Hk. rewrite Hata. unfold expected.
    destruct (strip (d ++ [a]) k) as [[|y x]|] eqn:E; [done| |done].
    apply strip_Some in E as ->.
    by rewrite (wf_below_absent _ _ (y :: x) Hwf Hka) in Hk. }
  set (wa := World ta (cwd w)
               (stdout w ++ banner a (output_dir </> a)) (script_file w)) in *.
  assert (locate_parent (fs wa) (cwd wa) (output_dir </> b) = Ok (d, b)) as Hlpb'.
  { unfold locate_parent, wa. cbn [fs cwd].
    rewrite (joinpath_plain output_dir b Hb). cbn [parts].
    rewrite removelast_last, last_last.
    change (start (cwd w) _) with (start (cwd w) output_dir).
    rewrite (walk_mono _ _ _ _ _ Hle Hwa). simpl. by rewrite (Hle _ Hda). }
  assert (ready (keys_of TEMPLATES ROOT_FILES) wa (output_dir </> b) = true)
    as Hrb'.
  { apply (ready_intro _ wa _ d b A); unfold wa; cbn [fs cwd]; try done.
    - rewrite Hata. unfold expected.
      rewrite strip_not_prefix; [done|].
      rewrite <- (app_nil_r (d ++ [b])). apply siblings_apart. done.
    - eapply walk_mono; [exact Hle|exact HlA].
    - by apply Hle.
    - intros key Hkey. destruct (Hkeysa key Hkey) as [H1 H2].
      split; [|by apply Hkeysb]. rewrite Hata. unfold expected.
      destruct (strip (d ++ [a]) (A ++ [key])) as [x|] eqn:E; [|done].
      apply strip_Some in E.
      destruct x as [|y x _] using rev_ind.
      + by rewrite app_nil_r in E.
      + rewrite app_assoc in E. apply app_inj_tail in E as [E _].
        rewrite E in HA.
        by rewrite (wf_below_absent _ _ x Hwf Hka) in HA. }
  destruct (create_project_with_complete TEMPLATES ROOT_FILES b output_dir wa
              manifests_ok_code Hrb') as (tb & Hrunb & _ & _ & Hatb).
  exists wa. eexists. split; [exact Hruna|]. split; [exact Hrunb|].
  intros x. simpl. rewrite Hatb. unfold expected, project_at.
  rewrite Hlpb'. rewrite strip_not_prefix; [done|].
  by apply siblings_apart.
Qed.

Lemma projects_side_by_side_demo :
  plain "demo" = true ∧ plain "other" = true ∧ "demo" ≠ "other" ∧
  ready (keys_of TEMPLATES ROOT_FILES) demo_world
        (Path_of "/tmp/out" </> "demo") = true ∧
  ready (keys_of TEMPLATES ROOT_FILES) demo_world
        (Path_of "/tmp/out" </> "other") = true ∧
  ∃ wa wb,
    create_project "demo" (Path_of "/tmp/out") demo_world
      = (wa, Returned 0%Z) ∧
    create_project "other" (Path_of "/tmp/out") wa = (wb, Returned 0%Z) ∧
    ∀ x, fs wb !! (project_at demo_world (Path_of "/tmp/out" </> "demo") ++ x)
         = fs wa !! (project_at demo_world (Path_of "/tmp/out" </> "demo") ++ x).
Proof.
  split; [reflexivity|]. split; [reflexivity|]. split; [done|].
  split; [vm_compute; reflexivity|]. split; [vm_compute; reflexivity|].
  apply (projects_side_by_side "demo" "other" (Path_of "/tmp/out") demo_world);
    [reflexivity|reflexivity|done|vm_compute; reflexivity|vm_compute; reflexivity].
Defined.

(** ** The path in the messages *)

Lemma split_on_no_sep sep s :
  Forall (fun x => has_char sep x = false) (split_on sep s).
Proof.
  induction s as [|c s IH]; simpl.
  - by constructor.
  - destruct (Ascii.eqb c sep) eqn:E; [by constructor|].
    destruct (split_on sep s) as [|x xs].
    + constructor; [|done]. simpl. by rewrite E.
    + inversion IH as [|? ? Hx Hxs]; subst.
      constructor; [|done]. simpl. by rewrite E, Hx.
Qed.

Lemma splitroot_roots s :
  fst (splitroot s) = "" ∨ fst (splitroot s) = "/" ∨ fst (splitroot s) = "//".
Proof.
  destruct s as [|c s]; [by left|].
  destruct c as [[] [] [] [] [] [] [] []]; try (by left).
  destruct s as [|c s]; [right; by left|].
  destruct c as [[] [] [] [] [] [] [] []]; try (right; by left).
  destruct s as [|c s]; [right; by right|].
  destruct c as [[] [] [] [] [] [] [] []]; try (right; by right).
  right; by left.
Qed.

Lemma Path_of_normal s : normal (Path_of s).
Proof.
  unfold Path_of. pose proof (splitroot_roots s) as Hr.
  destruct (splitroot s) as [rt rel]. split; [done|]. simpl.
  apply forallb_forall. intros x [Hx Hk]%filter_In.
  pose proof (split_on_no_sep SEP rel) as Hf.
  rewrite Forall_forall in Hf. apply list_elem_of_In, Hf in Hx.
  unfold part_ok. by rewrite Hx, Hk.
Qed.

Lemma joinpath_normal p s : normal p → normal (p </> s).
Proof.
  intros [Hr Hf]. pose proof (Path_of_normal s) as [Hr' Hf'].
  unfold joinpath. destruct (String.eqb (root (Path_of s)) ""); [|done].
  split; [done|]. simpl. by rewrite forallb_app, Hf, Hf'.
Qed.

Lemma split_join ps :
  ps ≠ [] → forallb part_ok ps = true →
  split_on SEP (join_with "/" ps) = ps.
Proof.
  induction ps as [|x ps IH]; [done|]. intros _ Hf.
  apply andb_prop in Hf as [Hx Hf]. apply andb_prop in Hx as [Hx _].
  apply negb_true_iff in Hx.
  destruct ps as [|y l]; [by apply split_on_none|].
  change (join_with "/" (x :: y :: l))
    with (x +:+ String SEP (join_with "/" (y :: l))).
  rewrite split_on_app by done. by rewrite IH.
Qed.

Lemma filter_keep ps :
  forallb part_ok ps = true → List.filter keep_part ps = ps.
Proof.
  induction ps as [|x ps IH]; [done|]. simpl.
  intros [Hx Hf]%andb_prop. apply andb_prop in Hx as [_ ->].
  by rewrite IH.
Qed.

Lemma parts_read ps :
  forallb part_ok ps = true →
  List.filter keep_part (split_on SEP (join_with "/" ps)) = ps.
Proof.
  intros Hf. destruct ps as [|x l]; [done|].
  rewrite split_join by done. by apply filter_keep.
Qed.

(** The joined parts do not begin with a separator. *)
Lemma join_head ps c r :
  forallb part_ok ps = true → join_with "/" ps = String c r → c ≠ SEP.
Proof.
  destruct ps as [|x l]; [done|]. simpl.
  intros [Hx _]%andb_prop. apply andb_prop in Hx as [Hs Hk].
  apply negb_true_iff in Hs.
  destruct x as [|c' x]; [done|]. simpl in Hs.
  apply orb_false_elim in Hs as [Hc _].
  destruct l; simpl; intros [= <- _]; by apply Ascii.eqb_neq.
Qed.

Lemma splitroot_head s :
  (∀ c r, s = String c r → c ≠ SEP) →
  splitroot s = ("", s) ∧ splitroot (String SEP s) = ("/", s) ∧
  splitroot (String SEP (String SEP s)) = ("//", s).
Proof.
  intros H. destruct s as [|c r]; [done|].
  specialize (H c r eq_refl).
  destruct c as [[] [] [] [] [] [] [] []]; done.
Qed.

(** [Path(str(p))] is [p]. *)
Lemma Path_str_read p : normal p → Path_of (Path_str p) = p.
Proof.
  destruct p as [rt ps]. intros [Hr Hf]. simpl in Hr, Hf.
  pose proof (splitroot_head (join_with "/" ps)
                (fun c r => join_head ps c r Hf)) as (H0 & H1 & H2).
  pose proof (parts_read ps Hf) as Hps.
  unfold Path_str, Path_of. cbn [root parts].
  destruct Hr as [-> | [-> | ->]].
  - destruct ps as [|x l]; [done|].
    change ("" +:+ join_with "/" (x :: l)) with (join_with "/" (x :: l)).
    by rewrite H0, Hps.
  - change ("/" +:+ join_with "/" ps) with (String SEP (join_with "/" ps)).
    by rewrite H1, Hps.
  - change ("//" +:+ join_with "/" ps)
      with (String SEP (String SEP (join_with "/" ps))).
    by rewrite H2, Hps.
Qed.

(** X14.  The project path that the report and the already-exists line
    print reads back to the project directory: for every project name and
    every output option, [Path(str(project_dir))] is [project_dir]. *)
Theorem reported_path_reads_back args :
  Path_of (Path_str (Path_of (ns_output args) </> ns_project_name args))
  = Path_of (ns_output args) </> ns_project_name args.
Proof. apply Path_str_read, joinpath_normal, Path_of_normal. Qed.

(** ** The [cd] line of the report *)

(** X15.  The report tells the user to [cd] to the bare project name.
    That leads to the project only when the output directory is the working
    directory: with any other output directory the run leaves what the name
    denotes in the working directory as it was. *)
Theorem cd_hint_is_relative project_name output_dir w O :
  plain project_name = true →
  ready (keys_of TEMPLATES ROOT_FILES) w (output_dir </> project_name) = true →
  locate (fs w) (cwd w) output_dir = Ok O →
  is_Some (fs w !! cwd w) →
  ∃ w', create_project project_name output_dir w = (w', Returned 0%Z) ∧
    "  cd " +:+ project_name ∈ stdout w' ∧
    fs w' !! (O ++ [project_name]) = Some Dir ∧
    (O ≠ cwd w →
     fs w' !! (cwd w ++ [project_name]) = fs w !! (cwd w ++ [project_name])).
Proof.
  intros Hpl Hready HO Hcwd.
  destruct (create_project_with_complete TEMPLATES ROOT_FILES _ output_dir w
              manifests_ok_code Hready) as (t' & Hrun & _ & _ & Hat).
  pose proof (ready_inv _ _ _ Hready)
    as (d & c & A & Hwf & Hlp & _ & _ & Hk & _ & _ & _ & HP & _).
  apply locate_parent_ok in Hlp as (Hw & Hd & Hc).
  rewrite (joinpath_plain output_dir project_name Hpl) in Hw, Hc.
  cbn [parts] in Hw, Hc. rewrite removelast_last in Hw. rewrite last_last in Hc.
  change (start (cwd w) _) with (start (cwd w) output_dir) in Hw.
  unfold locate in HO. rewrite HO in Hw. injection Hw as <-. subst c.
  eexists. split; [exact Hrun|]. cbn [fs stdout]. rewrite !Hat, HP.
  split_and!.
  - apply elem_of_app. right. unfold banner.
    do 2 apply list_elem_of_further. apply list_elem_of_here.
  - apply expected_at.
  - intros Hne. unfold expected. rewrite strip_not_prefix; [done|].
    intros [y Hy]. destruct y as [|l y _] using rev_ind.
    + rewrite app_nil_r in Hy. by apply app_inj_tail in Hy as [? _].
    + rewrite app_assoc in Hy. apply app_inj_tail in Hy as [Hy _].
      rewrite Hy, (wf_below_absent _ _ y Hwf Hk) in Hcwd. by destruct Hcwd.
Qed.

Lemma cd_hint_is_relative_demo :
  plain "demo" = true ∧
  ready (keys_of TEMPLATES ROOT_FILES) demo_world
        (Path_of "/tmp/out" </> "demo") = true ∧
  locate (fs demo_world) (cwd demo_world) (Path_of "/tmp/out")
    = Ok ["tmp"; "out"] ∧
  is_Some (fs demo_world !! cwd demo_world) ∧
  ∃ w', create_project "demo" (Path_of "/tmp/out") demo_world
          = (w', Returned 0%Z) ∧
    "  cd " +:+ "demo" ∈ stdout w' ∧
    fs w' !! (["tmp"; "out"] ++ ["demo"]) = Some Dir ∧
    (["tmp"; "out"] ≠ cwd demo_world →
     fs w' !! (cwd demo_world ++ ["demo"])
     = fs demo_world !! (cwd demo_world ++ ["demo"])).
Proof.
  assert (is_Some (fs demo_world !! cwd demo_world)) as Hcwd
    by (exists Dir; vm_compute; reflexivity).
  split; [reflexivity|]. split; [vm_compute; reflexivity|].
  split; [vm_compute; reflexivity|]. split; [exact Hcwd|].
  apply (cd_hint_is_relative "demo" (Path_of "/tmp/out") demo_world
           ["tmp"; "out"]);
    [reflexivity|vm_compute; reflexivity|vm_compute; reflexivity|exact Hcwd].
Defined.

(** ** The error a call raises *)

Lemma raises_mono {X : Type} (F G : Path → Prop) (m : M X) :
  (∀ q, F q → G q) → raises_on F m → raises_on G m.
Proof. intros H Hm w w' e E. by eapply H, Hm. Qed.

Lemma raises_ret {X : Type} Fam (a : X) : raises_on Fam (ret a).
Proof. by intros w w' e. Qed.

Lemma raises_raise {X : Type} (Fam : Path → Prop) e :
  Fam (filename e) → raises_on Fam (@raise X e).
Proof. by intros H w w' e' [= _ <-]. Qed.

Lemma raises_print Fam s : raises_on Fam (print s).
Proof. by intros w w' e. Qed.

Lemma raises_bind {X Y : Type} Fam (m : M X) (k : X → M Y) :
  raises_on Fam m → (∀ a, raises_on Fam (k a)) → raises_on Fam (bind m k).
Proof.
  intros Hm Hk w w' e [H|(w1 & a & _ & H)]%bind_raised_inv.
  - by eapply Hm.
  - by eapply Hk.
Qed.

(** A handler is only entered with an error the body raised. *)
Lemma raises_try {X : Type} (Fam : Path → Prop) (m : M X) (h : OSError → M X) :
  raises_on Fam m →
  (∀ e1, Fam (filename e1) → raises_on Fam (h e1)) →
  raises_on Fam (try_except m h).
Proof.
  intros Hm Hh w w' e. unfold try_except.
  destruct (m w) as [w1 [a|e1]] eqn:E; [done|].
  apply Hh. by eapply Hm.
Qed.

Lemma raises_for_each {X : Type} Fam (l : list X) (body : X → M unit) :
  (∀ x, x ∈ l → raises_on Fam (body x)) → raises_on Fam (for_each l body).
Proof.
  induction l as [|x l IH]; intros H; simpl; [apply raises_ret|].
  apply raises_bind; [apply H, list_elem_of_here|]. intros _.
  apply IH. intros y Hy. by apply H, list_elem_of_further.
Qed.

(** A system call that fails raises its error for the path it was made
    on. *)
Lemma raises_sys_get {X : Type} (Fam : Path → Prop)
  (f : tree → loc → Path → res X) p :
  Fam p → raises_on Fam (sys_get f p).
Proof.
  intros H w w' e. unfold sys_get.
  destruct (f _ _ _); [done|]. by intros [= _ <-].
Qed.

Lemma raises_sys_put (Fam : Path → Prop) (f : tree → loc → Path → res tree) p :
  Fam p → raises_on Fam (sys_put f p).
Proof.
  intros H w w' e. unfold sys_put.
  destruct (f _ _ _); [done|]. by intros [= _ <-].
Qed.

Lemma raises_open_w (Fam : Path → Prop) trunc p :
  Fam p → raises_on Fam (os_open_w trunc p).
Proof.
  intros H w w' e. unfold os_open_w.
  destruct (sys_open_w _ _ _ _) as [[t k]|e1]; [done|]. by intros [= _ <-].
Qed.

Lemma raises_fd_write Fam k data : raises_on Fam (fd_write k data).
Proof. by intros w w' e. Qed.

Lemma raises_samefile Fam a b : raises_on Fam (samefile a b).
Proof. by intros w w' e. Qed.

Lemma raises_stat (Fam : Path → Prop) p : Fam p → raises_on Fam (os_stat p).
Proof. intros H. by apply raises_sys_get. Qed.

Lemma raises_mkdir (Fam : Path → Prop) p : Fam p → raises_on Fam (os_mkdir p).
Proof. intros H. by apply raises_sys_put. Qed.

Lemma raises_exists (Fam : Path → Prop) p : Fam p → raises_on Fam (Path_exists p).
Proof.
  intros H. apply raises_try.
  - apply raises_bind; [by apply raises_stat|]. intros; apply raises_ret.
  - intros e He. destruct (ignore_error e);
      [apply raises_ret|by apply raises_raise].
Qed.

Lemma raises_is_dir (Fam : Path → Prop) p : Fam p → raises_on Fam (Path_is_dir p).
Proof.
  intros H. apply raises_try.
  - apply raises_bind; [by apply raises_stat|]. intros; apply raises_ret.
  - intros e He. destruct (ignore_error e);
      [apply raises_ret|by apply raises_raise].
Qed.

Lemma raises_mkdir_rec (Fam : Path → Prop) n :
  (∀ q, Fam q → Fam (parent q)) →
  ∀ q b1 b2, Fam q → raises_on Fam (Path_mkdir_rec n q b1 b2).
Proof.
  intros Hpar. induction n as [|n IH]; intros q b1 b2 Hq; simpl.
  all: apply raises_try; [by apply raises_mkdir|].
  all: intros e He; destruct (kind e).
  all: try (destruct (negb b2); [by apply raises_raise|];
            apply raises_bind; [by apply raises_is_dir|];
            intros d; destruct (negb d);
            [by apply raises_raise|apply raises_ret]).
  - destruct (_ || _); by apply raises_raise.
  - destruct (_ || _); [by apply raises_raise|].
    apply raises_bind; [by apply IH, Hpar|]. intros _. by apply IH.
Qed.

Lemma raises_touch (Fam : Path → Prop) p : Fam p → raises_on Fam (Path_touch p).
Proof.
  intros H. apply raises_try.
  - apply raises_bind; [by apply raises_stat|]. intros; apply raises_ret.
  - intros _ _. apply raises_bind; [by apply raises_open_w|].
    intros; apply raises_ret.
Qed.

Lemma raises_write_file (Fam : Path → Prop) p data :
  Fam p → raises_on Fam (write_file p data).
Proof.
  intros H. apply raises_bind; [by apply raises_open_w|]. intros k.
  apply raises_bind; [apply raises_fd_write|]. intros; apply raises_ret.
Qed.

Lemma raises_copyfile (Fam : Path → Prop) src dst :
  Fam src → Fam dst → raises_on Fam (copyfile src dst).
Proof.
  intros Hs Hd. apply raises_bind; [apply raises_samefile|].
  intros [|]; [by apply raises_raise|].
  apply raises_bind; [by apply raises_sys_get|]. intros data.
  apply raises_try.
  - apply raises_bind; [by apply raises_write_file|].
    intros; apply raises_ret.
  - intros e He. destruct (kind e); try by apply raises_raise.
    apply raises_bind; [by apply raises_exists|].
    intros [|]; by apply raises_raise.
Qed.

Lemma raises_shutil_copy (Fam : Path → Prop) src dst :
  Fam src → Fam dst → Fam (dst </> name src) →
  raises_on Fam (shutil_copy src dst).
Proof.
  intros Hs Hd Hn. apply raises_bind; [by apply raises_is_dir|].
  intros [|]; by apply raises_copyfile.
Qed.

Lemma around_self pd : around pd pd.
Proof.
  apply below_around. split; [done|]. exists []. split; [|by rewrite app_nil_r].
  apply not_elem_of_nil.
Qed.

Lemma raises_copy_template pd ad keys e :
  safe_template e = true →
  (truthy (snd e) = true → snd e ∈ keys) →
  raises_on (own_path pd ad keys) (copy_template ad pd e).
Proof.
  destruct e as [tp sf]. unfold safe_template. simpl.
  intros [Ht Hs]%andb_prop Hin. unfold copy_template.
  pose proof (below_join pd tp Ht) as Hb.
  assert (own_path pd ad keys (pd </> tp)) as Htarget
    by (left; by apply below_around).
  apply raises_bind.
  { apply (raises_mono (around pd)); [by left|].
    apply raises_mkdir_rec; [apply around_parent|].
    by apply around_parent, below_around. }
  intros _. destruct (truthy sf) eqn:Htr; simpl in Hs;
    [|by apply raises_touch].
  assert (own_path pd ad keys (ad </> sf)) as Hsource.
  { right. exists sf. split; [by apply Hin|done]. }
  apply raises_bind; [by apply raises_exists|].
  intros [|]; [|by apply raises_touch].
  apply raises_bind; [|intros; apply raises_ret].
  apply raises_shutil_copy; try done.
  left. rewrite name_join_plain by done.
  by apply below_around, below_join_plain.
Qed.

Lemma raises_copy_root_file pd ad keys e :
  safe_root_file e = true → snd e ∈ keys →
  raises_on (own_path pd ad keys) (copy_root_file ad pd e).
Proof.
  destruct e as [tp sf]. unfold safe_root_file. simpl.
  intros [Ht Hs]%andb_prop Hin. unfold copy_root_file.
  pose proof (below_join pd tp Ht) as Hb.
  assert (own_path pd ad keys (ad </> sf)) as Hsource.
  { right. by exists sf. }
  apply raises_bind; [by apply raises_exists|].
  intros [|]; [|apply raises_ret].
  apply raises_bind; [|intros; apply raises_ret].
  apply raises_shutil_copy; try done.
  - left. by apply below_around.
  - left. rewrite name_join_plain by done.
    by apply below_around, below_join_plain.
Qed.

(** A loop that raises has stopped at one of its entries. *)
Lemma for_each_raised_inv {X : Type} (l : list X) (body : X → M unit) w w' e :
  for_each l body w = (w', Raised e) → loop_stops l body w w' e.
Proof.
  revert w. induction l as [|x l IH]; intros w; simpl; [done|].
  intros [H|(w1 & [] & H1 & H)]%bind_raised_inv.
  - by exists [], x, l, w.
  - apply IH in H as (l1 & y & l2 & wm & -> & Hl & Hb).
    exists (x :: l1), y, l2, wm. split_and!; try done.
    simpl. unfold bind. by rewrite H1.
Qed.

Lemma loop_stops_raises {X : Type} Fam (l : list X) (body : X → M unit) w w' e :
  (∀ x, x ∈ l → raises_on Fam (body x)) →
  loop_stops l body w w' e → Fam (filename e).
Proof.
  intros H (l1 & x & l2 & wm & -> & _ & Hb).
  eapply (H x); [|done]. apply elem_of_app. right. apply list_elem_of_here.
Qed.


